(** * Socket-level load balancing (bpf/bpf_sock.c): a shallow embedding

    The cgroup socket hooks of [bpf_sock.c] are embedded as functions over an
    explicit [state] (the BPF maps the hooks read and write, the metrics
    events and the kernel's pseudo-random source) and an [env] holding what
    the kernel helpers answer during one hook invocation.  Preprocessor
    switches and constants of the configuration headers are the fields of
    [config]; a function that exists under one branch of an [#ifdef] only is
    embedded as that branch.

    A pointer argument that a function writes through ([ctx], [key]) is
    returned as the function leaves it.  Integers are [Z]: a field holds a
    value in the range of its C type, and a cast or a byte swap written in
    the source is written out here.  [x mod 0] is [x], as the BPF instruction
    set has it.

    The directory readers of lib/lb.h and lib/eps.h are not part of the
    sources; they are modelled from the specification, each under a comment
    that says so. *)

From Stdlib Require Import ZArith Lia Bool List.
From stdpp Require Import base option countable gmap.

Local Open Scope Z_scope.

(** ** Build configuration *)

(** One field per [#ifdef] switch or header constant that [bpf_sock.c]
    consults.  [lb_skip_l4_dnat] is the compile-time predicate of the same
    name; [LITTLE_ENDIAN] selects what [bpf_htons]/[bpf_htonl] do. *)
Record config := {
  ENABLE_IPV4 : bool;
  ENABLE_IPV6 : bool;
  ENABLE_NODEPORT : bool;
  ENABLE_HEALTH_CHECK : bool;
  ENABLE_HOST_SERVICES_TCP : bool;
  ENABLE_HOST_SERVICES_UDP : bool;
  ENABLE_HOST_SERVICES_PEER : bool;
  ENABLE_SOCKET_LB_HOST_ONLY : bool;
  BPF_HAVE_NETNS_COOKIE : bool;
  BPF_HAVE_SOCKET_COOKIE : bool;
  BPF_HAVE_SOCKET_LOOKUP : bool;
  lb_skip_l4_dnat : bool;
  LITTLE_ENDIAN : bool;
  NODEPORT_PORT_MIN : Z;
  NODEPORT_PORT_MAX : Z;
  HOST_ID : Z;
  REMOTE_NODE_ID : Z;
  MARK_MAGIC_HEALTH : Z
}.

(** Verdicts handed back to the kernel. *)
Definition SYS_REJECT : Z := 0.
Definition SYS_PROCEED : Z := 1.

(** System constants (errno and protocol numbers of the Linux headers). *)
Definition EPERM : Z := 1.
Definition ENOENT : Z := 2.
Definition ENXIO : Z := 6.
Definition ENOMEM : Z := 12.
Definition ENOTSUP : Z := 95.
Definition EADDRINUSE : Z := 98.
Definition IPPROTO_TCP : Z := 6.
Definition IPPROTO_UDP : Z := 17.
Definition IPPROTO_UDPLITE : Z := 136.

(** ** Data model *)

(** [union v6addr], seen as its four 32-bit words [p1..p4]. *)
Record v6addr := { p1 : Z; p2 : Z; p3 : Z; p4 : Z }.

(** [struct bpf_sock_addr]: the context of the connect, bind, sendmsg,
    recvmsg and getpeername hooks. *)
Record bpf_sock_addr := {
  user_ip4 : Z;
  user_ip6 : v6addr;
  user_port : Z;
  protocol : Z
}.

(** [struct bpf_sock]: the context of the post-bind hooks. *)
Record bpf_sock := {
  src_ip4 : Z;
  src_ip6 : v6addr;
  src_port : Z;
  sk_protocol : Z
}.

(** [struct lb4_key]: the fields [bpf_sock.c] sets or reads. *)
Record lb4_key := { address : Z; dport : Z; backend_slot : Z }.

(** The service flags tested through [lb4_svc_is_*]. *)
Record svc_flags := {
  is_external_ip : bool;
  is_hostport : bool;
  is_nodeport : bool;
  is_loadbalancer : bool;
  is_localredirect : bool;
  is_affinity : bool
}.

(** [struct lb4_service]; a slot entry carries [backend_id] (here
    [slot_backend_id], the name being taken by a local variable of the
    translation functions), the frontend entry carries [count],
    [rev_nat_index] and the flags. *)
Record lb4_service := {
  slot_backend_id : Z;
  count : Z;
  rev_nat_index : Z;
  flags : svc_flags
}.

Record lb4_backend := { be_address : Z; be_port : Z }.

Record lb4_affinity_key := { aff_rev_nat_id : Z; aff_client_cookie : Z }.

Record remote_endpoint_info := { sec_label : Z }.

Record ipv4_revnat_tuple := { rt_cookie : Z; rt_address : Z; rt_port : Z }.

Record ipv4_revnat_entry :=
  { re_address : Z; re_port : Z; re_rev_nat_index : Z }.

Record lb4_health_peer := { peer_address : Z; peer_port : Z; peer_proto : Z }.

Record lb4_health := { peer : lb4_health_peer }.

(** The IPv6 counterparts.  [struct lb6_service] has the fields of
    [struct lb4_service], and the affinity key by namespace cookie is the same
    for both families. *)
Abbreviation lb6_service := lb4_service (only parsing).
Abbreviation lb6_affinity_key := lb4_affinity_key (only parsing).

Record lb6_key := { address6 : v6addr; dport6 : Z; backend_slot6 : Z }.

Record lb6_backend := { be6_address : v6addr; be6_port : Z }.

Record ipv6_revnat_tuple :=
  { rt6_cookie : Z; rt6_address : v6addr; rt6_port : Z }.

Record ipv6_revnat_entry :=
  { re6_address : v6addr; re6_port : Z; re6_rev_nat_index : Z }.

Record lb6_health_peer :=
  { peer6_address : v6addr; peer6_port : Z; peer6_proto : Z }.

Record lb6_health := { peer6 : lb6_health_peer }.

Inductive metric_dir := METRIC_EGRESS | METRIC_INGRESS.

Inductive metric_reason :=
  | REASON_LB_NO_BACKEND_SLOT
  | REASON_LB_NO_BACKEND
  | REASON_LB_REVNAT_UPDATE
  | REASON_LB_REVNAT_STALE.

#[global] Instance v6addr_eq_dec : EqDecision v6addr.
Proof. solve_decision. Defined.

#[global] Instance v6addr_countable : Countable v6addr.
Proof.
  refine (inj_countable' (fun a => (p1 a, p2 a, p3 a, p4 a))
            (fun '(a, b, c, d) => Build_v6addr a b c d) _).
  by intros [].
Defined.

#[global] Instance lb4_key_eq_dec : EqDecision lb4_key.
Proof. solve_decision. Defined.

#[global] Instance lb4_key_countable : Countable lb4_key.
Proof.
  refine (inj_countable' (fun k => (address k, dport k, backend_slot k))
            (fun '(a, d, s) => Build_lb4_key a d s) _).
  by intros [].
Defined.

#[global] Instance lb4_affinity_key_eq_dec : EqDecision lb4_affinity_key.
Proof. solve_decision. Defined.

#[global] Instance lb4_affinity_key_countable : Countable lb4_affinity_key.
Proof.
  refine (inj_countable' (fun k => (aff_rev_nat_id k, aff_client_cookie k))
            (fun '(a, c) => Build_lb4_affinity_key a c) _).
  by intros [].
Defined.

#[global] Instance ipv4_revnat_tuple_eq_dec : EqDecision ipv4_revnat_tuple.
Proof. solve_decision. Defined.

#[global] Instance ipv4_revnat_tuple_countable : Countable ipv4_revnat_tuple.
Proof.
  refine (inj_countable' (fun k => (rt_cookie k, rt_address k, rt_port k))
            (fun '(c, a, p) => Build_ipv4_revnat_tuple c a p) _).
  by intros [].
Defined.

#[global] Instance lb6_key_eq_dec : EqDecision lb6_key.
Proof. solve_decision. Defined.

#[global] Instance lb6_key_countable : Countable lb6_key.
Proof.
  refine (inj_countable' (fun k => (address6 k, dport6 k, backend_slot6 k))
            (fun '(a, d, s) => Build_lb6_key a d s) _).
  by intros [].
Defined.

#[global] Instance ipv6_revnat_tuple_eq_dec : EqDecision ipv6_revnat_tuple.
Proof. solve_decision. Defined.

#[global] Instance ipv6_revnat_tuple_countable : Countable ipv6_revnat_tuple.
Proof.
  refine (inj_countable' (fun k => (rt6_cookie k, rt6_address k, rt6_port k))
            (fun '(c, a, p) => Build_ipv6_revnat_tuple c a p) _).
  by intros [].
Defined.

(** ** The maps and the kernel state *)

(** The maps of lib/lb.h and lib/eps.h, the reverse-NAT maps declared in
    [bpf_sock.c], the metrics events in order, and the values
    [get_prandom_u32] is still to return.  [IPCACHE_MAP] is keyed by an IPv4
    or an IPv6 address. *)
Record state := {
  LB4_SERVICES_MAP_V2 : gmap lb4_key lb4_service;
  LB4_BACKEND_MAP : gmap Z lb4_backend;
  LB4_AFFINITY_MAP : gmap lb4_affinity_key Z;
  LB4_REVERSE_NAT_SK_MAP : gmap ipv4_revnat_tuple ipv4_revnat_entry;
  LB4_HEALTH_MAP : gmap Z lb4_health;
  LB6_SERVICES_MAP_V2 : gmap lb6_key lb6_service;
  LB6_BACKEND_MAP : gmap Z lb6_backend;
  LB6_AFFINITY_MAP : gmap lb6_affinity_key Z;
  LB6_REVERSE_NAT_SK_MAP : gmap ipv6_revnat_tuple ipv6_revnat_entry;
  LB6_HEALTH_MAP : gmap Z lb6_health;
  IPCACHE_MAP : gmap (Z + v6addr) remote_endpoint_info;
  METRICS : list (metric_dir * metric_reason);
  prandom : nat -> Z
}.

(** What the kernel helpers answer during one hook invocation: the cookies
    of the calling socket and of the host namespace, its [SO_MARK] (if it can
    be read), whether a socket listens on an address and port in the caller's
    namespace, whether a map update fails and with which errno, and which
    entries a least-recently-used map gives up to make room for a new one. *)
Record env := {
  netns_cookie : Z;
  host_netns_cookie : Z;
  socket_cookie : Z;
  so_mark : option Z;
  sk_lookup_tcp : Z -> Z -> bool;
  sk_lookup_udp : Z -> Z -> bool;
  revnat_update_error : option positive;
  revnat_evict : list ipv4_revnat_tuple;
  revnat6_evict : list ipv6_revnat_tuple;
  health_update_error : option positive
}.

(** Field updates of [state]. *)
Definition set_affinity (x : gmap lb4_affinity_key Z)
    (st : state) : state :=
  {| LB4_SERVICES_MAP_V2 := LB4_SERVICES_MAP_V2 st;
     LB4_BACKEND_MAP := LB4_BACKEND_MAP st;
     LB4_AFFINITY_MAP := x;
     LB4_REVERSE_NAT_SK_MAP := LB4_REVERSE_NAT_SK_MAP st;
     LB4_HEALTH_MAP := LB4_HEALTH_MAP st;
     LB6_SERVICES_MAP_V2 := LB6_SERVICES_MAP_V2 st;
     LB6_BACKEND_MAP := LB6_BACKEND_MAP st;
     LB6_AFFINITY_MAP := LB6_AFFINITY_MAP st;
     LB6_REVERSE_NAT_SK_MAP := LB6_REVERSE_NAT_SK_MAP st;
     LB6_HEALTH_MAP := LB6_HEALTH_MAP st;
     IPCACHE_MAP := IPCACHE_MAP st;
     METRICS := METRICS st;
     prandom := prandom st |}.

Definition set_revnat (x : gmap ipv4_revnat_tuple ipv4_revnat_entry)
    (st : state) : state :=
  {| LB4_SERVICES_MAP_V2 := LB4_SERVICES_MAP_V2 st;
     LB4_BACKEND_MAP := LB4_BACKEND_MAP st;
     LB4_AFFINITY_MAP := LB4_AFFINITY_MAP st;
     LB4_REVERSE_NAT_SK_MAP := x;
     LB4_HEALTH_MAP := LB4_HEALTH_MAP st;
     LB6_SERVICES_MAP_V2 := LB6_SERVICES_MAP_V2 st;
     LB6_BACKEND_MAP := LB6_BACKEND_MAP st;
     LB6_AFFINITY_MAP := LB6_AFFINITY_MAP st;
     LB6_REVERSE_NAT_SK_MAP := LB6_REVERSE_NAT_SK_MAP st;
     LB6_HEALTH_MAP := LB6_HEALTH_MAP st;
     IPCACHE_MAP := IPCACHE_MAP st;
     METRICS := METRICS st;
     prandom := prandom st |}.

Definition set_health (x : gmap Z lb4_health)
    (st : state) : state :=
  {| LB4_SERVICES_MAP_V2 := LB4_SERVICES_MAP_V2 st;
     LB4_BACKEND_MAP := LB4_BACKEND_MAP st;
     LB4_AFFINITY_MAP := LB4_AFFINITY_MAP st;
     LB4_REVERSE_NAT_SK_MAP := LB4_REVERSE_NAT_SK_MAP st;
     LB4_HEALTH_MAP := x;
     LB6_SERVICES_MAP_V2 := LB6_SERVICES_MAP_V2 st;
     LB6_BACKEND_MAP := LB6_BACKEND_MAP st;
     LB6_AFFINITY_MAP := LB6_AFFINITY_MAP st;
     LB6_REVERSE_NAT_SK_MAP := LB6_REVERSE_NAT_SK_MAP st;
     LB6_HEALTH_MAP := LB6_HEALTH_MAP st;
     IPCACHE_MAP := IPCACHE_MAP st;
     METRICS := METRICS st;
     prandom := prandom st |}.

Definition set_affinity6 (x : gmap lb6_affinity_key Z)
    (st : state) : state :=
  {| LB4_SERVICES_MAP_V2 := LB4_SERVICES_MAP_V2 st;
     LB4_BACKEND_MAP := LB4_BACKEND_MAP st;
     LB4_AFFINITY_MAP := LB4_AFFINITY_MAP st;
     LB4_REVERSE_NAT_SK_MAP := LB4_REVERSE_NAT_SK_MAP st;
     LB4_HEALTH_MAP := LB4_HEALTH_MAP st;
     LB6_SERVICES_MAP_V2 := LB6_SERVICES_MAP_V2 st;
     LB6_BACKEND_MAP := LB6_BACKEND_MAP st;
     LB6_AFFINITY_MAP := x;
     LB6_REVERSE_NAT_SK_MAP := LB6_REVERSE_NAT_SK_MAP st;
     LB6_HEALTH_MAP := LB6_HEALTH_MAP st;
     IPCACHE_MAP := IPCACHE_MAP st;
     METRICS := METRICS st;
     prandom := prandom st |}.

Definition set_revnat6 (x : gmap ipv6_revnat_tuple ipv6_revnat_entry)
    (st : state) : state :=
  {| LB4_SERVICES_MAP_V2 := LB4_SERVICES_MAP_V2 st;
     LB4_BACKEND_MAP := LB4_BACKEND_MAP st;
     LB4_AFFINITY_MAP := LB4_AFFINITY_MAP st;
     LB4_REVERSE_NAT_SK_MAP := LB4_REVERSE_NAT_SK_MAP st;
     LB4_HEALTH_MAP := LB4_HEALTH_MAP st;
     LB6_SERVICES_MAP_V2 := LB6_SERVICES_MAP_V2 st;
     LB6_BACKEND_MAP := LB6_BACKEND_MAP st;
     LB6_AFFINITY_MAP := LB6_AFFINITY_MAP st;
     LB6_REVERSE_NAT_SK_MAP := x;
     LB6_HEALTH_MAP := LB6_HEALTH_MAP st;
     IPCACHE_MAP := IPCACHE_MAP st;
     METRICS := METRICS st;
     prandom := prandom st |}.

Definition set_health6 (x : gmap Z lb6_health)
    (st : state) : state :=
  {| LB4_SERVICES_MAP_V2 := LB4_SERVICES_MAP_V2 st;
     LB4_BACKEND_MAP := LB4_BACKEND_MAP st;
     LB4_AFFINITY_MAP := LB4_AFFINITY_MAP st;
     LB4_REVERSE_NAT_SK_MAP := LB4_REVERSE_NAT_SK_MAP st;
     LB4_HEALTH_MAP := LB4_HEALTH_MAP st;
     LB6_SERVICES_MAP_V2 := LB6_SERVICES_MAP_V2 st;
     LB6_BACKEND_MAP := LB6_BACKEND_MAP st;
     LB6_AFFINITY_MAP := LB6_AFFINITY_MAP st;
     LB6_REVERSE_NAT_SK_MAP := LB6_REVERSE_NAT_SK_MAP st;
     LB6_HEALTH_MAP := x;
     IPCACHE_MAP := IPCACHE_MAP st;
     METRICS := METRICS st;
     prandom := prandom st |}.

Definition set_metrics (x : list (metric_dir * metric_reason))
    (st : state) : state :=
  {| LB4_SERVICES_MAP_V2 := LB4_SERVICES_MAP_V2 st;
     LB4_BACKEND_MAP := LB4_BACKEND_MAP st;
     LB4_AFFINITY_MAP := LB4_AFFINITY_MAP st;
     LB4_REVERSE_NAT_SK_MAP := LB4_REVERSE_NAT_SK_MAP st;
     LB4_HEALTH_MAP := LB4_HEALTH_MAP st;
     LB6_SERVICES_MAP_V2 := LB6_SERVICES_MAP_V2 st;
     LB6_BACKEND_MAP := LB6_BACKEND_MAP st;
     LB6_AFFINITY_MAP := LB6_AFFINITY_MAP st;
     LB6_REVERSE_NAT_SK_MAP := LB6_REVERSE_NAT_SK_MAP st;
     LB6_HEALTH_MAP := LB6_HEALTH_MAP st;
     IPCACHE_MAP := IPCACHE_MAP st;
     METRICS := x;
     prandom := prandom st |}.

Definition set_prandom (x : nat -> Z)
    (st : state) : state :=
  {| LB4_SERVICES_MAP_V2 := LB4_SERVICES_MAP_V2 st;
     LB4_BACKEND_MAP := LB4_BACKEND_MAP st;
     LB4_AFFINITY_MAP := LB4_AFFINITY_MAP st;
     LB4_REVERSE_NAT_SK_MAP := LB4_REVERSE_NAT_SK_MAP st;
     LB4_HEALTH_MAP := LB4_HEALTH_MAP st;
     LB6_SERVICES_MAP_V2 := LB6_SERVICES_MAP_V2 st;
     LB6_BACKEND_MAP := LB6_BACKEND_MAP st;
     LB6_AFFINITY_MAP := LB6_AFFINITY_MAP st;
     LB6_REVERSE_NAT_SK_MAP := LB6_REVERSE_NAT_SK_MAP st;
     LB6_HEALTH_MAP := LB6_HEALTH_MAP st;
     IPCACHE_MAP := IPCACHE_MAP st;
     METRICS := METRICS st;
     prandom := x |}.

(** ** Kernel helpers and collaborators outside [bpf_sock.c] *)

(** [get_prandom_u32()]: the next value of the pseudo-random source; every
    call consumes one. *)
Definition get_prandom_u32 (st : state) : Z * state :=
  (prandom st 0%nat, set_prandom (fun n => prandom st (S n)) st).

(** [update_metrics(0, dir, reason)]: one more event counted. *)
Definition update_metrics (d : metric_dir) (r : metric_reason)
    (st : state) : state :=
  set_metrics (METRICS st ++ [(d, r)]) st.

(** [map_update_elem] on a fixed-capacity map: either the helper fails with
    [-errno] and the map is as before, or the entry is written. *)
Definition map_update_elem {K V} `{Countable K} (err : option positive)
    (m : gmap K V) (k : K) (v : V) : Z * gmap K V :=
  match err with
  | Some errno => (- Z.pos errno, m)
  | None => (0, <[k := v]> m)
  end.

(** [map_update_elem] on a [BPF_MAP_TYPE_LRU_HASH] map: as above, except that
    making room for a key the map does not hold yet may evict the entries
    [evict]. *)
Definition lru_update_elem {K V} `{Countable K} (err : option positive)
    (evict : list K) (m : gmap K V) (k : K) (v : V) : Z * gmap K V :=
  match err with
  | Some errno => (- Z.pos errno, m)
  | None =>
      (0, <[k := v]> (match m !! k with
                      | Some _ => m
                      | None => foldr delete m evict
                      end))
  end.

(** Modelled from the spec: [lb4_lookup_service] of lib/lb.h is not among the
    sources.  "Exact lookup matches (address, port, protocol) verbatim", and
    "backend_slot = 0 means resolve the frontend itself". *)
Definition lb4_lookup_service (st : state) (key : lb4_key)
    : option lb4_service :=
  LB4_SERVICES_MAP_V2 st
    !! {| address := address key; dport := dport key; backend_slot := 0 |}.

(** Modelled from the spec: [__lb4_lookup_backend_slot] of lib/lb.h is not
    among the sources.  A key with [backend_slot > 0] "indexes a specific
    backend slot" of the same directory. *)
Definition __lb4_lookup_backend_slot (st : state) (key : lb4_key)
    : option lb4_service :=
  LB4_SERVICES_MAP_V2 st !! key.

(** Modelled from the spec: [__lb4_lookup_backend] of lib/lb.h is not among
    the sources.  A backend record is "looked up by identifier". *)
Definition __lb4_lookup_backend (st : state) (id : Z) : option lb4_backend :=
  LB4_BACKEND_MAP st !! id.

(** Modelled from the spec: [lb4_affinity_backend_id_by_netns] of lib/lb.h is
    not among the sources.  The affinity table is "keyed by (service,
    client-identity-cookie); value = chosen backend identifier", and the
    engine "never expires" entries; no entry reads as identifier 0. *)
Definition lb4_affinity_backend_id_by_netns (st : state) (svc : lb4_service)
    (client_cookie : Z) : Z :=
  default 0 (LB4_AFFINITY_MAP st
               !! {| aff_rev_nat_id := rev_nat_index svc;
                     aff_client_cookie := client_cookie |}).

(** Modelled from the spec: [lb4_update_affinity_by_netns] of lib/lb.h is not
    among the sources.  It must "write a new affinity entry unconditionally
    (overwriting any racing entry)". *)
Definition lb4_update_affinity_by_netns (st : state) (svc : lb4_service)
    (client_cookie : Z) (id : Z) : state :=
  set_affinity (<[ {| aff_rev_nat_id := rev_nat_index svc;
                      aff_client_cookie := client_cookie |} := id ]>
                  (LB4_AFFINITY_MAP st)) st.

(** Modelled from the spec: [ipcache_lookup4] of lib/eps.h is not among the
    sources.  It is "a trust/identity classification lookup keyed by address
    returning a security label"; the hooks ask for the full-length prefix. *)
Definition ipcache_lookup4 (st : state) (addr : Z)
    : option remote_endpoint_info :=
  IPCACHE_MAP st !! (inl addr : Z + v6addr).

(** Modelled from the spec: the IPv6 directory readers of lib/lb.h and
    lib/eps.h are not among the sources either; "both address families
    symmetric", they are the IPv4 ones over the IPv6 maps. *)
Definition lb6_lookup_service (st : state) (key : lb6_key)
    : option lb6_service :=
  LB6_SERVICES_MAP_V2 st
    !! {| address6 := address6 key; dport6 := dport6 key;
          backend_slot6 := 0 |}.

Definition __lb6_lookup_backend_slot (st : state) (key : lb6_key)
    : option lb6_service :=
  LB6_SERVICES_MAP_V2 st !! key.

Definition __lb6_lookup_backend (st : state) (id : Z) : option lb6_backend :=
  LB6_BACKEND_MAP st !! id.

Definition lb6_affinity_backend_id_by_netns (st : state) (svc : lb6_service)
    (client_cookie : Z) : Z :=
  default 0 (LB6_AFFINITY_MAP st
               !! {| aff_rev_nat_id := rev_nat_index svc;
                     aff_client_cookie := client_cookie |}).

Definition lb6_update_affinity_by_netns (st : state) (svc : lb6_service)
    (client_cookie : Z) (id : Z) : state :=
  set_affinity6 (<[ {| aff_rev_nat_id := rev_nat_index svc;
                       aff_client_cookie := client_cookie |} := id ]>
                   (LB6_AFFINITY_MAP st)) st.

Definition ipcache_lookup6 (st : state) (addr : v6addr)
    : option remote_endpoint_info :=
  IPCACHE_MAP st !! (inr addr : Z + v6addr).

(** [ipv6_addrcmp(a, b) == 0] of lib/ipv6.h: the four words agree. *)
Definition ipv6_addr_equal (a b : v6addr) : bool :=
  (p1 a =? p1 b) && (p2 a =? p2 b) && (p3 a =? p3 b) && (p4 a =? p4 b).

(** The flag tests [lb4_svc_is_*] and [lb6_svc_is_*] of lib/lb.h. *)
Definition lb4_svc_is_external_ip (svc : lb4_service) : bool :=
  is_external_ip (flags svc).
Definition lb4_svc_is_hostport (svc : lb4_service) : bool :=
  is_hostport (flags svc).
Definition lb4_svc_is_nodeport (svc : lb4_service) : bool :=
  is_nodeport (flags svc).
Definition lb4_svc_is_loadbalancer (svc : lb4_service) : bool :=
  is_loadbalancer (flags svc).
Definition lb4_svc_is_localredirect (svc : lb4_service) : bool :=
  is_localredirect (flags svc).
Definition lb4_svc_is_affinity (svc : lb4_service) : bool :=
  is_affinity (flags svc).
Definition lb6_svc_is_external_ip (svc : lb6_service) : bool :=
  is_external_ip (flags svc).
Definition lb6_svc_is_hostport (svc : lb6_service) : bool :=
  is_hostport (flags svc).
Definition lb6_svc_is_nodeport (svc : lb6_service) : bool :=
  is_nodeport (flags svc).
Definition lb6_svc_is_loadbalancer (svc : lb6_service) : bool :=
  is_loadbalancer (flags svc).
Definition lb6_svc_is_affinity (svc : lb6_service) : bool :=
  is_affinity (flags svc).

(** Byte swaps of a 16-bit and of a 32-bit value. *)
Definition bswap16 (x : Z) : Z :=
  Z.lor (Z.shiftl (Z.land x 255) 8) (Z.land (Z.shiftr x 8) 255).

Definition bswap32 (x : Z) : Z :=
  Z.lor (Z.shiftl (bswap16 (Z.land x 65535)) 16)
        (bswap16 (Z.land (Z.shiftr x 16) 65535)).

(** ** The hooks *)

Section Hooks.

Variable cfg : config.

Definition bpf_htons (x : Z) : Z :=
  if LITTLE_ENDIAN cfg then bswap16 (Z.land x 65535) else Z.land x 65535.

Definition bpf_ntohs (x : Z) : Z := bpf_htons x.

Definition bpf_htonl (x : Z) : Z :=
  if LITTLE_ENDIAN cfg then bswap32 (Z.land x 4294967295)
  else Z.land x 4294967295.

(** Check for 127.0.0.0/8 range, RFC3330. *)
Definition is_v4_loopback (daddr : Z) : bool :=
  Z.land daddr (bpf_htonl 2130706432) =? bpf_htonl 2130706432.

Definition ctx_dst_port (ctx : bpf_sock_addr) : Z :=
  Z.land (user_port ctx) 65535.

Definition ctx_src_port (ctx : bpf_sock) : Z :=
  bpf_htons (src_port ctx).

Definition ctx_set_port (ctx : bpf_sock_addr) (port : Z) : bpf_sock_addr :=
  {| user_ip4 := user_ip4 ctx; user_ip6 := user_ip6 ctx;
     user_port := port; protocol := protocol ctx |}.

Definition ctx_set_ip4 (ctx : bpf_sock_addr) (ip : Z) : bpf_sock_addr :=
  {| user_ip4 := ip; user_ip6 := user_ip6 ctx;
     user_port := user_port ctx; protocol := protocol ctx |}.

(** Returns whether the caller is in the host namespace, and the cookie
    stored through the [cookie] pointer. *)
Definition ctx_in_hostns (e : env) : bool * Z :=
  if BPF_HAVE_NETNS_COOKIE cfg
  then (netns_cookie e =? host_netns_cookie e, netns_cookie e)
  else (true, 0).

Definition sock_local_cookie (e : env) (ctx : bpf_sock_addr) (st : state)
    : Z * state :=
  if BPF_HAVE_SOCKET_COOKIE cfg then (socket_cookie e, st)
  else if protocol ctx =? IPPROTO_TCP then get_prandom_u32 st
  else (0, st).

Definition sock_is_health_check (e : env) : bool :=
  if ENABLE_HEALTH_CHECK cfg then
    match so_mark e with
    | Some val => val =? MARK_MAGIC_HEALTH cfg
    | None => false
    end
  else false.

Definition sock_select_slot (e : env) (ctx : bpf_sock_addr) (st : state)
    : Z * state :=
  if protocol ctx =? IPPROTO_TCP then get_prandom_u32 st
  else sock_local_cookie e ctx st.

Definition sock_proto_enabled (proto : Z) : bool :=
  if ENABLE_HOST_SERVICES_TCP cfg && (proto =? IPPROTO_TCP) then true
  else if ENABLE_HOST_SERVICES_UDP cfg
          && ((proto =? IPPROTO_UDPLITE) || (proto =? IPPROTO_UDP)) then true
  else false.

(** [memcmp(tmp, &val, sizeof(val)) == 0] on two reverse-NAT entries. *)
Definition revnat_entry_eqb (a b : ipv4_revnat_entry) : bool :=
  (re_address a =? re_address b) && (re_port a =? re_port b)
  && (re_rev_nat_index a =? re_rev_nat_index b).

Definition sock4_update_revnat (e : env) (ctx : bpf_sock_addr)
    (backend : lb4_backend) (orig_key : lb4_key) (rev_nat_id : Z)
    (st : state) : Z * state :=
  if ENABLE_HOST_SERVICES_UDP cfg || ENABLE_HOST_SERVICES_PEER cfg then
    let '(cookie, st) := sock_local_cookie e ctx st in
    let key := {| rt_cookie := cookie; rt_address := be_address backend;
                  rt_port := be_port backend |} in
    let val := {| re_address := address orig_key; re_port := dport orig_key;
                  re_rev_nat_index := rev_nat_id |} in
    let tmp := LB4_REVERSE_NAT_SK_MAP st !! key in
    if match tmp with
       | None => true
       | Some t => negb (revnat_entry_eqb t val)
       end
    then
      let '(ret, m) := lru_update_elem (revnat_update_error e)
                         (revnat_evict e)
                         (LB4_REVERSE_NAT_SK_MAP st) key val in
      (ret, set_revnat m st)
    else (0, st)
  else (0, st).

Definition sock4_skip_xlate (st : state) (svc : lb4_service) (addr : Z)
    : bool :=
  if lb4_svc_is_external_ip svc
     || (lb4_svc_is_hostport svc && negb (is_v4_loopback addr))
  then
    match ipcache_lookup4 st addr with
    | None => true
    | Some info => negb (sec_label info =? HOST_ID cfg)
    end
  else false.

(** The key is passed by pointer: the function returns it as it leaves it. *)
Definition sock4_wildcard_lookup (st : state) (key : lb4_key)
    (include_remote_hosts inv_match in_hostns : bool)
    : lb4_key * option lb4_service :=
  let service_port := bpf_ntohs (dport key) in
  if xorb ((service_port <? NODEPORT_PORT_MIN cfg)
           || (service_port >? NODEPORT_PORT_MAX cfg)) inv_match
  then (key, None)
  else
    let wildcard_lookup :=
      let key := {| address := 0; dport := dport key;
                    backend_slot := backend_slot key |} in
      (key, lb4_lookup_service st key) in
    if in_hostns && is_v4_loopback (address key) then wildcard_lookup
    else
      match ipcache_lookup4 st (address key) with
      | Some info =>
          if (sec_label info =? HOST_ID cfg)
             || (include_remote_hosts
                 && (sec_label info =? REMOTE_NODE_ID cfg))
          then wildcard_lookup
          else (key, None)
      | None => (key, None)
      end.

Definition sock4_wildcard_lookup_full (st : state) (key : lb4_key)
    (in_hostns : bool) : lb4_key * option lb4_service :=
  if ENABLE_NODEPORT cfg then
    let '(key, svc) := sock4_wildcard_lookup st key true false in_hostns in
    let svc := match svc with
               | Some s => if negb (lb4_svc_is_nodeport s) then None else svc
               | None => None
               end in
    match svc with
    | Some _ => (key, svc)
    | None =>
        let '(key, svc) :=
          sock4_wildcard_lookup st key false true in_hostns in
        let svc := match svc with
                   | Some s =>
                       if negb (lb4_svc_is_hostport s) then None else svc
                   | None => None
                   end in
        (key, svc)
    end
  else (key, None).

Definition sock4_skip_xlate_if_same_netns (e : env) (ctx : bpf_sock_addr)
    (backend : lb4_backend) : bool :=
  if BPF_HAVE_SOCKET_LOOKUP cfg then
    if protocol ctx =? IPPROTO_TCP
    then sk_lookup_tcp e (be_address backend) (be_port backend)
    else if protocol ctx =? IPPROTO_UDP
    then sk_lookup_udp e (be_address backend) (be_port backend)
    else false
  else false.

(** Returns the error code, the context [ctx] as the call leaves it, and the
    state.  [ctx_full] is the socket's own context; it is only read. *)
Definition __sock4_xlate_fwd (e : env) (ctx ctx_full : bpf_sock_addr)
    (udp_only : bool) (st : state) : Z * bpf_sock_addr * state :=
  let '(in_hostns, client_cookie) := ctx_in_hostns e in
  let key := {| address := user_ip4 ctx; dport := ctx_dst_port ctx;
                backend_slot := 0 |} in
  let orig_key := key in
  if ENABLE_SOCKET_LB_HOST_ONLY cfg && negb in_hostns then (- ENXIO, ctx, st)
  else if negb udp_only && negb (sock_proto_enabled (protocol ctx))
  then (- ENOTSUP, ctx, st)
  else
    let '(key, svc) :=
      match lb4_lookup_service st key with
      | Some s => (key, Some s)
      | None => sock4_wildcard_lookup_full st key in_hostns
      end in
    match svc with
    | None => (- ENXIO, ctx, st)
    | Some svc =>
      if sock4_skip_xlate st svc (address orig_key) then (- EPERM, ctx, st)
      else
        (* session affinity *)
        let '(backend_id, backend, backend_from_affinity) :=
          if lb4_svc_is_affinity svc then
            let backend_id :=
              lb4_affinity_backend_id_by_netns st svc client_cookie in
            if negb (backend_id =? 0) then
              match __lb4_lookup_backend st backend_id with
              | Some b => (backend_id, Some b, true)
              | None => (0, None, true)
              end
            else (backend_id, None, true)
          else (0, None, false) in
        (* slot selection *)
        let select :=
          if backend_id =? 0 then
            let '(sel, st) := sock_select_slot e ctx_full st in
            let key := {| address := address key; dport := dport key;
                          backend_slot := sel mod count svc + 1 |} in
            match __lb4_lookup_backend_slot st key with
            | None =>
                inl (update_metrics METRIC_EGRESS REASON_LB_NO_BACKEND_SLOT st)
            | Some backend_slot =>
                let backend_id := slot_backend_id backend_slot in
                inr (backend_id, __lb4_lookup_backend st backend_id, false, st)
            end
          else inr (backend_id, backend, backend_from_affinity, st) in
        match select with
        | inl st => (- ENOENT, ctx, st)
        | inr (backend_id, None, _, st) =>
            (- ENOENT, ctx,
             update_metrics METRIC_EGRESS REASON_LB_NO_BACKEND st)
        | inr (backend_id, Some backend, backend_from_affinity, st) =>
          if lb4_svc_is_localredirect svc
             && sock4_skip_xlate_if_same_netns e ctx_full backend
          then (- ENXIO, ctx, st)
          else
            let st :=
              if lb4_svc_is_affinity svc && negb backend_from_affinity
              then lb4_update_affinity_by_netns st svc client_cookie backend_id
              else st in
            let '(ret, st) :=
              sock4_update_revnat e ctx_full backend orig_key
                (rev_nat_index svc) st in
            if ret <? 0
            then (- ENOMEM, ctx,
                  update_metrics METRIC_EGRESS REASON_LB_REVNAT_UPDATE st)
            else
              let ctx := ctx_set_ip4 ctx (be_address backend) in
              let ctx := ctx_set_port ctx (be_port backend) in
              (0, ctx, st)
        end
    end.

Definition __sock4_health_fwd (e : env) (ctx : bpf_sock_addr) (st : state)
    : Z * bpf_sock_addr :=
  let ret := if lb_skip_l4_dnat cfg then SYS_PROCEED else SYS_REJECT in
  if ENABLE_HEALTH_CHECK cfg then
    let key := socket_cookie e in
    let val := if negb (lb_skip_l4_dnat cfg) then LB4_HEALTH_MAP st !! key
               else None in
    match val with
    | Some v => (SYS_PROCEED, ctx_set_port ctx (peer_port (peer v)))
    | None => (ret, ctx)
    end
  else (ret, ctx).

(** [cgroup/connect4] *)
Definition sock4_connect (e : env) (ctx : bpf_sock_addr) (st : state)
    : Z * bpf_sock_addr * state :=
  if sock_is_health_check e then
    let '(ret, ctx) := __sock4_health_fwd e ctx st in (ret, ctx, st)
  else
    let '(_, ctx, st) := __sock4_xlate_fwd e ctx ctx false st in
    (SYS_PROCEED, ctx, st).

Definition __sock4_post_bind (e : env) (ctx ctx_full : bpf_sock) (st : state)
    : Z :=
  let key := {| address := src_ip4 ctx; dport := ctx_src_port ctx;
                backend_slot := 0 |} in
  if negb (sock_proto_enabled (sk_protocol ctx))
     || negb (fst (ctx_in_hostns e))
  then 0
  else
    let svc :=
      match lb4_lookup_service st key with
      | Some s => Some s
      | None => snd (sock4_wildcard_lookup st key false false true)
      end in
    match svc with
    | Some svc =>
        if lb4_svc_is_nodeport svc || lb4_svc_is_external_ip svc
           || lb4_svc_is_loadbalancer svc
        then - EADDRINUSE
        else 0
    | None => 0
    end.

(** [cgroup/post_bind4] *)
Definition sock4_post_bind (e : env) (ctx : bpf_sock) (st : state) : Z :=
  if __sock4_post_bind e ctx ctx st <? 0 then SYS_REJECT else SYS_PROCEED.

Definition sock4_auto_bind (ctx : bpf_sock_addr) : bpf_sock_addr :=
  ctx_set_port (ctx_set_ip4 ctx 0) 0.

Definition __sock4_pre_bind (e : env) (ctx ctx_full : bpf_sock_addr)
    (st : state) : Z * bpf_sock_addr * state :=
  let key := socket_cookie e in
  let val := {| peer := {| peer_address := user_ip4 ctx;
                           peer_port := ctx_dst_port ctx;
                           peer_proto := protocol ctx |} |} in
  let '(ret, m) := map_update_elem (health_update_error e)
                     (LB4_HEALTH_MAP st) key val in
  let st := set_health m st in
  if ret =? 0 then (ret, sock4_auto_bind ctx, st) else (ret, ctx, st).

(** [cgroup/bind4] *)
Definition sock4_pre_bind (e : env) (ctx : bpf_sock_addr) (st : state)
    : Z * bpf_sock_addr * state :=
  let ret := SYS_PROCEED in
  if negb (sock_proto_enabled (protocol ctx)) || negb (fst (ctx_in_hostns e))
  then (ret, ctx, st)
  else if sock_is_health_check e then
    let '(r, ctx, st) := __sock4_pre_bind e ctx ctx st in
    if negb (r =? 0) then (SYS_REJECT, ctx, st) else (ret, ctx, st)
  else (ret, ctx, st).

Definition __sock4_xlate_rev (e : env) (ctx ctx_full : bpf_sock_addr)
    (st : state) : Z * bpf_sock_addr * state :=
  let '(cookie, st) := sock_local_cookie e ctx_full st in
  let key := {| rt_cookie := cookie; rt_address := user_ip4 ctx;
                rt_port := ctx_dst_port ctx |} in
  match LB4_REVERSE_NAT_SK_MAP st !! key with
  | Some val =>
      let svc_key := {| address := re_address val; dport := re_port val;
                        backend_slot := 0 |} in
      let svc :=
        match lb4_lookup_service st svc_key with
        | Some s => Some s
        | None =>
            snd (sock4_wildcard_lookup_full st svc_key (fst (ctx_in_hostns e)))
        end in
      if match svc with
         | None => true
         | Some s => negb (rev_nat_index s =? re_rev_nat_index val)
         end
      then
        let st := set_revnat (delete key (LB4_REVERSE_NAT_SK_MAP st)) st in
        (- ENOENT, ctx,
         update_metrics METRIC_INGRESS REASON_LB_REVNAT_STALE st)
      else
        let ctx := ctx_set_ip4 ctx (re_address val) in
        let ctx := ctx_set_port ctx (re_port val) in
        (0, ctx, st)
  | None => (- ENXIO, ctx, st)
  end.

(** [cgroup/sendmsg4] *)
Definition sock4_sendmsg (e : env) (ctx : bpf_sock_addr) (st : state)
    : Z * bpf_sock_addr * state :=
  let '(_, ctx, st) := __sock4_xlate_fwd e ctx ctx true st in
  (SYS_PROCEED, ctx, st).

(** [cgroup/recvmsg4] *)
Definition sock4_recvmsg (e : env) (ctx : bpf_sock_addr) (st : state)
    : Z * bpf_sock_addr * state :=
  let '(_, ctx, st) := __sock4_xlate_rev e ctx ctx st in
  (SYS_PROCEED, ctx, st).

(** [cgroup/getpeername4] *)
Definition sock4_getpeername (e : env) (ctx : bpf_sock_addr) (st : state)
    : Z * bpf_sock_addr * state :=
  let '(_, ctx, st) := __sock4_xlate_rev e ctx ctx st in
  (SYS_PROCEED, ctx, st).

(** *** IPv6 and IPv4-mapped IPv6 *)

(** Check for ::1/128, RFC4291. *)
Definition is_v6_loopback (daddr : v6addr) : bool :=
  ipv6_addr_equal {| p1 := 0; p2 := 0; p3 := 0; p4 := bpf_htonl 1 |} daddr.

(** Check for ::FFFF:<IPv4 address>. *)
Definition is_v4_in_v6 (daddr : v6addr) : bool :=
  let dprobe := {| p1 := 0; p2 := 0; p3 := bpf_htonl 65535; p4 := 0 |} in
  let dmasked := {| p1 := p1 daddr; p2 := p2 daddr; p3 := p3 daddr;
                    p4 := 0 |} in
  ipv6_addr_equal dprobe dmasked.

Definition build_v4_in_v6 (v4 : Z) : v6addr :=
  {| p1 := 0; p2 := 0; p3 := bpf_htonl 65535; p4 := v4 |}.

Definition ctx_get_v6_address (ctx : bpf_sock_addr) : v6addr :=
  {| p1 := p1 (user_ip6 ctx); p2 := p2 (user_ip6 ctx);
     p3 := p3 (user_ip6 ctx); p4 := p4 (user_ip6 ctx) |}.

Definition ctx_get_v6_src_address (ctx : bpf_sock) : v6addr :=
  {| p1 := p1 (src_ip6 ctx); p2 := p2 (src_ip6 ctx);
     p3 := p3 (src_ip6 ctx); p4 := p4 (src_ip6 ctx) |}.

Definition ctx_set_v6_address (ctx : bpf_sock_addr) (addr : v6addr)
    : bpf_sock_addr :=
  {| user_ip4 := user_ip4 ctx;
     user_ip6 := {| p1 := p1 addr; p2 := p2 addr; p3 := p3 addr;
                    p4 := p4 addr |};
     user_port := user_port ctx; protocol := protocol ctx |}.

(** [memcmp(tmp, &val, sizeof(val)) == 0] on two IPv6 reverse-NAT entries. *)
Definition revnat6_entry_eqb (a b : ipv6_revnat_entry) : bool :=
  ipv6_addr_equal (re6_address a) (re6_address b)
  && (re6_port a =? re6_port b)
  && (re6_rev_nat_index a =? re6_rev_nat_index b).

Definition sock6_update_revnat (e : env) (ctx : bpf_sock_addr)
    (backend : lb6_backend) (orig_key : lb6_key) (rev_nat_index : Z)
    (st : state) : Z * state :=
  if ENABLE_HOST_SERVICES_UDP cfg || ENABLE_HOST_SERVICES_PEER cfg then
    let '(cookie, st) := sock_local_cookie e ctx st in
    let key := {| rt6_cookie := cookie; rt6_address := be6_address backend;
                  rt6_port := be6_port backend |} in
    let val := {| re6_address := address6 orig_key;
                  re6_port := dport6 orig_key;
                  re6_rev_nat_index := rev_nat_index |} in
    let tmp := LB6_REVERSE_NAT_SK_MAP st !! key in
    if match tmp with
       | None => true
       | Some t => negb (revnat6_entry_eqb t val)
       end
    then
      let '(ret, m) := lru_update_elem (revnat_update_error e)
                         (revnat6_evict e)
                         (LB6_REVERSE_NAT_SK_MAP st) key val in
      (ret, set_revnat6 m st)
    else (0, st)
  else (0, st).

Definition sock6_skip_xlate (st : state) (svc : lb6_service) (addr : v6addr)
    : bool :=
  if lb6_svc_is_external_ip svc
     || (lb6_svc_is_hostport svc && negb (is_v6_loopback addr))
  then
    match ipcache_lookup6 st addr with
    | None => true
    | Some info => negb (sec_label info =? HOST_ID cfg)
    end
  else false.

Definition sock6_wildcard_lookup (st : state) (key : lb6_key)
    (include_remote_hosts inv_match in_hostns : bool)
    : lb6_key * option lb6_service :=
  let service_port := bpf_ntohs (dport6 key) in
  if xorb ((service_port <? NODEPORT_PORT_MIN cfg)
           || (service_port >? NODEPORT_PORT_MAX cfg)) inv_match
  then (key, None)
  else
    let wildcard_lookup :=
      let key := {| address6 := {| p1 := 0; p2 := 0; p3 := 0; p4 := 0 |};
                    dport6 := dport6 key;
                    backend_slot6 := backend_slot6 key |} in
      (key, lb6_lookup_service st key) in
    if in_hostns && is_v6_loopback (address6 key) then wildcard_lookup
    else
      match ipcache_lookup6 st (address6 key) with
      | Some info =>
          if (sec_label info =? HOST_ID cfg)
             || (include_remote_hosts
                 && (sec_label info =? REMOTE_NODE_ID cfg))
          then wildcard_lookup
          else (key, None)
      | None => (key, None)
      end.

Definition sock6_wildcard_lookup_full (st : state) (key : lb6_key)
    (in_hostns : bool) : lb6_key * option lb6_service :=
  if ENABLE_NODEPORT cfg then
    let '(key, svc) := sock6_wildcard_lookup st key true false in_hostns in
    let svc := match svc with
               | Some s => if negb (lb6_svc_is_nodeport s) then None else svc
               | None => None
               end in
    match svc with
    | Some _ => (key, svc)
    | None =>
        let '(key, svc) :=
          sock6_wildcard_lookup st key false true in_hostns in
        let svc := match svc with
                   | Some s =>
                       if negb (lb6_svc_is_hostport s) then None else svc
                   | None => None
                   end in
        (key, svc)
    end
  else (key, None).

(** The zeroed [fake_ctx] of the IPv4-mapped paths. *)
Definition fake_ctx_of (ctx : bpf_sock_addr) (addr6 : v6addr)
    : bpf_sock_addr :=
  {| user_ip4 := p4 addr6;
     user_ip6 := {| p1 := 0; p2 := 0; p3 := 0; p4 := 0 |};
     user_port := ctx_dst_port ctx;
     protocol := protocol ctx |}.

Definition sock6_xlate_v4_in_v6 (e : env) (ctx : bpf_sock_addr)
    (udp_only : bool) (st : state) : Z * bpf_sock_addr * state :=
  if ENABLE_IPV4 cfg then
    let addr6 := ctx_get_v6_address ctx in
    if negb (is_v4_in_v6 addr6) then (- ENXIO, ctx, st)
    else
      let fake_ctx := fake_ctx_of ctx addr6 in
      let '(ret, fake_ctx, st) :=
        __sock4_xlate_fwd e fake_ctx ctx udp_only st in
      if ret <? 0 then (ret, ctx, st)
      else
        let addr6 := build_v4_in_v6 (user_ip4 fake_ctx) in
        let ctx := ctx_set_v6_address ctx addr6 in
        let ctx := ctx_set_port ctx (user_port fake_ctx) in
        (0, ctx, st)
  else (- ENXIO, ctx, st).

Definition sock6_post_bind_v4_in_v6 (e : env) (ctx : bpf_sock) (st : state)
    : Z :=
  if ENABLE_IPV4 cfg then
    let addr6 := ctx_get_v6_src_address ctx in
    if negb (is_v4_in_v6 addr6) then 0
    else
      let fake_ctx := {| src_ip4 := p4 addr6;
                         src_ip6 := {| p1 := 0; p2 := 0; p3 := 0; p4 := 0 |};
                         src_port := src_port ctx;
                         sk_protocol := sk_protocol ctx |} in
      __sock4_post_bind e fake_ctx ctx st
  else 0.

Definition __sock6_post_bind (e : env) (ctx : bpf_sock) (st : state) : Z :=
  if negb (sock_proto_enabled (sk_protocol ctx))
     || negb (fst (ctx_in_hostns e))
  then 0
  else
    let key := {| address6 := ctx_get_v6_src_address ctx;
                  dport6 := ctx_src_port ctx; backend_slot6 := 0 |} in
    let found :=
      match lb6_lookup_service st key with
      | Some s => Some s
      | None => snd (sock6_wildcard_lookup st key false false true)
      end in
    match found with
    | None => sock6_post_bind_v4_in_v6 e ctx st
    | Some svc =>
        if lb6_svc_is_nodeport svc || lb6_svc_is_external_ip svc
           || lb6_svc_is_loadbalancer svc
        then - EADDRINUSE
        else 0
    end.

(** [cgroup/post_bind6] *)
Definition sock6_post_bind (e : env) (ctx : bpf_sock) (st : state) : Z :=
  if __sock6_post_bind e ctx st <? 0 then SYS_REJECT else SYS_PROCEED.

Definition sock6_pre_bind_v4_in_v6 (e : env) (ctx : bpf_sock_addr)
    (st : state) : Z * bpf_sock_addr * state :=
  if ENABLE_IPV4 cfg then
    let addr6 := ctx_get_v6_address ctx in
    let fake_ctx := fake_ctx_of ctx addr6 in
    let '(ret, fake_ctx, st) := __sock4_pre_bind e fake_ctx ctx st in
    if ret <? 0 then (ret, ctx, st)
    else
      let addr6 := build_v4_in_v6 (user_ip4 fake_ctx) in
      let ctx := ctx_set_v6_address ctx addr6 in
      let ctx := ctx_set_port ctx (user_port fake_ctx) in
      (0, ctx, st)
  else (0, ctx, st).

Definition sock6_auto_bind (ctx : bpf_sock_addr) : bpf_sock_addr :=
  ctx_set_port
    (ctx_set_v6_address ctx {| p1 := 0; p2 := 0; p3 := 0; p4 := 0 |}) 0.

Definition __sock6_pre_bind (e : env) (ctx : bpf_sock_addr) (st : state)
    : Z * bpf_sock_addr * state :=
  let val := {| peer6 := {| peer6_address := ctx_get_v6_address ctx;
                            peer6_port := ctx_dst_port ctx;
                            peer6_proto := protocol ctx |} |} in
  if is_v4_in_v6 (peer6_address (peer6 val))
  then sock6_pre_bind_v4_in_v6 e ctx st
  else if ENABLE_IPV6 cfg then
    let key := socket_cookie e in
    let '(ret, m) := map_update_elem (health_update_error e)
                       (LB6_HEALTH_MAP st) key val in
    let st := set_health6 m st in
    if ret =? 0 then (ret, sock6_auto_bind ctx, st) else (ret, ctx, st)
  else (0, ctx, st).

(** [cgroup/bind6] *)
Definition sock6_pre_bind (e : env) (ctx : bpf_sock_addr) (st : state)
    : Z * bpf_sock_addr * state :=
  let ret := SYS_PROCEED in
  if negb (sock_proto_enabled (protocol ctx)) || negb (fst (ctx_in_hostns e))
  then (ret, ctx, st)
  else if sock_is_health_check e then
    let '(r, ctx, st) := __sock6_pre_bind e ctx st in
    if negb (r =? 0) then (SYS_REJECT, ctx, st) else (ret, ctx, st)
  else (ret, ctx, st).

Definition __sock6_xlate_fwd (e : env) (ctx : bpf_sock_addr)
    (udp_only : bool) (st : state) : Z * bpf_sock_addr * state :=
  if ENABLE_IPV6 cfg then
    let '(in_hostns, client_cookie) := ctx_in_hostns e in
    if ENABLE_SOCKET_LB_HOST_ONLY cfg && negb in_hostns
    then (- ENXIO, ctx, st)
    else if negb udp_only && negb (sock_proto_enabled (protocol ctx))
    then (- ENOTSUP, ctx, st)
    else
      let key := {| address6 := ctx_get_v6_address ctx;
                    dport6 := ctx_dst_port ctx; backend_slot6 := 0 |} in
      let orig_key := key in
      let '(key, svc) :=
        match lb6_lookup_service st key with
        | Some s => (key, Some s)
        | None => sock6_wildcard_lookup_full st key in_hostns
        end in
      match svc with
      | None => sock6_xlate_v4_in_v6 e ctx udp_only st
      | Some svc =>
        if sock6_skip_xlate st svc (address6 orig_key)
        then (- EPERM, ctx, st)
        else
          let '(backend_id, backend, backend_from_affinity) :=
            if lb6_svc_is_affinity svc then
              let backend_id :=
                lb6_affinity_backend_id_by_netns st svc client_cookie in
              if negb (backend_id =? 0) then
                match __lb6_lookup_backend st backend_id with
                | Some b => (backend_id, Some b, true)
                | None => (0, None, true)
                end
              else (backend_id, None, true)
            else (0, None, false) in
          let select :=
            if backend_id =? 0 then
              let '(sel, st) := sock_select_slot e ctx st in
              let key := {| address6 := address6 key; dport6 := dport6 key;
                            backend_slot6 := sel mod count svc + 1 |} in
              match __lb6_lookup_backend_slot st key with
              | None =>
                  inl (update_metrics METRIC_EGRESS
                         REASON_LB_NO_BACKEND_SLOT st)
              | Some backend_slot =>
                  let backend_id := slot_backend_id backend_slot in
                  inr (backend_id, __lb6_lookup_backend st backend_id,
                       false, st)
              end
            else inr (backend_id, backend, backend_from_affinity, st) in
          match select with
          | inl st => (- ENOENT, ctx, st)
          | inr (backend_id, None, _, st) =>
              (- ENOENT, ctx,
               update_metrics METRIC_EGRESS REASON_LB_NO_BACKEND st)
          | inr (backend_id, Some backend, backend_from_affinity, st) =>
              let st :=
                if lb6_svc_is_affinity svc && negb backend_from_affinity
                then lb6_update_affinity_by_netns st svc client_cookie
                       backend_id
                else st in
              let '(ret, st) :=
                sock6_update_revnat e ctx backend orig_key
                  (rev_nat_index svc) st in
              if ret <? 0
              then (- ENOMEM, ctx,
                    update_metrics METRIC_EGRESS REASON_LB_REVNAT_UPDATE st)
              else
                let ctx := ctx_set_v6_address ctx (be6_address backend) in
                let ctx := ctx_set_port ctx (be6_port backend) in
                (0, ctx, st)
          end
      end
  else sock6_xlate_v4_in_v6 e ctx udp_only st.

Definition __sock6_health_fwd (e : env) (ctx : bpf_sock_addr) (st : state)
    : Z * bpf_sock_addr :=
  let ret := if lb_skip_l4_dnat cfg then SYS_PROCEED else SYS_REJECT in
  if ENABLE_HEALTH_CHECK cfg then
    let addr6 := ctx_get_v6_address ctx in
    if is_v4_in_v6 addr6 then __sock4_health_fwd e ctx st
    else if ENABLE_IPV6 cfg then
      let key := socket_cookie e in
      let val := if negb (lb_skip_l4_dnat cfg) then LB6_HEALTH_MAP st !! key
                 else None in
      match val with
      | Some v => (SYS_PROCEED, ctx_set_port ctx (peer6_port (peer6 v)))
      | None => (ret, ctx)
      end
    else (ret, ctx)
  else (ret, ctx).

(** [cgroup/connect6] *)
Definition sock6_connect (e : env) (ctx : bpf_sock_addr) (st : state)
    : Z * bpf_sock_addr * state :=
  if sock_is_health_check e then
    let '(ret, ctx) := __sock6_health_fwd e ctx st in (ret, ctx, st)
  else
    let '(_, ctx, st) := __sock6_xlate_fwd e ctx false st in
    (SYS_PROCEED, ctx, st).

Definition sock6_xlate_rev_v4_in_v6 (e : env) (ctx : bpf_sock_addr)
    (st : state) : Z * bpf_sock_addr * state :=
  if ENABLE_IPV4 cfg then
    let addr6 := ctx_get_v6_address ctx in
    if negb (is_v4_in_v6 addr6) then (- ENXIO, ctx, st)
    else
      let fake_ctx := fake_ctx_of ctx addr6 in
      let '(ret, fake_ctx, st) := __sock4_xlate_rev e fake_ctx ctx st in
      if ret <? 0 then (ret, ctx, st)
      else
        let addr6 := build_v4_in_v6 (user_ip4 fake_ctx) in
        let ctx := ctx_set_v6_address ctx addr6 in
        let ctx := ctx_set_port ctx (user_port fake_ctx) in
        (0, ctx, st)
  else (- ENXIO, ctx, st).

Definition __sock6_xlate_rev (e : env) (ctx : bpf_sock_addr) (st : state)
    : Z * bpf_sock_addr * state :=
  if ENABLE_IPV6 cfg then
    let '(cookie, st) := sock_local_cookie e ctx st in
    let key := {| rt6_cookie := cookie;
                  rt6_address := ctx_get_v6_address ctx;
                  rt6_port := ctx_dst_port ctx |} in
    match LB6_REVERSE_NAT_SK_MAP st !! key with
    | Some val =>
        let svc_key := {| address6 := re6_address val;
                          dport6 := re6_port val; backend_slot6 := 0 |} in
        let svc :=
          match lb6_lookup_service st svc_key with
          | Some s => Some s
          | None =>
              snd (sock6_wildcard_lookup_full st svc_key
                     (fst (ctx_in_hostns e)))
          end in
        if match svc with
           | None => true
           | Some s => negb (rev_nat_index s =? re6_rev_nat_index val)
           end
        then
          let st :=
            set_revnat6 (delete key (LB6_REVERSE_NAT_SK_MAP st)) st in
          (- ENOENT, ctx,
           update_metrics METRIC_INGRESS REASON_LB_REVNAT_STALE st)
        else
          let ctx := ctx_set_v6_address ctx (re6_address val) in
          let ctx := ctx_set_port ctx (re6_port val) in
          (0, ctx, st)
    | None => sock6_xlate_rev_v4_in_v6 e ctx st
    end
  else sock6_xlate_rev_v4_in_v6 e ctx st.

(** [cgroup/sendmsg6] *)
Definition sock6_sendmsg (e : env) (ctx : bpf_sock_addr) (st : state)
    : Z * bpf_sock_addr * state :=
  let '(_, ctx, st) := __sock6_xlate_fwd e ctx true st in
  (SYS_PROCEED, ctx, st).

(** [cgroup/recvmsg6] *)
Definition sock6_recvmsg (e : env) (ctx : bpf_sock_addr) (st : state)
    : Z * bpf_sock_addr * state :=
  let '(_, ctx, st) := __sock6_xlate_rev e ctx st in
  (SYS_PROCEED, ctx, st).

(** [cgroup/getpeername6] *)
Definition sock6_getpeername (e : env) (ctx : bpf_sock_addr) (st : state)
    : Z * bpf_sock_addr * state :=
  let '(_, ctx, st) := __sock6_xlate_rev e ctx st in
  (SYS_PROCEED, ctx, st).

End Hooks.

(** ** Names for the statements

    [__sock4_xlate_fwd] is one long function.  The definitions below name
    its blocks, so that the statements can speak of the service matched, the
    backend selected and the final bookkeeping; [sock4_xlate_fwd_blocks]
    shows that the function is their composition.  Then come the keys and the
    shorthands of the other statements, and the wildcard lookup as the
    specification words it. *)

(** The service lookup of the forward and of the reverse path: the exact
    lookup, then the NodePort/HostPort wildcard lookups. *)
Definition sock4_service_lookup (cfg : config) (st : state) (key : lb4_key)
    (in_hostns : bool) : lb4_key * option lb4_service :=
  match lb4_lookup_service st key with
  | Some s => (key, Some s)
  | None => sock4_wildcard_lookup_full cfg st key in_hostns
  end.

(** The key built from the context on entry. *)
Definition ctx_key (ctx : bpf_sock_addr) : lb4_key :=
  {| address := user_ip4 ctx; dport := ctx_dst_port ctx; backend_slot := 0 |}.

(** The [if (lb4_svc_is_affinity(svc))] block: the backend identifier, the
    backend and [backend_from_affinity] as the block leaves them. *)
Definition fwd4_affinity (st : state) (svc : lb4_service) (client_cookie : Z)
    : Z * option lb4_backend * bool :=
  if lb4_svc_is_affinity svc then
    let backend_id :=
      lb4_affinity_backend_id_by_netns st svc client_cookie in
    if negb (backend_id =? 0) then
      match __lb4_lookup_backend st backend_id with
      | Some b => (backend_id, Some b, true)
      | None => (0, None, true)
      end
    else (backend_id, None, true)
  else (0, None, false).

(** The [if (backend_id == 0)] block: [inl] when no slot entry is found. *)
Definition fwd4_select (cfg : config) (e : env) (ctx_full : bpf_sock_addr)
    (key : lb4_key) (svc : lb4_service)
    (aff : Z * option lb4_backend * bool) (st : state)
    : state + (Z * option lb4_backend * bool * state) :=
  let '(backend_id, backend, backend_from_affinity) := aff in
  if backend_id =? 0 then
    let '(sel, st) := sock_select_slot cfg e ctx_full st in
    let key := {| address := address key; dport := dport key;
                  backend_slot := sel mod count svc + 1 |} in
    match __lb4_lookup_backend_slot st key with
    | None => inl (update_metrics METRIC_EGRESS REASON_LB_NO_BACKEND_SLOT st)
    | Some backend_slot =>
        let backend_id := slot_backend_id backend_slot in
        inr (backend_id, __lb4_lookup_backend st backend_id, false, st)
    end
  else inr (backend_id, backend, backend_from_affinity, st).

(** From the local-redirect test to the end of the function. *)
Definition fwd4_commit (cfg : config) (e : env) (ctx ctx_full : bpf_sock_addr)
    (orig_key : lb4_key) (svc : lb4_service) (client_cookie : Z)
    (backend_id : Z) (backend : lb4_backend) (backend_from_affinity : bool)
    (st : state) : Z * bpf_sock_addr * state :=
  if lb4_svc_is_localredirect svc
     && sock4_skip_xlate_if_same_netns cfg e ctx_full backend
  then (- ENXIO, ctx, st)
  else
    let st :=
      if lb4_svc_is_affinity svc && negb backend_from_affinity
      then lb4_update_affinity_by_netns st svc client_cookie backend_id
      else st in
    let '(ret, st) :=
      sock4_update_revnat cfg e ctx_full backend orig_key
        (rev_nat_index svc) st in
    if ret <? 0
    then (- ENOMEM, ctx,
          update_metrics METRIC_EGRESS REASON_LB_REVNAT_UPDATE st)
    else
      let ctx := ctx_set_ip4 ctx (be_address backend) in
      let ctx := ctx_set_port ctx (be_port backend) in
      (0, ctx, st).

(** The destination as a successful translation to [backend] leaves it. *)
Definition ctx_to_backend (ctx : bpf_sock_addr) (backend : lb4_backend)
    : bpf_sock_addr :=
  {| user_ip4 := be_address backend; user_ip6 := user_ip6 ctx;
     user_port := be_port backend; protocol := protocol ctx |}.

(** The state after the conditional affinity write of the last block. *)
Definition fwd4_affinity_written (svc : lb4_service) (client_cookie id : Z)
    (fa : bool) (st : state) : state :=
  if lb4_svc_is_affinity svc && negb fa
  then lb4_update_affinity_by_netns st svc client_cookie id
  else st.

(** The key under which the reverse translation looks the cache up. *)
Definition sock4_rev_key (cfg : config) (e : env)
    (ctx ctx_full : bpf_sock_addr) (st : state) : ipv4_revnat_tuple :=
  {| rt_cookie := fst (sock_local_cookie cfg e ctx_full st);
     rt_address := user_ip4 ctx; rt_port := ctx_dst_port ctx |}.

(** The context as a successful reverse translation to the frontend
    [(addr, port)] leaves it. *)
Definition ctx_to_frontend (ctx : bpf_sock_addr) (addr port : Z)
    : bpf_sock_addr :=
  {| user_ip4 := addr; user_ip6 := user_ip6 ctx;
     user_port := port; protocol := protocol ctx |}.

(** The NodePort port-range test on the key's port. *)
Definition in_nodeport_range (cfg : config) (key : lb4_key) : bool :=
  (NODEPORT_PORT_MIN cfg <=? bpf_ntohs cfg (dport key))
  && (bpf_ntohs cfg (dport key) <=? NODEPORT_PORT_MAX cfg).

(** The test the wildcard lookup makes on the original address: it passes
    [is_v4_loopback] (for a caller in the host namespace), carries the host's
    identity, or, with remote hosts included, a remote node's identity. *)
Definition wildcard_source_ok (cfg : config) (st : state) (key : lb4_key)
    (include_remote_hosts in_hostns : bool) : bool :=
  (in_hostns && is_v4_loopback cfg (address key))
  || match ipcache_lookup4 st (address key) with
     | Some info =>
         (sec_label info =? HOST_ID cfg)
         || (include_remote_hosts && (sec_label info =? REMOTE_NODE_ID cfg))
     | None => false
     end.

(** One wildcard attempt as the specification words it: the port-range test
    (inverted on request), the test on the original address, the lookup with
    the address zeroed, and the result kept only if it carries the flag
    [required]. *)
Definition wildcard_attempt_spec (cfg : config) (st : state) (key : lb4_key)
    (include_remote_hosts inverted in_hostns : bool)
    (required : lb4_service -> bool) : option lb4_service :=
  if xorb (in_nodeport_range cfg key) inverted
     && wildcard_source_ok cfg st key include_remote_hosts in_hostns
  then
    match lb4_lookup_service st
            {| address := 0; dport := dport key;
               backend_slot := backend_slot key |} with
    | Some s => if required s then Some s else None
    | None => None
    end
  else None.

(** The two ordered attempts of the specification, both on the key as the
    caller passed it. *)
Definition wildcard_lookup_spec (cfg : config) (st : state) (key : lb4_key)
    (in_hostns : bool) : option lb4_service :=
  match wildcard_attempt_spec cfg st key true false in_hostns
          lb4_svc_is_nodeport with
  | Some s => Some s
  | None =>
      wildcard_attempt_spec cfg st key false true in_hostns
        lb4_svc_is_hostport
  end.

(** The key of the post-bind lookup: the bound address and port. *)
Definition bind_key (cfg : config) (ctx : bpf_sock) : lb4_key :=
  {| address := src_ip4 ctx; dport := ctx_src_port cfg ctx;
     backend_slot := 0 |}.

(** The service a bind to [key] collides with: the service whose frontend is
    exactly [key], or, when there is none, the service found with the address
    zeroed when the port is in the NodePort range and the address passes
    [is_v4_loopback] or carries the host's identity. *)
Definition bind_conflict_service (cfg : config) (st : state) (key : lb4_key)
    : option lb4_service :=
  match LB4_SERVICES_MAP_V2 st !! key with
  | Some s => Some s
  | None =>
      wildcard_attempt_spec cfg st key false false true (fun _ => true)
  end.

(** NodePort, external-IP or load-balancer. *)
Definition svc_is_reserved (svc : lb4_service) : bool :=
  lb4_svc_is_nodeport svc || lb4_svc_is_external_ip svc
  || lb4_svc_is_loadbalancer svc.

(** The affinity key of a service and a client. *)
Definition affinity_key (svc : lb4_service) (client_cookie : Z)
    : lb4_affinity_key :=
  {| aff_rev_nat_id := rev_nat_index svc;
     aff_client_cookie := client_cookie |}.

(** The verdict a hook hands back to the kernel. *)
Definition verdict {A B : Type} (r : Z * A * B) : Z := fst (fst r).

Definition sock6_service_lookup (cfg : config) (st : state) (key : lb6_key)
    (in_hostns : bool) : lb6_key * option lb6_service :=
  match lb6_lookup_service st key with
  | Some s => (key, Some s)
  | None => sock6_wildcard_lookup_full cfg st key in_hostns
  end.

Definition ctx_key6 (ctx : bpf_sock_addr) : lb6_key :=
  {| address6 := ctx_get_v6_address ctx; dport6 := ctx_dst_port ctx;
     backend_slot6 := 0 |}.

(** The key under which the IPv6 reverse translation looks the cache up. *)
Definition sock6_rev_key (cfg : config) (e : env) (ctx : bpf_sock_addr)
    (st : state) : ipv6_revnat_tuple :=
  {| rt6_cookie := fst (sock_local_cookie cfg e ctx st);
     rt6_address := ctx_get_v6_address ctx; rt6_port := ctx_dst_port ctx |}.

(** The key of the IPv6 post-bind lookup, the service a bind to it collides
    with, and the IPv4 key of a bind to an IPv4-mapped address. *)
Definition bind_key6 (cfg : config) (ctx : bpf_sock) : lb6_key :=
  {| address6 := ctx_get_v6_src_address ctx; dport6 := ctx_src_port cfg ctx;
     backend_slot6 := 0 |}.

Definition bind_conflict_service6 (cfg : config) (st : state) (key : lb6_key)
    : option lb6_service :=
  match lb6_lookup_service st key with
  | Some s => Some s
  | None => snd (sock6_wildcard_lookup cfg st key false false true)
  end.

Definition bind_key_mapped (cfg : config) (ctx : bpf_sock) : lb4_key :=
  {| address := p4 (src_ip6 ctx); dport := ctx_src_port cfg ctx;
     backend_slot := 0 |}.

(** The port-range test and the test on the original address of the IPv6
    wildcard lookup. *)
Definition in_nodeport_range6 (cfg : config) (key : lb6_key) : bool :=
  (NODEPORT_PORT_MIN cfg <=? bpf_ntohs cfg (dport6 key))
  && (bpf_ntohs cfg (dport6 key) <=? NODEPORT_PORT_MAX cfg).

Definition wildcard_source_ok6 (cfg : config) (st : state) (key : lb6_key)
    (include_remote_hosts in_hostns : bool) : bool :=
  (in_hostns && is_v6_loopback cfg (address6 key))
  || match ipcache_lookup6 st (address6 key) with
     | Some info =>
         (sec_label info =? HOST_ID cfg)
         || (include_remote_hosts && (sec_label info =? REMOTE_NODE_ID cfg))
     | None => false
     end.

(** The address [a.b.c.d] as the program holds it: network byte order, loaded
    as a 32-bit word of the machine. *)
Definition be32_of_octets (cfg : config) (a b c d : Z) : Z :=
  if LITTLE_ENDIAN cfg
  then a + 256 * b + 65536 * c + 16777216 * d
  else 16777216 * a + 65536 * b + 256 * c + d.

(** ** A concrete world

    A little-endian build with every feature compiled in, the service of
    the specification's example (frontend 10.0.0.1:80, backends 10.0.0.5:8080
    and 10.0.0.6:8080), a service with affinity on the same backends, an
    external-IP service and a NodePort service. *)

(** An IPv4 address and a port as the program sees them: network byte order,
    loaded on a little-endian machine. *)
Definition ipv4 (a b c d : Z) : Z := a + 256 * b + 65536 * c + 16777216 * d.
Definition be16 (p : Z) : Z := bswap16 p.

Definition cfg_demo : config :=
  {| ENABLE_IPV4 := true; ENABLE_IPV6 := true; ENABLE_NODEPORT := true;
     ENABLE_HEALTH_CHECK := true; ENABLE_HOST_SERVICES_TCP := true;
     ENABLE_HOST_SERVICES_UDP := true; ENABLE_HOST_SERVICES_PEER := true;
     ENABLE_SOCKET_LB_HOST_ONLY := false; BPF_HAVE_NETNS_COOKIE := true;
     BPF_HAVE_SOCKET_COOKIE := true; BPF_HAVE_SOCKET_LOOKUP := true;
     lb_skip_l4_dnat := false; LITTLE_ENDIAN := true;
     NODEPORT_PORT_MIN := 30000; NODEPORT_PORT_MAX := 32767;
     HOST_ID := 1; REMOTE_NODE_ID := 6; MARK_MAGIC_HEALTH := 3328 |}.

Definition no_flags : svc_flags :=
  {| is_external_ip := false; is_hostport := false; is_nodeport := false;
     is_loadbalancer := false; is_localredirect := false;
     is_affinity := false |}.

Definition affinity_flags : svc_flags :=
  {| is_external_ip := false; is_hostport := false; is_nodeport := false;
     is_loadbalancer := false; is_localredirect := false;
     is_affinity := true |}.

Definition external_ip_flags : svc_flags :=
  {| is_external_ip := true; is_hostport := false; is_nodeport := false;
     is_loadbalancer := false; is_localredirect := false;
     is_affinity := false |}.

Definition nodeport_flags : svc_flags :=
  {| is_external_ip := false; is_hostport := false; is_nodeport := true;
     is_loadbalancer := false; is_localredirect := false;
     is_affinity := false |}.

Definition frontend (addr port : Z) (n rev_nat : Z) (f : svc_flags)
    : lb4_key * lb4_service :=
  ({| address := addr; dport := port; backend_slot := 0 |},
   {| slot_backend_id := 0; count := n; rev_nat_index := rev_nat;
      flags := f |}).

Definition slot (addr port : Z) (i id rev_nat : Z) : lb4_key * lb4_service :=
  ({| address := addr; dport := port; backend_slot := i |},
   {| slot_backend_id := id; count := 0; rev_nat_index := rev_nat;
      flags := no_flags |}).

Definition services_demo : gmap lb4_key lb4_service :=
  list_to_map
    [ frontend (ipv4 10 0 0 1) (be16 80) 2 1 no_flags;
      slot (ipv4 10 0 0 1) (be16 80) 1 100 1;
      slot (ipv4 10 0 0 1) (be16 80) 2 101 1;
      frontend (ipv4 10 0 0 2) (be16 80) 2 2 affinity_flags;
      slot (ipv4 10 0 0 2) (be16 80) 1 100 2;
      slot (ipv4 10 0 0 2) (be16 80) 2 101 2;
      frontend (ipv4 192 0 2 1) (be16 443) 1 3 external_ip_flags;
      slot (ipv4 192 0 2 1) (be16 443) 1 100 3;
      frontend 0 (be16 30080) 1 4 nodeport_flags;
      slot 0 (be16 30080) 1 101 4 ].

Definition backends_demo : gmap Z lb4_backend :=
  list_to_map
    [ (100, {| be_address := ipv4 10 0 0 5; be_port := be16 8080 |});
      (101, {| be_address := ipv4 10 0 0 6; be_port := be16 8080 |}) ].

Definition ipcache_demo : gmap (Z + v6addr) remote_endpoint_info :=
  list_to_map
    [ (inl (ipv4 192 168 1 10), {| sec_label := 1 |});
      (inl (ipv4 192 168 1 11), {| sec_label := 6 |}) ].

Definition st_demo : state :=
  {| LB4_SERVICES_MAP_V2 := services_demo;
     LB4_BACKEND_MAP := backends_demo;
     LB4_AFFINITY_MAP := ∅;
     LB4_REVERSE_NAT_SK_MAP := ∅;
     LB4_HEALTH_MAP := ∅;
     LB6_SERVICES_MAP_V2 := ∅;
     LB6_BACKEND_MAP := ∅;
     LB6_AFFINITY_MAP := ∅;
     LB6_REVERSE_NAT_SK_MAP := ∅;
     LB6_HEALTH_MAP := ∅;
     IPCACHE_MAP := ipcache_demo;
     METRICS := [];
     prandom := fun n => Z.of_nat n |}.

(** A pod's socket: another namespace than the host's, socket cookie 77. *)
Definition env_demo : env :=
  {| netns_cookie := 5; host_netns_cookie := 1; socket_cookie := 77;
     so_mark := None;
     sk_lookup_tcp := fun _ _ => false; sk_lookup_udp := fun _ _ => false;
     revnat_update_error := None; revnat_evict := []; revnat6_evict := [];
     health_update_error := None |}.

(** The same socket when the reverse-NAT map cannot take a new entry. *)
Definition env_full_map : env :=
  {| netns_cookie := 5; host_netns_cookie := 1; socket_cookie := 77;
     so_mark := None;
     sk_lookup_tcp := fun _ _ => false; sk_lookup_udp := fun _ _ => false;
     revnat_update_error := Some 12%positive; revnat_evict := [];
     revnat6_evict := []; health_update_error := None |}.

(** A socket of the host namespace carrying the health-probe mark. *)
Definition env_probe : env :=
  {| netns_cookie := 1; host_netns_cookie := 1; socket_cookie := 9;
     so_mark := Some 3328;
     sk_lookup_tcp := fun _ _ => false; sk_lookup_udp := fun _ _ => false;
     revnat_update_error := None; revnat_evict := []; revnat6_evict := [];
     health_update_error := None |}.

(** A plain socket of the host namespace. *)
Definition env_host : env :=
  {| netns_cookie := 1; host_netns_cookie := 1; socket_cookie := 8;
     so_mark := None;
     sk_lookup_tcp := fun _ _ => false; sk_lookup_udp := fun _ _ => false;
     revnat_update_error := None; revnat_evict := []; revnat6_evict := [];
     health_update_error := None |}.

Definition v6_zero : v6addr := {| p1 := 0; p2 := 0; p3 := 0; p4 := 0 |}.

Definition ctx_of (addr port proto : Z) : bpf_sock_addr :=
  {| user_ip4 := addr; user_ip6 := v6_zero; user_port := port;
     protocol := proto |}.

(** UDP datagrams to the three frontends. *)
Definition ctx_demo : bpf_sock_addr :=
  ctx_of (ipv4 10 0 0 1) (be16 80) IPPROTO_UDP.
Definition ctx_affinity : bpf_sock_addr :=
  ctx_of (ipv4 10 0 0 2) (be16 80) IPPROTO_UDP.
Definition ctx_external : bpf_sock_addr :=
  ctx_of (ipv4 192 0 2 1) (be16 443) IPPROTO_UDP.

(** A bind to 0.0.0.0:30080, and one to 10.0.0.9:8000. *)
Definition sk_nodeport : bpf_sock :=
  {| src_ip4 := 0; src_ip6 := v6_zero; src_port := 30080;
     sk_protocol := IPPROTO_TCP |}.
Definition sk_free : bpf_sock :=
  {| src_ip4 := ipv4 10 0 0 9; src_ip6 := v6_zero; src_port := 8000;
     sk_protocol := IPPROTO_TCP |}.

(** A bind to the host's own address 192.168.1.10, port 30080. *)
Definition sk_host_nodeport : bpf_sock :=
  {| src_ip4 := ipv4 192 168 1 10; src_ip6 := v6_zero; src_port := 30080;
     sk_protocol := IPPROTO_TCP |}.

(** A HostPort service on port 8080 with the backend 10.0.0.5:8080, added to
    the directory of [st_demo]. *)
Definition hostport_flags : svc_flags :=
  {| is_external_ip := false; is_hostport := true; is_nodeport := false;
     is_loadbalancer := false; is_localredirect := false;
     is_affinity := false |}.

Definition svc_hostport : lb4_service :=
  {| slot_backend_id := 0; count := 1; rev_nat_index := 5;
     flags := hostport_flags |}.

Definition st_hostport : state :=
  {| LB4_SERVICES_MAP_V2 :=
       <[ fst (frontend 0 (be16 8080) 1 5 hostport_flags)
          := snd (frontend 0 (be16 8080) 1 5 hostport_flags) ]>
         (<[ fst (slot 0 (be16 8080) 1 100 5)
             := snd (slot 0 (be16 8080) 1 100 5) ]>
            (LB4_SERVICES_MAP_V2 st_demo));
     LB4_BACKEND_MAP := LB4_BACKEND_MAP st_demo;
     LB4_AFFINITY_MAP := LB4_AFFINITY_MAP st_demo;
     LB4_REVERSE_NAT_SK_MAP := LB4_REVERSE_NAT_SK_MAP st_demo;
     LB4_HEALTH_MAP := LB4_HEALTH_MAP st_demo;
     LB6_SERVICES_MAP_V2 := LB6_SERVICES_MAP_V2 st_demo;
     LB6_BACKEND_MAP := LB6_BACKEND_MAP st_demo;
     LB6_AFFINITY_MAP := LB6_AFFINITY_MAP st_demo;
     LB6_REVERSE_NAT_SK_MAP := LB6_REVERSE_NAT_SK_MAP st_demo;
     LB6_HEALTH_MAP := LB6_HEALTH_MAP st_demo;
     IPCACHE_MAP := IPCACHE_MAP st_demo;
     METRICS := METRICS st_demo;
     prandom := prandom st_demo |}.

(** A UDP datagram to the broadcast address 255.255.255.255, port 8080, and
    a bind to 255.255.255.255, port 30080. *)
Definition ctx_broadcast : bpf_sock_addr :=
  ctx_of (ipv4 255 255 255 255) (be16 8080) IPPROTO_UDP.

Definition sk_broadcast_nodeport : bpf_sock :=
  {| src_ip4 := ipv4 255 255 255 255; src_ip6 := v6_zero; src_port := 30080;
     sk_protocol := IPPROTO_TCP |}.

(** *** Runs on the concrete world *)

(** The example's first datagram, from the pod's socket. *)
Definition fwd_demo : Z * bpf_sock_addr * state :=
  __sock4_xlate_fwd cfg_demo env_demo ctx_demo ctx_demo true st_demo.

(** The reverse cache holding, for socket cookie 77 and backend
    10.0.0.6:8080, the frontend 10.0.0.1:80 under a reverse-NAT identifier
    (9) that the service no longer carries. *)
Definition st_stale : state :=
  set_revnat
    {[ {| rt_cookie := 77; rt_address := ipv4 10 0 0 6;
          rt_port := be16 8080 |}
       := {| re_address := ipv4 10 0 0 1; re_port := be16 80;
             re_rev_nat_index := 9 |} ]}
    st_demo.

(** A datagram received from 10.0.0.6:8080. *)
Definition ctx_reply : bpf_sock_addr :=
  ctx_of (ipv4 10 0 0 6) (be16 8080) IPPROTO_UDP.

Definition svc_demo : lb4_service :=
  {| slot_backend_id := 0; count := 2; rev_nat_index := 1;
     flags := no_flags |}.

Definition svc_affinity : lb4_service :=
  {| slot_backend_id := 0; count := 2; rev_nat_index := 2;
     flags := affinity_flags |}.

Definition svc_external : lb4_service :=
  {| slot_backend_id := 0; count := 1; rev_nat_index := 3;
     flags := external_ip_flags |}.

Definition svc_nodeport : lb4_service :=
  {| slot_backend_id := 0; count := 1; rev_nat_index := 4;
     flags := nodeport_flags |}.

Definition backend_6 : lb4_backend :=
  {| be_address := ipv4 10 0 0 6; be_port := be16 8080 |}.

(** The first datagram to the service with affinity. *)
Definition fwd_affinity : Z * bpf_sock_addr * state :=
  __sock4_xlate_fwd cfg_demo env_demo ctx_affinity ctx_affinity true st_demo.

(** The same datagram when the reverse-NAT map is full. *)
Definition fwd_nomem : Z * bpf_sock_addr * state :=
  __sock4_xlate_fwd cfg_demo env_full_map ctx_affinity ctx_affinity true
    st_demo.

(** The state [st] after the two backends of the affinity service have
    swapped slots. *)
Definition swap_slots (st : state) : state :=
  {| LB4_SERVICES_MAP_V2 :=
       <[ fst (slot (ipv4 10 0 0 2) (be16 80) 1 101 2)
          := snd (slot (ipv4 10 0 0 2) (be16 80) 1 101 2) ]>
         (<[ fst (slot (ipv4 10 0 0 2) (be16 80) 2 100 2)
             := snd (slot (ipv4 10 0 0 2) (be16 80) 2 100 2) ]>
            (LB4_SERVICES_MAP_V2 st));
     LB4_BACKEND_MAP := LB4_BACKEND_MAP st;
     LB4_AFFINITY_MAP := LB4_AFFINITY_MAP st;
     LB4_REVERSE_NAT_SK_MAP := LB4_REVERSE_NAT_SK_MAP st;
     LB4_HEALTH_MAP := LB4_HEALTH_MAP st;
     LB6_SERVICES_MAP_V2 := LB6_SERVICES_MAP_V2 st;
     LB6_BACKEND_MAP := LB6_BACKEND_MAP st;
     LB6_AFFINITY_MAP := LB6_AFFINITY_MAP st;
     LB6_REVERSE_NAT_SK_MAP := LB6_REVERSE_NAT_SK_MAP st;
     LB6_HEALTH_MAP := LB6_HEALTH_MAP st;
     IPCACHE_MAP := IPCACHE_MAP st;
     METRICS := METRICS st;
     prandom := prandom st |}.

(** Another socket of the same pod: same namespace cookie, socket cookie 79,
    which alone would select slot 2. *)
Definition env_second : env :=
  {| netns_cookie := 5; host_netns_cookie := 1; socket_cookie := 79;
     so_mark := None;
     sk_lookup_tcp := fun _ _ => false; sk_lookup_udp := fun _ _ => false;
     revnat_update_error := None; revnat_evict := []; revnat6_evict := [];
     health_update_error := None |}.

(** The state after the example's first datagram: the directory as it was,
    the reverse cache as the call left it. *)
Definition st_after : state :=
  set_revnat (LB4_REVERSE_NAT_SK_MAP (snd fwd_demo)) st_demo.

(** *** The IPv6 side of the concrete world

    An IPv6 service with one backend, an external-IP IPv6 service, and an
    IPv6 NodePort service on port 30080. *)

Definition svc6_demo : lb6_service :=
  {| slot_backend_id := 0; count := 1; rev_nat_index := 7;
     flags := no_flags |}.

Definition svc6_external : lb6_service :=
  {| slot_backend_id := 0; count := 1; rev_nat_index := 8;
     flags := external_ip_flags |}.

Definition v6_external : v6addr := {| p1 := 32; p2 := 0; p3 := 0; p4 := 9 |}.
Definition v6_frontend : v6addr := {| p1 := 253; p2 := 0; p3 := 0; p4 := 1 |}.
Definition v6_backend : v6addr := {| p1 := 253; p2 := 0; p3 := 0; p4 := 5 |}.

(** The loopback address [::1]. *)
Definition v6_loopback : v6addr :=
  {| p1 := 0; p2 := 0; p3 := 0; p4 := bpf_htonl cfg_demo 1 |}.

Definition st6_demo : state :=
  {| LB4_SERVICES_MAP_V2 := services_demo;
     LB4_BACKEND_MAP := backends_demo;
     LB4_AFFINITY_MAP := ∅;
     LB4_REVERSE_NAT_SK_MAP := ∅;
     LB4_HEALTH_MAP := ∅;
     LB6_SERVICES_MAP_V2 :=
       {[ {| address6 := v6_frontend; dport6 := be16 80;
             backend_slot6 := 0 |} := svc6_demo;
          {| address6 := v6_frontend; dport6 := be16 80;
             backend_slot6 := 1 |}
          := {| slot_backend_id := 200; count := 0; rev_nat_index := 7;
                flags := no_flags |};
          {| address6 := v6_external; dport6 := be16 443;
             backend_slot6 := 0 |} := svc6_external;
          {| address6 := v6_zero; dport6 := be16 30080;
             backend_slot6 := 0 |} := svc_nodeport ]};
     LB6_BACKEND_MAP :=
       {[ 200 := {| be6_address := v6_backend; be6_port := be16 8080 |} ]};
     LB6_AFFINITY_MAP := ∅;
     LB6_REVERSE_NAT_SK_MAP := ∅;
     LB6_HEALTH_MAP := ∅;
     IPCACHE_MAP := ipcache_demo;
     METRICS := [];
     prandom := fun n => Z.of_nat n |}.

Definition ctx6_of (addr : v6addr) (port proto : Z) : bpf_sock_addr :=
  {| user_ip4 := 0; user_ip6 := addr; user_port := port;
     protocol := proto |}.

(** UDP datagrams to the IPv6 frontend, to the external-IP frontend, and to
    the IPv4 frontend 10.0.0.1:80 written as [::ffff:10.0.0.1]. *)
Definition ctx6_demo : bpf_sock_addr :=
  ctx6_of v6_frontend (be16 80) IPPROTO_UDP.

Definition ctx6_external : bpf_sock_addr :=
  ctx6_of v6_external (be16 443) IPPROTO_UDP.

Definition ctx6_mapped : bpf_sock_addr :=
  ctx6_of (build_v4_in_v6 cfg_demo (ipv4 10 0 0 1)) (be16 80) IPPROTO_UDP.

Definition fwd6_demo : Z * bpf_sock_addr * state :=
  __sock6_xlate_fwd cfg_demo env_demo ctx6_demo true st6_demo.

Definition fwd6_mapped : Z * bpf_sock_addr * state :=
  __sock6_xlate_fwd cfg_demo env_demo ctx6_mapped true st6_demo.

(** A bind to [::ffff:0.0.0.0], port 30080. *)
Definition sk6_mapped_nodeport : bpf_sock :=
  {| src_ip4 := 0; src_ip6 := build_v4_in_v6 cfg_demo 0; src_port := 30080;
     sk_protocol := IPPROTO_TCP |}.

(** A health probe to [::ffff:10.0.0.5], port 4240. *)
Definition ctx6_probe : bpf_sock_addr :=
  ctx6_of (build_v4_in_v6 cfg_demo (ipv4 10 0 0 5)) (be16 4240) IPPROTO_TCP.

(** ** Properties *)

(** The forward translation is the composition of its blocks. *)
Lemma sock4_xlate_fwd_blocks cfg e ctx ctx_full udp_only st :
  __sock4_xlate_fwd cfg e ctx ctx_full udp_only st
  = let in_hostns := fst (ctx_in_hostns cfg e) in
    let client_cookie := snd (ctx_in_hostns cfg e) in
    if ENABLE_SOCKET_LB_HOST_ONLY cfg && negb in_hostns
    then (- ENXIO, ctx, st)
    else if negb udp_only && negb (sock_proto_enabled cfg (protocol ctx))
    then (- ENOTSUP, ctx, st)
    else
      match sock4_service_lookup cfg st (ctx_key ctx) in_hostns with
      | (_, None) => (- ENXIO, ctx, st)
      | (key, Some svc) =>
        if sock4_skip_xlate cfg st svc (user_ip4 ctx) then (- EPERM, ctx, st)
        else
          match fwd4_select cfg e ctx_full key svc
                  (fwd4_affinity st svc client_cookie) st with
          | inl st => (- ENOENT, ctx, st)
          | inr (_, None, _, st) =>
              (- ENOENT, ctx,
               update_metrics METRIC_EGRESS REASON_LB_NO_BACKEND st)
          | inr (backend_id, Some backend, backend_from_affinity, st) =>
              fwd4_commit cfg e ctx ctx_full (ctx_key ctx) svc client_cookie
                backend_id backend backend_from_affinity st
          end
      end.
Proof.
  unfold __sock4_xlate_fwd, sock4_service_lookup, fwd4_select, fwd4_affinity,
    fwd4_commit, ctx_key.
  destruct (ctx_in_hostns cfg e) as [in_hostns client_cookie]; simpl.
  repeat case_match; simplify_eq; reflexivity.
Qed.

(** *** The state a call leaves *)

(** Drawing a cookie or a selection value touches the pseudo-random source
    only. *)
Lemma sock_local_cookie_state cfg e ctx st c st' :
  sock_local_cookie cfg e ctx st = (c, st') ->
  st' = set_prandom (prandom st') st.
Proof.
  unfold sock_local_cookie, get_prandom_u32.
  destruct st; repeat case_match; intros [= <- <-]; reflexivity.
Qed.

Lemma sock_select_slot_state cfg e ctx st sel st' :
  sock_select_slot cfg e ctx st = (sel, st') ->
  st' = set_prandom (prandom st') st.
Proof.
  unfold sock_select_slot, get_prandom_u32.
  case_match; [destruct st; intros [= <- <-]; reflexivity |].
  apply sock_local_cookie_state.
Qed.

(** With a socket cookie helper, or on a socket that is not TCP, the cookie
    is a function of the socket: no random value is drawn. *)
Lemma sock_local_cookie_stable cfg e ctx st :
  BPF_HAVE_SOCKET_COOKIE cfg = true \/ protocol ctx <> IPPROTO_TCP ->
  sock_local_cookie cfg e ctx st
  = (if BPF_HAVE_SOCKET_COOKIE cfg then socket_cookie e else 0, st).
Proof.
  unfold sock_local_cookie. intros [-> | Hp]; [reflexivity |].
  destruct (BPF_HAVE_SOCKET_COOKIE cfg); [reflexivity |].
  destruct (protocol ctx =? IPPROTO_TCP) eqn:E; [| reflexivity].
  apply Z.eqb_eq in E. contradiction.
Qed.

Lemma sock_local_cookie_revnat cfg e ctx st :
  LB4_REVERSE_NAT_SK_MAP (snd (sock_local_cookie cfg e ctx st))
  = LB4_REVERSE_NAT_SK_MAP st.
Proof.
  destruct (sock_local_cookie cfg e ctx st) as [c st1] eqn:Hc.
  apply sock_local_cookie_state in Hc. simpl. rewrite Hc. reflexivity.
Qed.

Lemma revnat_entry_eqb_eq a b : revnat_entry_eqb a b = true <-> a = b.
Proof.
  unfold revnat_entry_eqb. destruct a, b; simpl.
  rewrite !andb_true_iff, !Z.eqb_eq.
  split; [intros [[-> ->] ->] | intros [= -> -> ->]]; auto.
Qed.

(** The reverse-cache write changes the reverse-NAT map (and possibly draws a
    cookie), nothing else. *)
Lemma sock4_update_revnat_state cfg e ctx b orig_key id st ret st' :
  sock4_update_revnat cfg e ctx b orig_key id st = (ret, st') ->
  st' = set_revnat (LB4_REVERSE_NAT_SK_MAP st')
          (set_prandom (prandom st') st).
Proof.
  unfold sock4_update_revnat, lru_update_elem.
  destruct (sock_local_cookie cfg e ctx st) as [c st1] eqn:Hc.
  apply sock_local_cookie_state in Hc.
  destruct st; repeat case_match; simplify_eq; intros [= <- <-];
    try rewrite Hc; reflexivity.
Qed.

(** A reverse-cache write that does not fail leaves, under the key made of
    the caller's cookie and the backend, the original destination and the
    reverse-NAT identifier. *)
Lemma sock4_update_revnat_ok cfg e ctx b orig_key id st ret st' :
  ENABLE_HOST_SERVICES_UDP cfg || ENABLE_HOST_SERVICES_PEER cfg = true ->
  sock4_update_revnat cfg e ctx b orig_key id st = (ret, st') ->
  (ret <? 0) = false ->
  LB4_REVERSE_NAT_SK_MAP st'
    !! {| rt_cookie := fst (sock_local_cookie cfg e ctx st);
          rt_address := be_address b; rt_port := be_port b |}
  = Some {| re_address := address orig_key; re_port := dport orig_key;
            re_rev_nat_index := id |}.
Proof.
  unfold sock4_update_revnat, lru_update_elem. intros ->.
  destruct (sock_local_cookie cfg e ctx st) as [c st1] eqn:Hc; simpl.
  destruct (LB4_REVERSE_NAT_SK_MAP st1 !! _) as [t |] eqn:Ht.
  - destruct (revnat_entry_eqb t _) eqn:Heq; simpl.
    + apply revnat_entry_eqb_eq in Heq. subst t. intros [= <- <-] _. exact Ht.
    + destruct (revnat_update_error e); intros [= <- <-]; simpl.
      * intros Hneg. apply Z.ltb_ge in Hneg. lia.
      * intros _. apply lookup_insert_eq.
  - destruct (revnat_update_error e); intros [= <- <-]; simpl.
    + intros Hneg. apply Z.ltb_ge in Hneg. lia.
    + intros _. apply lookup_insert_eq.
Qed.

(** A reverse-cache write that fails leaves the reverse-NAT map as it was. *)
Lemma sock4_update_revnat_fail cfg e ctx b orig_key id st ret st' :
  sock4_update_revnat cfg e ctx b orig_key id st = (ret, st') ->
  (ret <? 0) = true ->
  LB4_REVERSE_NAT_SK_MAP st' = LB4_REVERSE_NAT_SK_MAP st.
Proof.
  unfold sock4_update_revnat, lru_update_elem.
  destruct (sock_local_cookie cfg e ctx st) as [c st1] eqn:Hc.
  apply sock_local_cookie_state in Hc.
  repeat case_match; simplify_eq; intros [= <- <-]; try discriminate;
    intros _; simpl; rewrite Hc; reflexivity.
Qed.

(** The return value of the reverse-cache write is 0 or a negative errno, and
    it is negative only when [map_update_elem] failed. *)
Lemma sock4_update_revnat_ret cfg e ctx b orig_key id st ret st' :
  sock4_update_revnat cfg e ctx b orig_key id st = (ret, st') ->
  ret = 0 \/ (ret < 0 /\ revnat_update_error e <> None).
Proof.
  unfold sock4_update_revnat, lru_update_elem.
  repeat case_match; simplify_eq; intros [= <- <-]; auto; right; split;
    (lia || congruence).
Qed.

(** *** The blocks of the forward translation *)

(** What the affinity block leaves: a non-zero identifier comes from the
    affinity table and its backend exists. *)
Lemma fwd4_affinity_inv st svc client_cookie id ob fa :
  fwd4_affinity st svc client_cookie = (id, ob, fa) ->
  fa = lb4_svc_is_affinity svc
  /\ (id <> 0 ->
        lb4_svc_is_affinity svc = true
        /\ lb4_affinity_backend_id_by_netns st svc client_cookie = id
        /\ (exists b, ob = Some b /\ __lb4_lookup_backend st id = Some b)).
Proof.
  unfold fwd4_affinity.
  destruct (lb4_svc_is_affinity svc); [| intros [= <- <- <-]; split; done].
  destruct (negb _) eqn:Hz.
  - destruct (__lb4_lookup_backend st _) as [b |] eqn:Hb;
      intros [= <- <- <-]; split; try done.
    intros _. eauto.
  - apply negb_false_iff, Z.eqb_eq in Hz.
    intros [= <- <- <-]; split; done.
Qed.

(** An affinity entry naming an existing backend is taken as it is. *)
Lemma fwd4_affinity_hit st svc client_cookie id b :
  lb4_svc_is_affinity svc = true ->
  LB4_AFFINITY_MAP st
    !! {| aff_rev_nat_id := rev_nat_index svc;
          aff_client_cookie := client_cookie |} = Some id ->
  id <> 0 ->
  LB4_BACKEND_MAP st !! id = Some b ->
  fwd4_affinity st svc client_cookie = (id, Some b, true).
Proof.
  intros Ha Hid Hnz Hb.
  unfold fwd4_affinity, lb4_affinity_backend_id_by_netns,
    __lb4_lookup_backend.
  rewrite Ha, Hid; simpl.
  apply Z.eqb_neq in Hnz. rewrite Hnz; simpl. rewrite Hb. reflexivity.
Qed.

(** The selection block keeps a non-zero identifier, and otherwise takes the
    backend of slot [(selection value mod count) + 1]. *)
Lemma fwd4_select_inv cfg e ctx_full key svc id ob fa st id' ob' fa' st' :
  fwd4_select cfg e ctx_full key svc (id, ob, fa) st
  = inr (id', ob', fa', st') ->
  (id <> 0 /\ id' = id /\ ob' = ob /\ fa' = fa /\ st' = st)
  \/ (id = 0 /\ fa' = false
      /\ st' = snd (sock_select_slot cfg e ctx_full st)
      /\ exists slot,
           LB4_SERVICES_MAP_V2 st
             !! {| address := address key; dport := dport key;
                   backend_slot :=
                     fst (sock_select_slot cfg e ctx_full st)
                       mod count svc + 1 |} = Some slot
           /\ id' = slot_backend_id slot
           /\ ob' = LB4_BACKEND_MAP st !! id').
Proof.
  unfold fwd4_select.
  destruct (id =? 0) eqn:Hz.
  - apply Z.eqb_eq in Hz.
    destruct (sock_select_slot cfg e ctx_full st) as [sel st1] eqn:Hs.
    pose proof (sock_select_slot_state _ _ _ _ _ _ Hs) as Hst.
    unfold __lb4_lookup_backend_slot, __lb4_lookup_backend.
    rewrite Hst; simpl.
    destruct (LB4_SERVICES_MAP_V2 st !! _) as [slot |] eqn:Hslot;
      [| discriminate].
    intros [= <- <- <- <-]. right. rewrite <- Hst. eauto 10.
  - apply Z.eqb_neq in Hz. intros [= <- <- <- <-]. left. auto.
Qed.

Lemma fwd4_select_state cfg e ctx_full key svc aff st id' ob' fa' st' :
  fwd4_select cfg e ctx_full key svc aff st = inr (id', ob', fa', st') ->
  st' = set_prandom (prandom st') st.
Proof.
  destruct aff as [[id ob] fa]. intros H.
  apply fwd4_select_inv in H as [(_ & _ & _ & _ & ->) | (_ & _ & -> & _)].
  - destruct st; reflexivity.
  - destruct (sock_select_slot cfg e ctx_full st) as [sel st1] eqn:Hs.
    exact (sock_select_slot_state _ _ _ _ _ _ Hs).
Qed.

(** Whatever the two blocks select is a backend of the backend table. *)
Lemma fwd4_selected_backend cfg e ctx_full key svc client_cookie st
    id b fa st' :
  fwd4_select cfg e ctx_full key svc (fwd4_affinity st svc client_cookie) st
  = inr (id, Some b, fa, st') ->
  LB4_BACKEND_MAP st !! id = Some b.
Proof.
  destruct (fwd4_affinity st svc client_cookie) as [[id0 ob0] fa0] eqn:Ha.
  apply fwd4_affinity_inv in Ha as [_ Ha].
  intros H. apply fwd4_select_inv in H
    as [(Hnz & -> & <- & _ & _) | (_ & _ & _ & slot & _ & _ & Hb)].
  - destruct (Ha Hnz) as (_ & _ & b' & [= ->] & Hb). exact Hb.
  - symmetry. exact Hb.
Qed.

(** The three ways the last block ends. *)
Lemma fwd4_commit_inv cfg e ctx ctx_full orig_key svc client_cookie
    id b fa st ret ctx' st' :
  fwd4_commit cfg e ctx ctx_full orig_key svc client_cookie id b fa st
  = (ret, ctx', st') ->
  (ret = - ENXIO /\ ctx' = ctx /\ st' = st
   /\ lb4_svc_is_localredirect svc = true
   /\ sock4_skip_xlate_if_same_netns cfg e ctx_full b = true)
  \/ (ret = - ENOMEM /\ ctx' = ctx
      /\ revnat_update_error e <> None
      /\ exists r st2,
           sock4_update_revnat cfg e ctx_full b orig_key
             (rev_nat_index svc)
             (fwd4_affinity_written svc client_cookie id fa st) = (r, st2)
           /\ (r <? 0) = true
           /\ st' = update_metrics METRIC_EGRESS REASON_LB_REVNAT_UPDATE st2)
  \/ (ret = 0 /\ ctx' = ctx_to_backend ctx b
      /\ exists r,
           sock4_update_revnat cfg e ctx_full b orig_key
             (rev_nat_index svc)
             (fwd4_affinity_written svc client_cookie id fa st) = (r, st')
           /\ (r <? 0) = false).
Proof.
  unfold fwd4_commit. intros H.
  change (if lb4_svc_is_affinity svc && negb fa
          then lb4_update_affinity_by_netns st svc client_cookie id
          else st)
    with (fwd4_affinity_written svc client_cookie id fa st) in H.
  destruct (lb4_svc_is_localredirect svc
            && sock4_skip_xlate_if_same_netns cfg e ctx_full b) eqn:Hlr.
  - apply andb_true_iff in Hlr as [? ?].
    injection H as <- <- <-. left. auto.
  - destruct (sock4_update_revnat cfg e ctx_full b orig_key
                (rev_nat_index svc) _) as [r st2] eqn:Hu.
    destruct (r <? 0) eqn:Hr; injection H as <- <- <-.
    + right; left. repeat split; eauto.
      apply sock4_update_revnat_ret in Hu as [-> | [_ ?]]; [done | auto].
    + right; right. repeat split; eauto.
Qed.

(** *** The forward translation as a whole *)

(** Past the two guards and with a service matched, the function is the
    anti-MITM test followed by the selection and the last block. *)
Lemma sock4_xlate_fwd_matched cfg e ctx ctx_full udp_only st key svc :
  ENABLE_SOCKET_LB_HOST_ONLY cfg && negb (fst (ctx_in_hostns cfg e)) = false ->
  negb udp_only && negb (sock_proto_enabled cfg (protocol ctx)) = false ->
  sock4_service_lookup cfg st (ctx_key ctx) (fst (ctx_in_hostns cfg e))
  = (key, Some svc) ->
  __sock4_xlate_fwd cfg e ctx ctx_full udp_only st
  = if sock4_skip_xlate cfg st svc (user_ip4 ctx) then (- EPERM, ctx, st)
    else
      match fwd4_select cfg e ctx_full key svc
              (fwd4_affinity st svc (snd (ctx_in_hostns cfg e))) st with
      | inl st => (- ENOENT, ctx, st)
      | inr (_, None, _, st) =>
          (- ENOENT, ctx,
           update_metrics METRIC_EGRESS REASON_LB_NO_BACKEND st)
      | inr (backend_id, Some backend, backend_from_affinity, st) =>
          fwd4_commit cfg e ctx ctx_full (ctx_key ctx) svc
            (snd (ctx_in_hostns cfg e)) backend_id backend
            backend_from_affinity st
      end.
Proof.
  intros H1 H2 H3. rewrite sock4_xlate_fwd_blocks; simpl.
  rewrite H1, H2, H3. reflexivity.
Qed.

(** A call that returns 0 or [-ENOMEM] has passed the guards, matched a
    service that the anti-MITM test lets through, selected a backend, and
    ended in the last block. *)
Lemma sock4_xlate_fwd_committed cfg e ctx ctx_full udp_only st ret ctx' st' :
  __sock4_xlate_fwd cfg e ctx ctx_full udp_only st = (ret, ctx', st') ->
  ret = 0 \/ ret = - ENOMEM ->
  exists key svc id b fa st1,
    sock4_service_lookup cfg st (ctx_key ctx) (fst (ctx_in_hostns cfg e))
    = (key, Some svc)
    /\ sock4_skip_xlate cfg st svc (user_ip4 ctx) = false
    /\ fwd4_select cfg e ctx_full key svc
         (fwd4_affinity st svc (snd (ctx_in_hostns cfg e))) st
       = inr (id, Some b, fa, st1)
    /\ fwd4_commit cfg e ctx ctx_full (ctx_key ctx) svc
         (snd (ctx_in_hostns cfg e)) id b fa st1 = (ret, ctx', st').
Proof.
  rewrite sock4_xlate_fwd_blocks; simpl. unfold ENOMEM.
  intros H Hret.
  destruct (ENABLE_SOCKET_LB_HOST_ONLY cfg && _);
    [injection H as <- <- <-; unfold ENXIO in Hret; lia |].
  destruct (negb udp_only && _);
    [injection H as <- <- <-; unfold ENOTSUP in Hret; lia |].
  destruct (sock4_service_lookup cfg st _ _) as [key [svc |]];
    [| injection H as <- <- <-; unfold ENXIO in Hret; lia].
  destruct (sock4_skip_xlate cfg st svc _) eqn:Hskip;
    [injection H as <- <- <-; unfold EPERM in Hret; lia |].
  destruct (fwd4_select cfg e ctx_full key svc _ st)
    as [st1 | [[[id [b |]] fa] st1]] eqn:Hsel;
    try (injection H as <- <- <-; unfold ENOENT in Hret; lia).
  exists key, svc, id, b, fa, st1. auto.
Qed.

(** A forward translation that does not return 0 has not touched the
    context, and its return value is one of five error codes. *)
Lemma sock4_xlate_fwd_error cfg e ctx ctx_full udp_only st ret ctx' st' :
  __sock4_xlate_fwd cfg e ctx ctx_full udp_only st = (ret, ctx', st') ->
  ret <> 0 ->
  ctx' = ctx /\ In ret [- ENXIO; - ENOTSUP; - EPERM; - ENOENT; - ENOMEM].
Proof.
  intros H Hnz. revert H. rewrite sock4_xlate_fwd_blocks; simpl.
  repeat case_match; try (intros [= <- <- <-]; simpl; tauto).
  intros Hc. apply fwd4_commit_inv in Hc
    as [(-> & -> & _) | [(-> & -> & _) | (-> & _)]]; simpl; tauto.
Qed.

(** C9. A forward translation that does not return 0 leaves the destination
    address and port of the context as they were, and its return value is one
    of [-ENXIO], [-ENOTSUP], [-EPERM], [-ENOENT] and [-ENOMEM].  When it
    returns 0, the destination is the address and port of a backend of the
    backend table. *)
Theorem sock4_xlate_fwd_frame cfg e ctx ctx_full udp_only st ret ctx' st' :
  __sock4_xlate_fwd cfg e ctx ctx_full udp_only st = (ret, ctx', st') ->
  (ret <> 0 ->
     ctx' = ctx
     /\ In ret [- ENXIO; - ENOTSUP; - EPERM; - ENOENT; - ENOMEM])
  /\ (ret = 0 ->
        exists id backend,
          __lb4_lookup_backend st id = Some backend
          /\ ctx' = ctx_to_backend ctx backend).
Proof.
  intros H. split.
  - apply (sock4_xlate_fwd_error _ _ _ _ _ _ _ _ _ H).
  - intros ->.
    destruct (sock4_xlate_fwd_committed _ _ _ _ _ _ _ _ _ H)
      as (key & svc & id & b & fa & st1 & _ & _ & Hsel & Hc); [auto |].
    apply fwd4_selected_backend in Hsel.
    apply fwd4_commit_inv in Hc
      as [(Hr & _) | [(Hr & _) | (_ & -> & _)]]; try discriminate Hr.
    exists id, b. auto.
Qed.

(** [sock4_xlate_fwd_frame] on the concrete world. *)
Lemma sock4_xlate_fwd_frame_witness :
  (- EPERM <> 0 ->
     ctx_external = ctx_external
     /\ In (- EPERM) [- ENXIO; - ENOTSUP; - EPERM; - ENOENT; - ENOMEM])
  /\ (- EPERM = 0 ->
        exists id backend,
          __lb4_lookup_backend st_demo id = Some backend
          /\ ctx_external = ctx_to_backend ctx_external backend).
Proof.
  apply (sock4_xlate_fwd_frame cfg_demo env_demo ctx_external ctx_external
           true st_demo (- EPERM) ctx_external st_demo).
  vm_compute. reflexivity.
Defined.

(** X19. Past the two guards, when the service matched is flagged
    external-IP, or HostPort with an original destination that fails the
    code's test [is_v4_loopback], and the trust lookup on the original
    destination does not give the host's own identity, the forward
    translation returns [-EPERM] and leaves the context and the state as they
    were, whatever the backend table holds. *)
Theorem sock4_xlate_fwd_anti_mitm cfg e ctx ctx_full udp_only st key svc :
  ENABLE_SOCKET_LB_HOST_ONLY cfg && negb (fst (ctx_in_hostns cfg e)) = false ->
  negb udp_only && negb (sock_proto_enabled cfg (protocol ctx)) = false ->
  sock4_service_lookup cfg st (ctx_key ctx) (fst (ctx_in_hostns cfg e))
  = (key, Some svc) ->
  lb4_svc_is_external_ip svc = true
  \/ (lb4_svc_is_hostport svc = true
      /\ is_v4_loopback cfg (user_ip4 ctx) = false) ->
  (forall info,
     ipcache_lookup4 st (user_ip4 ctx) = Some info ->
     sec_label info <> HOST_ID cfg) ->
  __sock4_xlate_fwd cfg e ctx ctx_full udp_only st = (- EPERM, ctx, st).
Proof.
  intros Hhost Hproto Hsvc Hflag Hid.
  rewrite (sock4_xlate_fwd_matched _ _ _ _ _ _ _ _ Hhost Hproto Hsvc).
  assert (sock4_skip_xlate cfg st svc (user_ip4 ctx) = true) as ->;
    [| reflexivity].
  unfold sock4_skip_xlate.
  assert (lb4_svc_is_external_ip svc
          || lb4_svc_is_hostport svc
             && negb (is_v4_loopback cfg (user_ip4 ctx)) = true) as ->.
  { destruct Hflag as [-> | [-> ->]]; [reflexivity |].
    apply orb_true_r. }
  destruct (ipcache_lookup4 st (user_ip4 ctx)) as [info |] eqn:Hi;
    [| reflexivity].
  apply negb_true_iff, Z.eqb_neq. auto.
Qed.

(** [sock4_xlate_fwd_anti_mitm] on the concrete world. *)
Lemma sock4_xlate_fwd_anti_mitm_witness :
  __sock4_xlate_fwd cfg_demo env_demo ctx_external ctx_external true st_demo
  = (- EPERM, ctx_external, st_demo).
Proof.
  apply (sock4_xlate_fwd_anti_mitm cfg_demo env_demo ctx_external
           ctx_external true st_demo
           {| address := ipv4 192 0 2 1; dport := be16 443;
              backend_slot := 0 |}
           {| slot_backend_id := 0; count := 1; rev_nat_index := 3;
              flags := external_ip_flags |}).
  - reflexivity.
  - reflexivity.
  - vm_compute. reflexivity.
  - left. reflexivity.
  - intros info. vm_compute. discriminate.
Defined.

(** C2. The anti-MITM test does not hold for every destination that is not
    loopback.  [is_v4_loopback] compares the address masked with
    [0x7f000000] to the mask, which 255.255.255.255 passes although it is
    outside 127.0.0.0/8.  A datagram sent from the host namespace to
    255.255.255.255:8080, the directory holding a HostPort service on port
    8080 and the ipcache nothing for the address, is matched by the HostPort
    wildcard lookup, is let through by [sock4_skip_xlate], and is rewritten to
    the backend 10.0.0.5:8080: the call returns 0, not [-EPERM]. *)
Theorem sock4_xlate_fwd_hostport_broadcast :
  user_ip4 ctx_broadcast = be32_of_octets cfg_demo 255 255 255 255
  /\ is_v4_loopback cfg_demo (user_ip4 ctx_broadcast) = true
  /\ fst (ctx_in_hostns cfg_demo env_host) = true
  /\ snd (sock4_service_lookup cfg_demo st_hostport (ctx_key ctx_broadcast)
           (fst (ctx_in_hostns cfg_demo env_host))) = Some svc_hostport
  /\ lb4_svc_is_hostport svc_hostport = true
  /\ ipcache_lookup4 st_hostport (user_ip4 ctx_broadcast) = None
  /\ sock4_skip_xlate cfg_demo st_hostport svc_hostport
       (user_ip4 ctx_broadcast) = false
  /\ fst (__sock4_xlate_fwd cfg_demo env_host ctx_broadcast ctx_broadcast
            true st_hostport)
     = (0, ctx_of (ipv4 10 0 0 5) (be16 8080) IPPROTO_UDP)
  /\ fst (sock4_sendmsg cfg_demo env_host ctx_broadcast st_hostport)
     = (SYS_PROCEED, ctx_of (ipv4 10 0 0 5) (be16 8080) IPPROTO_UDP).
Proof.
  repeat match goal with |- _ /\ _ => split end; vm_compute; reflexivity.
Qed.

(** *** The reverse translation *)

Lemma sock4_service_lookup_prandom cfg f st key in_hostns :
  sock4_service_lookup cfg (set_prandom f st) key in_hostns
  = sock4_service_lookup cfg st key in_hostns.
Proof. reflexivity. Qed.

(** The reverse translation in terms of the state on entry. *)
Lemma sock4_xlate_rev_blocks cfg e ctx ctx_full st :
  __sock4_xlate_rev cfg e ctx ctx_full st
  = let cookie := fst (sock_local_cookie cfg e ctx_full st) in
    let st1 := snd (sock_local_cookie cfg e ctx_full st) in
    let key := {| rt_cookie := cookie; rt_address := user_ip4 ctx;
                  rt_port := ctx_dst_port ctx |} in
    match LB4_REVERSE_NAT_SK_MAP st !! key with
    | Some val =>
        let svc_key := {| address := re_address val; dport := re_port val;
                          backend_slot := 0 |} in
        if match snd (sock4_service_lookup cfg st svc_key
                        (fst (ctx_in_hostns cfg e))) with
           | None => true
           | Some s => negb (rev_nat_index s =? re_rev_nat_index val)
           end
        then
          (- ENOENT, ctx,
           update_metrics METRIC_INGRESS REASON_LB_REVNAT_STALE
             (set_revnat (delete key (LB4_REVERSE_NAT_SK_MAP st)) st1))
        else
          (0, ctx_set_port (ctx_set_ip4 ctx (re_address val)) (re_port val),
           st1)
    | None => (- ENXIO, ctx, st1)
    end.
Proof.
  unfold __sock4_xlate_rev.
  destruct (sock_local_cookie cfg e ctx_full st) as [c st1] eqn:Hc; simpl.
  apply sock_local_cookie_state in Hc.
  assert (LB4_REVERSE_NAT_SK_MAP st1 = LB4_REVERSE_NAT_SK_MAP st) as Hm
    by (rewrite Hc; reflexivity).
  rewrite Hm.
  destruct (LB4_REVERSE_NAT_SK_MAP st !! _) as [val |]; [| reflexivity].
  assert (forall k h, sock4_service_lookup cfg st1 k h
                      = sock4_service_lookup cfg st k h) as Hl
    by (intros; rewrite Hc; reflexivity).
  rewrite <- Hl. unfold sock4_service_lookup.
  destruct (lb4_lookup_service st1 _); reflexivity.
Qed.

(** A cached entry whose service still carries the recorded reverse-NAT
    identifier is translated back and left in place. *)
Lemma sock4_xlate_rev_hit cfg e ctx ctx_full st val svc :
  LB4_REVERSE_NAT_SK_MAP st !! sock4_rev_key cfg e ctx ctx_full st
  = Some val ->
  snd (sock4_service_lookup cfg st
         {| address := re_address val; dport := re_port val;
            backend_slot := 0 |} (fst (ctx_in_hostns cfg e))) = Some svc ->
  rev_nat_index svc = re_rev_nat_index val ->
  __sock4_xlate_rev cfg e ctx ctx_full st
  = (0, ctx_to_frontend ctx (re_address val) (re_port val),
     snd (sock_local_cookie cfg e ctx_full st)).
Proof.
  intros Hval Hsvc Hid. rewrite sock4_xlate_rev_blocks; simpl.
  unfold sock4_rev_key in Hval. rewrite Hval, Hsvc, Hid, Z.eqb_refl.
  reflexivity.
Qed.

(** C1. Let a forward translation succeed, with the reverse cache compiled
    in.  Then it has matched a service [svc], rewritten the destination from
    the frontend [(user_ip4 ctx, ctx_dst_port ctx)] to a backend [b], and left
    under [(cookie, be_address b, be_port b)] the frontend and the reverse-NAT
    identifier of [svc], [cookie] being the caller's socket cookie.  Any
    later reverse translation keyed by the same cookie and by the backend's
    address and port, in a state that still holds that entry and where the
    frontend resolves to a service with the same reverse-NAT identifier,
    returns 0 with exactly the frontend address and port. *)
Theorem sock4_xlate_round_trip cfg e ctx ctx_full udp_only st ctx1 st1 :
  ENABLE_HOST_SERVICES_UDP cfg || ENABLE_HOST_SERVICES_PEER cfg = true ->
  __sock4_xlate_fwd cfg e ctx ctx_full udp_only st = (0, ctx1, st1) ->
  exists svc b cookie,
    snd (sock4_service_lookup cfg st (ctx_key ctx)
           (fst (ctx_in_hostns cfg e))) = Some svc
    /\ ctx1 = ctx_to_backend ctx b
    /\ (BPF_HAVE_SOCKET_COOKIE cfg = true -> cookie = socket_cookie e)
    /\ (BPF_HAVE_SOCKET_COOKIE cfg = false ->
        protocol ctx_full <> IPPROTO_TCP -> cookie = 0)
    /\ LB4_REVERSE_NAT_SK_MAP st1
         !! {| rt_cookie := cookie; rt_address := be_address b;
               rt_port := be_port b |}
       = Some {| re_address := user_ip4 ctx; re_port := ctx_dst_port ctx;
                 re_rev_nat_index := rev_nat_index svc |}
    /\ forall e2 ctx2 ctx_full2 st2 svc2,
         sock4_rev_key cfg e2 ctx2 ctx_full2 st2
         = {| rt_cookie := cookie; rt_address := be_address b;
              rt_port := be_port b |} ->
         LB4_REVERSE_NAT_SK_MAP st2
           !! {| rt_cookie := cookie; rt_address := be_address b;
                 rt_port := be_port b |}
         = LB4_REVERSE_NAT_SK_MAP st1
             !! {| rt_cookie := cookie; rt_address := be_address b;
                   rt_port := be_port b |} ->
         snd (sock4_service_lookup cfg st2 (ctx_key ctx)
                (fst (ctx_in_hostns cfg e2))) = Some svc2 ->
         rev_nat_index svc2 = rev_nat_index svc ->
         __sock4_xlate_rev cfg e2 ctx2 ctx_full2 st2
         = (0, ctx_to_frontend ctx2 (user_ip4 ctx) (ctx_dst_port ctx),
            snd (sock_local_cookie cfg e2 ctx_full2 st2)).
Proof.
  intros Hrev H.
  destruct (sock4_xlate_fwd_committed _ _ _ _ _ _ _ _ _ H)
    as (key & svc & id & b & fa & st' & Hsvc & _ & _ & Hc); [auto |].
  apply fwd4_commit_inv in Hc
    as [(Hr & _) | [(Hr & _) | (_ & -> & r & Hu & Hr)]];
    try discriminate Hr.
  pose proof (sock4_update_revnat_ok _ _ _ _ _ _ _ _ _ Hrev Hu Hr) as Hentry.
  simpl in Hentry.
  set (stw := fwd4_affinity_written svc (snd (ctx_in_hostns cfg e)) id fa st')
    in *.
  exists svc, b, (fst (sock_local_cookie cfg e ctx_full stw)).
  split; [rewrite Hsvc; reflexivity |].
  split; [reflexivity |].
  split; [intros Hc; unfold sock_local_cookie; rewrite Hc; reflexivity |].
  split.
  { intros Hc Hp. rewrite sock_local_cookie_stable by auto.
    rewrite Hc. reflexivity. }
  split; [exact Hentry |].
  intros e2 ctx2 ctx_full2 st2 svc2 Hkey Hkeep Hsvc2 Hid.
  rewrite (sock4_xlate_rev_hit cfg e2 ctx2 ctx_full2 st2
             {| re_address := user_ip4 ctx; re_port := ctx_dst_port ctx;
                re_rev_nat_index := rev_nat_index svc |} svc2).
  - reflexivity.
  - rewrite Hkey, Hkeep. exact Hentry.
  - exact Hsvc2.
  - exact Hid.
Qed.

(** [sock4_xlate_round_trip] on the concrete world. *)
Lemma sock4_xlate_round_trip_witness :
  exists b,
    snd (fst fwd_demo) = ctx_to_backend ctx_demo b
    /\ __sock4_xlate_rev cfg_demo env_demo (snd (fst fwd_demo))
         (snd (fst fwd_demo)) (snd fwd_demo)
       = (0, ctx_to_frontend (snd (fst fwd_demo)) (user_ip4 ctx_demo)
               (ctx_dst_port ctx_demo),
          snd (sock_local_cookie cfg_demo env_demo (snd (fst fwd_demo))
                 (snd fwd_demo))).
Proof.
  destruct (sock4_xlate_round_trip cfg_demo env_demo ctx_demo ctx_demo true
              st_demo (snd (fst fwd_demo)) (snd fwd_demo))
    as (svc & b & cookie & Hsvc & Hctx & Hck & _ & Hent & Hrt).
  - reflexivity.
  - vm_compute. reflexivity.
  - exists b. split; [exact Hctx |].
    specialize (Hck eq_refl). subst cookie.
    apply (Hrt env_demo (snd (fst fwd_demo)) (snd (fst fwd_demo))
             (snd fwd_demo) svc).
    + rewrite Hctx. destruct b as [a p]. vm_compute in Hctx.
      injection Hctx as <- <-. vm_compute. reflexivity.
    + reflexivity.
    + rewrite <- Hsvc. vm_compute. reflexivity.
    + reflexivity.
Defined.

(** C3. A reverse lookup that finds a cached entry whose frontend no longer
    resolves to a service, or resolves to one with another reverse-NAT
    identifier, returns [-ENOENT] (a plain miss is [-ENXIO]), deletes the
    entry, counts a stale event and leaves the context untranslated.  The
    same lookup repeated on the state it leaves returns [-ENXIO]. *)
Theorem sock4_xlate_rev_stale cfg e ctx ctx_full st val :
  LB4_REVERSE_NAT_SK_MAP st !! sock4_rev_key cfg e ctx ctx_full st
  = Some val ->
  (forall svc,
     snd (sock4_service_lookup cfg st
            {| address := re_address val; dport := re_port val;
               backend_slot := 0 |} (fst (ctx_in_hostns cfg e))) = Some svc ->
     rev_nat_index svc <> re_rev_nat_index val) ->
  exists st1,
    __sock4_xlate_rev cfg e ctx ctx_full st = (- ENOENT, ctx, st1)
    /\ - ENOENT <> - ENXIO
    /\ LB4_REVERSE_NAT_SK_MAP st1
       = delete (sock4_rev_key cfg e ctx ctx_full st)
           (LB4_REVERSE_NAT_SK_MAP st)
    /\ METRICS st1 = METRICS st ++ [(METRIC_INGRESS, REASON_LB_REVNAT_STALE)]
    /\ (sock4_rev_key cfg e ctx ctx_full st1
        = sock4_rev_key cfg e ctx ctx_full st ->
        exists st2,
          __sock4_xlate_rev cfg e ctx ctx_full st1 = (- ENXIO, ctx, st2)
          /\ LB4_REVERSE_NAT_SK_MAP st2 = LB4_REVERSE_NAT_SK_MAP st1).
Proof.
  intros Hval Hstale.
  rewrite sock4_xlate_rev_blocks; simpl.
  unfold sock4_rev_key in Hval. rewrite Hval.
  destruct (sock_local_cookie cfg e ctx_full st) as [c sta] eqn:Hc.
  pose proof (sock_local_cookie_state _ _ _ _ _ _ Hc) as Hsta.
  simpl in *.
  assert (match snd (sock4_service_lookup cfg st
                  {| address := re_address val; dport := re_port val;
                     backend_slot := 0 |} (fst (ctx_in_hostns cfg e))) with
          | Some s => negb (rev_nat_index s =? re_rev_nat_index val)
          | None => true
          end = true) as ->.
  { destruct (snd (sock4_service_lookup cfg st _ _)) as [s |] eqn:Hs;
      [| reflexivity].
    apply negb_true_iff, Z.eqb_neq. auto. }
  eexists. split; [reflexivity |].
  split; [discriminate |].
  unfold sock4_rev_key. rewrite Hc; simpl.
  split; [reflexivity |].
  split; [rewrite Hsta; reflexivity |].
  intros Hkey. rewrite sock4_xlate_rev_blocks; simpl.
  unfold sock4_rev_key in Hkey. simpl in Hkey.
  injection Hkey as ->.
  rewrite lookup_delete_eq.
  eexists. split; [reflexivity |].
  rewrite sock_local_cookie_revnat. reflexivity.
Qed.

(** [sock4_xlate_rev_stale] on the concrete world. *)
Lemma sock4_xlate_rev_stale_witness :
  exists st1,
    __sock4_xlate_rev cfg_demo env_demo ctx_reply ctx_reply st_stale
    = (- ENOENT, ctx_reply, st1)
    /\ exists st2,
         __sock4_xlate_rev cfg_demo env_demo ctx_reply ctx_reply st1
         = (- ENXIO, ctx_reply, st2).
Proof.
  destruct (sock4_xlate_rev_stale cfg_demo env_demo ctx_reply ctx_reply
              st_stale
              {| re_address := ipv4 10 0 0 1; re_port := be16 80;
                 re_rev_nat_index := 9 |})
    as (st1 & H1 & _ & _ & _ & H2).
  - vm_compute. reflexivity.
  - intros svc. vm_compute. intros [= <-]. discriminate.
  - exists st1. split; [exact H1 |].
    destruct H2 as (st2 & H2 & _); [reflexivity |].
    exists st2. exact H2.
Defined.

(** *** The wildcard lookup *)

Lemma in_nodeport_range_not cfg key :
  (bpf_ntohs cfg (dport key) <? NODEPORT_PORT_MIN cfg)
  || (bpf_ntohs cfg (dport key) >? NODEPORT_PORT_MAX cfg)
  = negb (in_nodeport_range cfg key).
Proof.
  unfold in_nodeport_range.
  rewrite negb_andb, Z.gtb_ltb, !Z.leb_antisym, !negb_involutive.
  reflexivity.
Qed.

(** One call of [sock4_wildcard_lookup] is one attempt without the flag
    filter, and it zeroes the key's address exactly when it gets as far as
    the lookup. *)
Lemma sock4_wildcard_lookup_spec cfg st key include_remote_hosts inv_match
    in_hostns :
  sock4_wildcard_lookup cfg st key include_remote_hosts inv_match in_hostns
  = if xorb (in_nodeport_range cfg key) inv_match
       && wildcard_source_ok cfg st key include_remote_hosts in_hostns
    then ({| address := 0; dport := dport key;
             backend_slot := backend_slot key |},
          lb4_lookup_service st
            {| address := 0; dport := dport key;
               backend_slot := backend_slot key |})
    else (key, None).
Proof.
  unfold sock4_wildcard_lookup, wildcard_source_ok.
  rewrite in_nodeport_range_not.
  destruct (in_nodeport_range cfg key), inv_match; simpl; try reflexivity.
  - destruct (in_hostns && is_v4_loopback cfg (address key));
      [reflexivity |]; simpl.
    destruct (ipcache_lookup4 st (address key)) as [info |]; reflexivity.
  - destruct (in_hostns && is_v4_loopback cfg (address key));
      [reflexivity |]; simpl.
    destruct (ipcache_lookup4 st (address key)) as [info |]; reflexivity.
Qed.

(** C8. With NodePort support compiled in, the wildcard lookup that follows
    a missed exact lookup is two ordered attempts: the first with remote
    hosts included and the NodePort port-range test, kept only if the service
    found carries the NodePort flag; the second, made only if the first kept
    nothing, with remote hosts excluded and the port-range test inverted,
    kept only if the service found carries the HostPort flag.  A service
    lacking the required flag counts as no match. *)
Theorem sock4_wildcard_lookup_full_spec cfg st key in_hostns :
  ENABLE_NODEPORT cfg = true ->
  snd (sock4_wildcard_lookup_full cfg st key in_hostns)
  = wildcard_lookup_spec cfg st key in_hostns
  /\ (lb4_lookup_service st key = None ->
      snd (sock4_service_lookup cfg st key in_hostns)
      = wildcard_lookup_spec cfg st key in_hostns).
Proof.
  intros Hnp.
  assert (snd (sock4_wildcard_lookup_full cfg st key in_hostns)
          = wildcard_lookup_spec cfg st key in_hostns) as Hfull.
  { unfold sock4_wildcard_lookup_full, wildcard_lookup_spec,
      wildcard_attempt_spec.
    rewrite Hnp, !sock4_wildcard_lookup_spec.
    destruct (in_nodeport_range cfg key) eqn:Hr; simpl.
    - destruct (wildcard_source_ok cfg st key true in_hostns); simpl.
      + destruct (lb4_lookup_service st _) as [s |]; simpl.
        * destruct (lb4_svc_is_nodeport s); simpl; [reflexivity |].
          rewrite sock4_wildcard_lookup_spec; simpl.
          unfold in_nodeport_range in *; simpl. rewrite Hr. reflexivity.
        * rewrite sock4_wildcard_lookup_spec; simpl.
          unfold in_nodeport_range in *; simpl. rewrite Hr. reflexivity.
      + rewrite sock4_wildcard_lookup_spec, Hr. reflexivity.
    - rewrite sock4_wildcard_lookup_spec, Hr; simpl.
      destruct (wildcard_source_ok cfg st key false in_hostns); simpl;
        [| reflexivity].
      destruct (lb4_lookup_service st _) as [s |]; simpl; [| reflexivity].
      destruct (lb4_svc_is_hostport s); reflexivity. }
  split; [exact Hfull |].
  intros Hmiss. unfold sock4_service_lookup. rewrite Hmiss. exact Hfull.
Qed.

(** [sock4_wildcard_lookup_full_spec] on the concrete world. *)
Lemma sock4_wildcard_lookup_full_spec_witness :
  snd (sock4_wildcard_lookup_full cfg_demo st_demo
         {| address := ipv4 192 168 1 10; dport := be16 30080;
            backend_slot := 0 |} false)
  = wildcard_lookup_spec cfg_demo st_demo
      {| address := ipv4 192 168 1 10; dport := be16 30080;
         backend_slot := 0 |} false.
Proof.
  apply (proj1 (sock4_wildcard_lookup_full_spec cfg_demo st_demo
                  {| address := ipv4 192 168 1 10; dport := be16 30080;
                     backend_slot := 0 |} false eq_refl)).
Defined.

(** *** The bind-conflict guard *)

Lemma sock4_post_bind_lookup cfg e ctx ctx_full st :
  sock_proto_enabled cfg (sk_protocol ctx) = true ->
  fst (ctx_in_hostns cfg e) = true ->
  __sock4_post_bind cfg e ctx ctx_full st
  = match bind_conflict_service cfg st (bind_key cfg ctx) with
    | Some svc => if svc_is_reserved svc then - EADDRINUSE else 0
    | None => 0
    end.
Proof.
  intros Hp Hns.
  unfold __sock4_post_bind, bind_conflict_service, wildcard_attempt_spec,
    lb4_lookup_service, bind_key, svc_is_reserved.
  rewrite Hp, Hns; simpl.
  destruct (LB4_SERVICES_MAP_V2 st !! _) as [s |]; [reflexivity |].
  rewrite sock4_wildcard_lookup_spec; simpl. rewrite xorb_false_r.
  destruct (in_nodeport_range cfg _ && wildcard_source_ok cfg st _ _ _);
    simpl; [| reflexivity].
  unfold lb4_lookup_service; simpl.
  destruct (LB4_SERVICES_MAP_V2 st !! _) as [s |]; reflexivity.
Qed.

(** X20. For a caller in the host namespace and an enabled protocol, the
    post-bind hook rejects a bind when the service its lookup finds, the
    exact entry or else [bind_conflict_service]'s wildcard entry (port in the
    NodePort range, address passing [is_v4_loopback] or of host identity), is
    flagged NodePort, external-IP or load-balancer, and lets every other bind
    proceed.  The hook only returns a verdict: its context is read, never
    written. *)
Theorem sock4_post_bind_conflict cfg e ctx st :
  sock_proto_enabled cfg (sk_protocol ctx) = true ->
  fst (ctx_in_hostns cfg e) = true ->
  (forall svc,
     bind_conflict_service cfg st (bind_key cfg ctx) = Some svc ->
     svc_is_reserved svc = true ->
     sock4_post_bind cfg e ctx st = SYS_REJECT)
  /\ ((forall svc,
         bind_conflict_service cfg st (bind_key cfg ctx) = Some svc ->
         svc_is_reserved svc = false) ->
      sock4_post_bind cfg e ctx st = SYS_PROCEED).
Proof.
  intros Hp Hns. unfold sock4_post_bind.
  rewrite (sock4_post_bind_lookup _ _ _ _ _ Hp Hns).
  split.
  - intros svc -> ->. reflexivity.
  - intros Hno.
    destruct (bind_conflict_service cfg st _) as [svc |]; [| reflexivity].
    rewrite (Hno svc eq_refl). reflexivity.
Qed.

(** [sock4_post_bind_conflict] on the concrete world. *)
Lemma sock4_post_bind_conflict_witness :
  sock4_post_bind cfg_demo env_host sk_nodeport st_demo = SYS_REJECT
  /\ sock4_post_bind cfg_demo env_host sk_host_nodeport st_demo = SYS_REJECT
  /\ sock4_post_bind cfg_demo env_host sk_free st_demo = SYS_PROCEED.
Proof.
  split; [| split].
  - apply (proj1 (sock4_post_bind_conflict cfg_demo env_host sk_nodeport
                    st_demo eq_refl eq_refl) svc_nodeport).
    + vm_compute. reflexivity.
    + reflexivity.
  - apply (proj1 (sock4_post_bind_conflict cfg_demo env_host
                    sk_host_nodeport st_demo eq_refl eq_refl) svc_nodeport).
    + vm_compute. reflexivity.
    + reflexivity.
  - apply (proj2 (sock4_post_bind_conflict cfg_demo env_host sk_free
                    st_demo eq_refl eq_refl)).
    intros svc. vm_compute. discriminate.
Defined.

(** C5. The post-bind hook does not let every bind proceed that matches no
    flagged service.  A TCP bind from the host namespace to
    255.255.255.255:30080 matches no service exactly, and the address is
    neither loopback nor known to the ipcache; but it passes
    [is_v4_loopback], so the wildcard lookup finds the NodePort service on
    port 30080 and the hook rejects the bind. *)
Theorem sock4_post_bind_rejects_broadcast :
  src_ip4 sk_broadcast_nodeport = be32_of_octets cfg_demo 255 255 255 255
  /\ sock_proto_enabled cfg_demo (sk_protocol sk_broadcast_nodeport) = true
  /\ fst (ctx_in_hostns cfg_demo env_host) = true
  /\ lb4_lookup_service st_demo (bind_key cfg_demo sk_broadcast_nodeport)
     = None
  /\ ipcache_lookup4 st_demo (src_ip4 sk_broadcast_nodeport) = None
  /\ is_v4_loopback cfg_demo (src_ip4 sk_broadcast_nodeport) = true
  /\ snd (sock4_wildcard_lookup cfg_demo st_demo
            (bind_key cfg_demo sk_broadcast_nodeport) false false true)
     = Some svc_nodeport
  /\ sock4_post_bind cfg_demo env_host sk_broadcast_nodeport st_demo
     = SYS_REJECT.
Proof.
  repeat match goal with |- _ /\ _ => split end; vm_compute; reflexivity.
Qed.

(** *** Session affinity *)

Lemma sock4_update_revnat_affinity cfg e ctx b orig_key id st ret st' :
  sock4_update_revnat cfg e ctx b orig_key id st = (ret, st') ->
  LB4_AFFINITY_MAP st' = LB4_AFFINITY_MAP st
  /\ LB4_BACKEND_MAP st' = LB4_BACKEND_MAP st.
Proof.
  intros H. apply sock4_update_revnat_state in H. rewrite H. auto.
Qed.

Lemma affinity_backend_id_lookup st svc client_cookie id :
  lb4_affinity_backend_id_by_netns st svc client_cookie = id ->
  id <> 0 ->
  LB4_AFFINITY_MAP st !! affinity_key svc client_cookie = Some id.
Proof.
  unfold lb4_affinity_backend_id_by_netns, affinity_key.
  destruct (LB4_AFFINITY_MAP st !! _) as [i |]; simpl; congruence.
Qed.

(** A call that gets as far as the reverse-cache write, for a service with
    affinity, leaves the backend it selected in the affinity table, whether
    the write then succeeds (return 0) or fails (return [-ENOMEM]). *)
Lemma sock4_xlate_fwd_affinity_recorded cfg e ctx ctx_full udp_only st
    ret ctx' st' key svc :
  __sock4_xlate_fwd cfg e ctx ctx_full udp_only st = (ret, ctx', st') ->
  ret = 0 \/ ret = - ENOMEM ->
  sock4_service_lookup cfg st (ctx_key ctx) (fst (ctx_in_hostns cfg e))
  = (key, Some svc) ->
  lb4_svc_is_affinity svc = true ->
  exists id b fa st1,
    fwd4_select cfg e ctx_full key svc
      (fwd4_affinity st svc (snd (ctx_in_hostns cfg e))) st
    = inr (id, Some b, fa, st1)
    /\ LB4_BACKEND_MAP st !! id = Some b
    /\ LB4_BACKEND_MAP st' = LB4_BACKEND_MAP st
    /\ LB4_AFFINITY_MAP st' !! affinity_key svc (snd (ctx_in_hostns cfg e))
       = Some id
    /\ (ret = 0 -> ctx' = ctx_to_backend ctx b)
    /\ (ret = - ENOMEM -> ctx' = ctx).
Proof.
  intros H Hret Hsvc Haff.
  destruct (sock4_xlate_fwd_committed _ _ _ _ _ _ _ _ _ H Hret)
    as (key' & svc' & id & b & fa & st1 & Hsvc' & _ & Hsel & Hc).
  rewrite Hsvc in Hsvc'. injection Hsvc' as <- <-.
  exists id, b, fa, st1. split; [exact Hsel |].
  pose proof (fwd4_selected_backend _ _ _ _ _ _ _ _ _ _ _ Hsel) as Hb.
  split; [exact Hb |].
  set (c := snd (ctx_in_hostns cfg e)) in *.
  assert (LB4_AFFINITY_MAP (fwd4_affinity_written svc c id fa st1)
            !! affinity_key svc c = Some id
          /\ LB4_BACKEND_MAP (fwd4_affinity_written svc c id fa st1)
             = LB4_BACKEND_MAP st) as [Hw Hwb].
  { pose proof (fwd4_select_state _ _ _ _ _ _ _ _ _ _ _ Hsel) as Hst1.
    destruct (fwd4_affinity st svc c) as [[id0 ob0] fa0] eqn:Ha.
    apply fwd4_affinity_inv in Ha as [Hfa Ha].
    apply fwd4_select_inv in Hsel
      as [(Hnz & -> & <- & -> & ->) | (_ & -> & _ & _)].
    - destruct (Ha Hnz) as (_ & Hid & _).
      unfold fwd4_affinity_written. rewrite Hfa, Haff; simpl.
      split; [| reflexivity].
      apply affinity_backend_id_lookup; assumption.
    - unfold fwd4_affinity_written, lb4_update_affinity_by_netns.
      rewrite Haff; simpl. split; [apply lookup_insert_eq |].
      rewrite Hst1. reflexivity. }
  apply fwd4_commit_inv in Hc
    as [(-> & _) | [(-> & -> & _ & r & st2 & Hu & _ & ->)
                   | (-> & -> & r & Hu & _)]].
  - destruct Hret as [Hr | Hr]; discriminate Hr.
  - apply sock4_update_revnat_affinity in Hu as [Hua Hub].
    simpl. rewrite Hua, Hub. repeat split; auto. discriminate.
  - apply sock4_update_revnat_affinity in Hu as [Hua Hub].
    rewrite Hua, Hub. repeat split; auto. discriminate.
Qed.

(** A call past the guards whose service has an affinity entry for the
    client, naming an existing backend, goes to the last block with that
    backend: no slot is looked up. *)
Lemma sock4_xlate_fwd_affinity_followed cfg e ctx ctx_full udp_only st
    key svc id b :
  ENABLE_SOCKET_LB_HOST_ONLY cfg && negb (fst (ctx_in_hostns cfg e)) = false ->
  negb udp_only && negb (sock_proto_enabled cfg (protocol ctx)) = false ->
  sock4_service_lookup cfg st (ctx_key ctx) (fst (ctx_in_hostns cfg e))
  = (key, Some svc) ->
  sock4_skip_xlate cfg st svc (user_ip4 ctx) = false ->
  lb4_svc_is_affinity svc = true ->
  LB4_AFFINITY_MAP st !! affinity_key svc (snd (ctx_in_hostns cfg e))
  = Some id ->
  id <> 0 ->
  LB4_BACKEND_MAP st !! id = Some b ->
  __sock4_xlate_fwd cfg e ctx ctx_full udp_only st
  = fwd4_commit cfg e ctx ctx_full (ctx_key ctx) svc
      (snd (ctx_in_hostns cfg e)) id b true st.
Proof.
  intros Hhost Hproto Hsvc Hskip Haff Hid Hnz Hb.
  rewrite (sock4_xlate_fwd_matched _ _ _ _ _ _ _ _ Hhost Hproto Hsvc), Hskip.
  rewrite (fwd4_affinity_hit _ _ _ _ _ Haff Hid Hnz Hb).
  unfold fwd4_select. apply Z.eqb_neq in Hnz. rewrite Hnz. reflexivity.
Qed.

(** C6. Let a forward translation for a service with affinity succeed.  It
    has chosen a backend [b] of identifier [id], and the affinity table then
    maps the service and the client's cookie to [id].  A second forward
    translation by the same client that reaches backend selection for a
    service record of the same identity, in any state that still holds that
    affinity entry and a backend under [id], whatever its slot entries are,
    selects that backend without looking at any slot and goes to the last
    block with it: when it returns 0 the destination is that backend's
    address and port, and it returns 0 unless the local-redirect test
    ([-ENXIO]) or the reverse-cache write ([-ENOMEM]) aborts it.  Identifier
    0 stands for no backend. *)
Theorem sock4_affinity_sticky cfg e1 ctx1 ctx_full1 udp_only1 st ctx1' st1
    key1 svc :
  __sock4_xlate_fwd cfg e1 ctx1 ctx_full1 udp_only1 st = (0, ctx1', st1) ->
  sock4_service_lookup cfg st (ctx_key ctx1) (fst (ctx_in_hostns cfg e1))
  = (key1, Some svc) ->
  lb4_svc_is_affinity svc = true ->
  exists id b,
    LB4_BACKEND_MAP st !! id = Some b
    /\ ctx1' = ctx_to_backend ctx1 b
    /\ LB4_AFFINITY_MAP st1 !! affinity_key svc (snd (ctx_in_hostns cfg e1))
       = Some id
    /\ forall e2 ctx2 ctx_full2 udp_only2 st2 key2 svc2 b2,
         snd (ctx_in_hostns cfg e2) = snd (ctx_in_hostns cfg e1) ->
         ENABLE_SOCKET_LB_HOST_ONLY cfg && negb (fst (ctx_in_hostns cfg e2))
         = false ->
         negb udp_only2 && negb (sock_proto_enabled cfg (protocol ctx2))
         = false ->
         sock4_service_lookup cfg st2 (ctx_key ctx2)
           (fst (ctx_in_hostns cfg e2)) = (key2, Some svc2) ->
         sock4_skip_xlate cfg st2 svc2 (user_ip4 ctx2) = false ->
         lb4_svc_is_affinity svc2 = true ->
         rev_nat_index svc2 = rev_nat_index svc ->
         LB4_AFFINITY_MAP st2
           !! affinity_key svc (snd (ctx_in_hostns cfg e1))
         = LB4_AFFINITY_MAP st1
             !! affinity_key svc (snd (ctx_in_hostns cfg e1)) ->
         id <> 0 ->
         LB4_BACKEND_MAP st2 !! id = Some b2 ->
         __sock4_xlate_fwd cfg e2 ctx2 ctx_full2 udp_only2 st2
         = fwd4_commit cfg e2 ctx2 ctx_full2 (ctx_key ctx2) svc2
             (snd (ctx_in_hostns cfg e2)) id b2 true st2
         /\ exists ret ctx2' st2',
           __sock4_xlate_fwd cfg e2 ctx2 ctx_full2 udp_only2 st2
           = (ret, ctx2', st2')
           /\ ((ret = 0 /\ ctx2' = ctx_to_backend ctx2 b2)
               \/ (ret = - ENXIO /\ ctx2' = ctx2
                   /\ lb4_svc_is_localredirect svc2 = true
                   /\ sock4_skip_xlate_if_same_netns cfg e2 ctx_full2 b2
                      = true)
               \/ (ret = - ENOMEM /\ ctx2' = ctx2
                   /\ revnat_update_error e2 <> None)).
Proof.
  intros H Hsvc Haff.
  destruct (sock4_xlate_fwd_affinity_recorded _ _ _ _ _ _ _ _ _ _ _
              H (or_introl eq_refl) Hsvc Haff)
    as (id & b & fa & st' & _ & Hb & _ & Hrec & Hctx & _).
  exists id, b. split; [exact Hb |]. split; [auto |]. split; [exact Hrec |].
  intros e2 ctx2 ctx_full2 udp_only2 st2 key2 svc2 b2
    Hsame Hhost Hproto Hsvc2 Hskip Haff2 Hrn Hkeep Hnz Hb2.
  assert (LB4_AFFINITY_MAP st2
            !! affinity_key svc2 (snd (ctx_in_hostns cfg e2)) = Some id)
    as Hent.
  { unfold affinity_key in *. rewrite Hrn, Hsame, Hkeep. exact Hrec. }
  rewrite (sock4_xlate_fwd_affinity_followed _ _ _ _ _ _ _ _ _ _
             Hhost Hproto Hsvc2 Hskip Haff2 Hent Hnz Hb2).
  split; [reflexivity |].
  destruct (fwd4_commit cfg e2 ctx2 ctx_full2 (ctx_key ctx2) svc2
              (snd (ctx_in_hostns cfg e2)) id b2 true st2)
    as [[ret ctx2'] st2'] eqn:Hc.
  exists ret, ctx2', st2'. split; [reflexivity |].
  apply fwd4_commit_inv in Hc
    as [(-> & -> & _ & Hlr & Hsk) | [(-> & -> & Herr & _) | (-> & -> & _)]];
    auto 10.
Qed.

(** [sock4_affinity_sticky] on the concrete world. *)
Lemma sock4_affinity_sticky_witness :
  exists ret ctx2' st2',
    __sock4_xlate_fwd cfg_demo env_second ctx_affinity ctx_affinity true
      (swap_slots (snd fwd_affinity)) = (ret, ctx2', st2')
    /\ ((ret = 0 /\ ctx2' = ctx_to_backend ctx_affinity backend_6)
        \/ (ret = - ENXIO /\ ctx2' = ctx_affinity
            /\ lb4_svc_is_localredirect svc_affinity = true
            /\ sock4_skip_xlate_if_same_netns cfg_demo env_second
                 ctx_affinity backend_6 = true)
        \/ (ret = - ENOMEM /\ ctx2' = ctx_affinity
            /\ revnat_update_error env_second <> None)).
Proof.
  destruct (sock4_affinity_sticky cfg_demo env_demo ctx_affinity ctx_affinity
              true st_demo (snd (fst fwd_affinity)) (snd fwd_affinity)
              (ctx_key ctx_affinity) svc_affinity)
    as (id & b & _ & _ & Hrec & Hnext).
  - vm_compute. reflexivity.
  - vm_compute. reflexivity.
  - reflexivity.
  - vm_compute in Hrec. injection Hrec as <-.
    refine (proj2 (Hnext env_second ctx_affinity ctx_affinity true
                     (swap_slots (snd fwd_affinity)) (ctx_key ctx_affinity)
                     svc_affinity backend_6 _ _ _ _ _ _ _ _ _ _)).
    + reflexivity.
    + reflexivity.
    + reflexivity.
    + vm_compute. reflexivity.
    + vm_compute. reflexivity.
    + reflexivity.
    + reflexivity.
    + vm_compute. reflexivity.
    + discriminate.
    + vm_compute. reflexivity.
Defined.

(** *** Slot selection *)

(** Without affinity, on a socket that is not TCP, the slot looked up is
    [(cookie mod count) + 1], the cookie being the socket cookie (0 without
    the socket cookie helper); no random value is drawn. *)
Lemma fwd4_select_connectionless cfg e ctx_full key svc st :
  protocol ctx_full <> IPPROTO_TCP ->
  fwd4_select cfg e ctx_full key svc (0, None, false) st
  = match LB4_SERVICES_MAP_V2 st
            !! {| address := address key; dport := dport key;
                  backend_slot :=
                    (if BPF_HAVE_SOCKET_COOKIE cfg then socket_cookie e
                     else 0) mod count svc + 1 |} with
    | None => inl (update_metrics METRIC_EGRESS REASON_LB_NO_BACKEND_SLOT st)
    | Some slot =>
        inr (slot_backend_id slot,
             LB4_BACKEND_MAP st !! slot_backend_id slot, false, st)
    end.
Proof.
  intros Hp. unfold fwd4_select, sock_select_slot; simpl.
  apply Z.eqb_neq in Hp as Hp'. rewrite Hp'.
  rewrite sock_local_cookie_stable by auto.
  reflexivity.
Qed.

(** C7. For a service without affinity and a socket that is not TCP, the
    forward translation looks up slot [(cookie mod count) + 1], where the
    cookie is the socket's cookie, and translates to the backend of that
    slot.  So two successful translations of the same destination from
    sockets with the same cookie, against the same service and backend
    tables, end on the same backend.  On a TCP socket the selection value is
    instead the next value of the pseudo-random source, consumed by the
    call. *)
Theorem sock4_connectionless_deterministic cfg e1 e2 ctx ctx_full udp_only
    st1 st2 key svc ctx1' st1' ctx2' st2' :
  protocol ctx_full <> IPPROTO_TCP ->
  socket_cookie e2 = socket_cookie e1 ->
  ctx_in_hostns cfg e2 = ctx_in_hostns cfg e1 ->
  LB4_SERVICES_MAP_V2 st2 = LB4_SERVICES_MAP_V2 st1 ->
  LB4_BACKEND_MAP st2 = LB4_BACKEND_MAP st1 ->
  IPCACHE_MAP st2 = IPCACHE_MAP st1 ->
  sock4_service_lookup cfg st1 (ctx_key ctx) (fst (ctx_in_hostns cfg e1))
  = (key, Some svc) ->
  lb4_svc_is_affinity svc = false ->
  __sock4_xlate_fwd cfg e1 ctx ctx_full udp_only st1 = (0, ctx1', st1') ->
  __sock4_xlate_fwd cfg e2 ctx ctx_full udp_only st2 = (0, ctx2', st2') ->
  (exists slot b,
     LB4_SERVICES_MAP_V2 st1
       !! {| address := address key; dport := dport key;
             backend_slot :=
               (if BPF_HAVE_SOCKET_COOKIE cfg then socket_cookie e1 else 0)
                 mod count svc + 1 |} = Some slot
     /\ LB4_BACKEND_MAP st1 !! slot_backend_id slot = Some b
     /\ ctx1' = ctx_to_backend ctx b
     /\ ctx2' = ctx_to_backend ctx b)
  /\ (forall e ctx_tcp st,
        protocol ctx_tcp = IPPROTO_TCP ->
        sock_select_slot cfg e ctx_tcp st
        = (prandom st 0%nat, set_prandom (fun n => prandom st (S n)) st)).
Proof.
  intros Hp Hck Hns Hsm Hbm Hic Hsvc Haff H1 H2.
  split.
  - assert (sock4_service_lookup cfg st2 (ctx_key ctx)
              (fst (ctx_in_hostns cfg e2)) = (key, Some svc)) as Hsvc2.
    { rewrite Hns, <- Hsvc.
      unfold sock4_service_lookup, sock4_wildcard_lookup_full,
        sock4_wildcard_lookup, lb4_lookup_service, ipcache_lookup4.
      rewrite Hsm, Hic. reflexivity. }
    destruct (sock4_xlate_fwd_committed _ _ _ _ _ _ _ _ _ H1)
      as (k1 & s1 & id1 & b1 & fa1 & sa & Hl1 & _ & Hsel1 & Hc1); [auto |].
    destruct (sock4_xlate_fwd_committed _ _ _ _ _ _ _ _ _ H2)
      as (k2 & s2 & id2 & b2 & fa2 & sb & Hl2 & _ & Hsel2 & Hc2); [auto |].
    rewrite Hsvc in Hl1. injection Hl1 as <- <-.
    rewrite Hsvc2 in Hl2. injection Hl2 as <- <-.
    unfold fwd4_affinity in Hsel1, Hsel2. rewrite Haff in Hsel1, Hsel2.
    rewrite fwd4_select_connectionless in Hsel1, Hsel2 by assumption.
    rewrite Hsm, Hbm, Hck in Hsel2.
    destruct (LB4_SERVICES_MAP_V2 st1 !! _) as [slot |] eqn:Hslot;
      [| discriminate].
    injection Hsel1 as <- Hb1 <- <-. injection Hsel2 as <- Hb2 <- <-.
    apply fwd4_commit_inv in Hc1
      as [(Hr & _) | [(Hr & _) | (_ & -> & _)]]; try discriminate Hr.
    apply fwd4_commit_inv in Hc2
      as [(Hr & _) | [(Hr & _) | (_ & -> & _)]]; try discriminate Hr.
    assert (b2 = b1) as -> by congruence.
    exists slot, b1. auto.
  - intros e ctx_tcp st Htcp. unfold sock_select_slot, get_prandom_u32.
    rewrite Htcp. reflexivity.
Qed.

(** [sock4_connectionless_deterministic] on the concrete world. *)
Lemma sock4_connectionless_deterministic_witness :
  snd (fst (__sock4_xlate_fwd cfg_demo env_demo ctx_demo ctx_demo true
              st_after))
  = snd (fst fwd_demo).
Proof.
  destruct (sock4_connectionless_deterministic cfg_demo env_demo env_demo
              ctx_demo ctx_demo true st_demo st_after
              (ctx_key ctx_demo) svc_demo
              (snd (fst fwd_demo)) (snd fwd_demo)
              (snd (fst (__sock4_xlate_fwd cfg_demo env_demo ctx_demo
                           ctx_demo true st_after)))
              (snd (__sock4_xlate_fwd cfg_demo env_demo ctx_demo ctx_demo
                      true st_after)))
    as [(slot & b & _ & _ & H1 & H2) _].
  - discriminate.
  - reflexivity.
  - reflexivity.
  - reflexivity.
  - reflexivity.
  - reflexivity.
  - vm_compute. reflexivity.
  - reflexivity.
  - vm_compute. reflexivity.
  - vm_compute. reflexivity.
  - rewrite H1, H2. reflexivity.
Defined.



(** *** Verdicts *)

(** The error code of the post-bind helper is 0 or [-EADDRINUSE]. *)
Lemma sock4_post_bind_code cfg e ctx ctx_full st :
  __sock4_post_bind cfg e ctx ctx_full st = 0
  \/ __sock4_post_bind cfg e ctx ctx_full st = - EADDRINUSE.
Proof. unfold __sock4_post_bind. repeat case_match; auto. Qed.

Lemma sock6_post_bind_code cfg e ctx st :
  __sock6_post_bind cfg e ctx st = 0
  \/ __sock6_post_bind cfg e ctx st = - EADDRINUSE.
Proof.
  unfold __sock6_post_bind, sock6_post_bind_v4_in_v6.
  repeat case_match; auto using sock4_post_bind_code.
Qed.

Lemma sock4_health_fwd_verdict cfg e ctx st :
  fst (__sock4_health_fwd cfg e ctx st)
  = if negb (lb_skip_l4_dnat cfg)
       && negb (ENABLE_HEALTH_CHECK cfg
                && bool_decide (is_Some (LB4_HEALTH_MAP st
                                           !! socket_cookie e)))
    then SYS_REJECT else SYS_PROCEED.
Proof.
  unfold __sock4_health_fwd.
  destruct (lb_skip_l4_dnat cfg), (ENABLE_HEALTH_CHECK cfg); simpl;
    try reflexivity.
  destruct (LB4_HEALTH_MAP st !! socket_cookie e); reflexivity.
Qed.

Lemma sock4_pre_bind_code e ctx ctx_full st :
  fst (fst (__sock4_pre_bind e ctx ctx_full st))
  = match health_update_error e with
    | Some errno => - Z.pos errno
    | None => 0
    end.
Proof.
  unfold __sock4_pre_bind, map_update_elem.
  destruct (health_update_error e); reflexivity.
Qed.

Lemma sock6_pre_bind_code cfg e ctx st :
  fst (fst (__sock6_pre_bind cfg e ctx st))
  = match health_update_error e with
    | Some errno =>
        if if is_v4_in_v6 cfg (ctx_get_v6_address ctx)
           then ENABLE_IPV4 cfg else ENABLE_IPV6 cfg
        then - Z.pos errno else 0
    | None => 0
    end.
Proof.
  unfold __sock6_pre_bind, sock6_pre_bind_v4_in_v6, map_update_elem; simpl.
  destruct (is_v4_in_v6 cfg (ctx_get_v6_address ctx)).
  - destruct (ENABLE_IPV4 cfg); [| destruct (health_update_error e); done].
    pose proof (sock4_pre_bind_code e
                  (fake_ctx_of ctx (ctx_get_v6_address ctx)) ctx st) as Hc.
    destruct (__sock4_pre_bind e _ ctx st) as [[r c] s]; simpl in *.
    subst r. destruct (health_update_error e); reflexivity.
  - destruct (ENABLE_IPV6 cfg); [| destruct (health_update_error e); done].
    destruct (health_update_error e); reflexivity.
Qed.

(** C4, as the code has it.  The pre-send, pre-receive and peer-name hooks
    always return proceed.  The pre-connect hooks return proceed except for a
    socket marked as a health probe, when L4 DNAT is not skipped and no
    health-probe entry can be read for the socket's cookie: then they return
    reject.  The pre-bind hooks reject exactly when the health-probe
    registration of a probe socket fails, and the post-bind hooks exactly
    when the bind collides with a reserved service ([-EADDRINUSE]). *)
Theorem hook_verdicts cfg e st :
  (forall ctx,
     verdict (sock4_sendmsg cfg e ctx st) = SYS_PROCEED
     /\ verdict (sock4_recvmsg cfg e ctx st) = SYS_PROCEED
     /\ verdict (sock4_getpeername cfg e ctx st) = SYS_PROCEED
     /\ verdict (sock6_sendmsg cfg e ctx st) = SYS_PROCEED
     /\ verdict (sock6_recvmsg cfg e ctx st) = SYS_PROCEED
     /\ verdict (sock6_getpeername cfg e ctx st) = SYS_PROCEED)
  /\ (forall ctx,
        verdict (sock4_connect cfg e ctx st)
        = if sock_is_health_check cfg e && negb (lb_skip_l4_dnat cfg)
             && negb (bool_decide
                        (is_Some (LB4_HEALTH_MAP st !! socket_cookie e)))
          then SYS_REJECT else SYS_PROCEED)
  /\ (forall ctx,
        verdict (sock6_connect cfg e ctx st)
        = if sock_is_health_check cfg e && negb (lb_skip_l4_dnat cfg)
             && negb (if is_v4_in_v6 cfg (ctx_get_v6_address ctx)
                      then bool_decide
                             (is_Some (LB4_HEALTH_MAP st !! socket_cookie e))
                      else ENABLE_IPV6 cfg
                           && bool_decide
                                (is_Some (LB6_HEALTH_MAP st
                                            !! socket_cookie e)))
          then SYS_REJECT else SYS_PROCEED)
  /\ (forall ctx,
        verdict (sock4_pre_bind cfg e ctx st)
        = if sock_proto_enabled cfg (protocol ctx)
             && fst (ctx_in_hostns cfg e) && sock_is_health_check cfg e
             && bool_decide (is_Some (health_update_error e))
          then SYS_REJECT else SYS_PROCEED)
  /\ (forall ctx,
        verdict (sock6_pre_bind cfg e ctx st)
        = if sock_proto_enabled cfg (protocol ctx)
             && fst (ctx_in_hostns cfg e) && sock_is_health_check cfg e
             && bool_decide (is_Some (health_update_error e))
             && (if is_v4_in_v6 cfg (ctx_get_v6_address ctx)
                 then ENABLE_IPV4 cfg else ENABLE_IPV6 cfg)
          then SYS_REJECT else SYS_PROCEED)
  /\ (forall ctx,
        sock4_post_bind cfg e ctx st
        = if __sock4_post_bind cfg e ctx ctx st =? - EADDRINUSE
          then SYS_REJECT else SYS_PROCEED)
  /\ (forall ctx,
        sock6_post_bind cfg e ctx st
        = if __sock6_post_bind cfg e ctx st =? - EADDRINUSE
          then SYS_REJECT else SYS_PROCEED).
Proof.
  repeat split.
  - unfold sock4_sendmsg.
    destruct (__sock4_xlate_fwd cfg e ctx ctx true st) as [[r c] s]; done.
  - unfold sock4_recvmsg.
    destruct (__sock4_xlate_rev cfg e ctx ctx st) as [[r c] s]; done.
  - unfold sock4_getpeername.
    destruct (__sock4_xlate_rev cfg e ctx ctx st) as [[r c] s]; done.
  - unfold sock6_sendmsg.
    destruct (__sock6_xlate_fwd cfg e ctx true st) as [[r c] s]; done.
  - unfold sock6_recvmsg.
    destruct (__sock6_xlate_rev cfg e ctx st) as [[r c] s]; done.
  - unfold sock6_getpeername.
    destruct (__sock6_xlate_rev cfg e ctx st) as [[r c] s]; done.
  - intros ctx. unfold sock4_connect.
    destruct (sock_is_health_check cfg e) eqn:Hh; simpl.
    + pose proof (sock4_health_fwd_verdict cfg e ctx st) as Hv.
      destruct (__sock4_health_fwd cfg e ctx st) as [r c]; simpl in *.
      unfold verdict; simpl. rewrite Hv.
      unfold sock_is_health_check in Hh.
      destruct (ENABLE_HEALTH_CHECK cfg); [reflexivity | discriminate].
    + destruct (__sock4_xlate_fwd cfg e ctx ctx false st) as [[r c] s]; done.
  - intros ctx. unfold sock6_connect.
    destruct (sock_is_health_check cfg e) eqn:Hh; simpl.
    + unfold sock_is_health_check in Hh.
      destruct (ENABLE_HEALTH_CHECK cfg) eqn:Hen; [| discriminate].
      unfold verdict, __sock6_health_fwd. rewrite Hen.
      destruct (is_v4_in_v6 cfg (ctx_get_v6_address ctx)).
      * pose proof (sock4_health_fwd_verdict cfg e ctx st) as Hv.
        destruct (__sock4_health_fwd cfg e ctx st) as [r c]; simpl in *.
        rewrite Hv, Hen. reflexivity.
      * destruct (lb_skip_l4_dnat cfg), (ENABLE_IPV6 cfg); simpl;
          try reflexivity.
        destruct (LB6_HEALTH_MAP st !! socket_cookie e); reflexivity.
    + destruct (__sock6_xlate_fwd cfg e ctx false st) as [[r c] s]; done.
  - intros ctx. unfold sock4_pre_bind.
    destruct (sock_proto_enabled cfg (protocol ctx)); [| reflexivity].
    destruct (fst (ctx_in_hostns cfg e)); [| reflexivity].
    destruct (sock_is_health_check cfg e); [| reflexivity]. simpl.
    pose proof (sock4_pre_bind_code e ctx ctx st) as Hc.
    destruct (__sock4_pre_bind e ctx ctx st) as [[r c] s]; simpl in *.
    subst r. destruct (health_update_error e); reflexivity.
  - intros ctx. unfold sock6_pre_bind.
    destruct (sock_proto_enabled cfg (protocol ctx)); [| reflexivity].
    destruct (fst (ctx_in_hostns cfg e)); [| reflexivity].
    destruct (sock_is_health_check cfg e); [| reflexivity]. simpl.
    pose proof (sock6_pre_bind_code cfg e ctx st) as Hc.
    destruct (__sock6_pre_bind cfg e ctx st) as [[r c] s]; simpl in *.
    subst r. destruct (health_update_error e); [| reflexivity].
    destruct (if is_v4_in_v6 cfg (ctx_get_v6_address ctx)
              then ENABLE_IPV4 cfg else ENABLE_IPV6 cfg); reflexivity.
  - intros ctx. unfold sock4_post_bind.
    destruct (sock4_post_bind_code cfg e ctx ctx st) as [-> | ->];
      reflexivity.
  - intros ctx. unfold sock6_post_bind.
    destruct (sock6_post_bind_code cfg e ctx st) as [-> | ->]; reflexivity.
Qed.

(** A connect by a socket carrying the health-probe mark, with no
    health-probe entry registered for its cookie, is rejected. *)
Lemma sock4_connect_rejects_probe :
  verdict (sock4_connect cfg_demo env_probe ctx_demo st_demo) = SYS_REJECT
  /\ SYS_REJECT <> SYS_PROCEED.
Proof. split; [vm_compute; reflexivity | discriminate]. Qed.

(** *** The IPv6 path *)

Lemma sock6_update_revnat_state cfg e ctx b orig_key id st ret st' :
  sock6_update_revnat cfg e ctx b orig_key id st = (ret, st') ->
  st' = set_revnat6 (LB6_REVERSE_NAT_SK_MAP st')
          (set_prandom (prandom st') st).
Proof.
  unfold sock6_update_revnat, lru_update_elem.
  destruct (sock_local_cookie cfg e ctx st) as [c st1] eqn:Hc.
  apply sock_local_cookie_state in Hc.
  destruct st; repeat case_match; simplify_eq; intros [= <- <-];
    try rewrite Hc; reflexivity.
Qed.

(** The IPv4-mapped path rewrites the context only when the IPv4 translation
    returns 0. *)
Lemma sock6_xlate_v4_in_v6_frame cfg e ctx udp_only st ret ctx' st' :
  sock6_xlate_v4_in_v6 cfg e ctx udp_only st = (ret, ctx', st') ->
  ret <> 0 -> ctx' = ctx.
Proof.
  unfold sock6_xlate_v4_in_v6.
  destruct (ENABLE_IPV4 cfg); [| intros [= <- <- <-]; done].
  destruct (negb _); [intros [= <- <- <-]; done |].
  destruct (__sock4_xlate_fwd cfg e _ ctx udp_only st) as [[r c] s] eqn:H4.
  pose proof (sock4_xlate_fwd_error _ _ _ _ _ _ _ _ _ H4) as Herr.
  destruct (r <? 0) eqn:Hr; intros [= <- <- <-]; [done |].
  intros Hnz. destruct (Z.eq_dec r 0) as [-> | Hr0]; [done |].
  destruct (Herr Hr0) as [_ Hin]. apply Z.ltb_ge in Hr.
  simpl in Hin. unfold ENXIO, ENOTSUP, EPERM, ENOENT, ENOMEM in Hin. lia.
Qed.

(** The IPv6 forward translation leaves the destination as it was whenever
    it does not return 0. *)
Lemma sock6_xlate_fwd_frame cfg e ctx udp_only st ret ctx' st' :
  __sock6_xlate_fwd cfg e ctx udp_only st = (ret, ctx', st') ->
  ret <> 0 -> ctx' = ctx.
Proof.
  unfold __sock6_xlate_fwd. intros H Hnz. revert H.
  repeat case_match; simplify_eq;
    try (intros [= <- <- <-]; done);
    try (intros Hx; eapply sock6_xlate_v4_in_v6_frame; eassumption).
Qed.

(** The IPv6 counterpart of the affinity write that is not rolled back. *)
Lemma sock6_affinity_not_rolled_back cfg e ctx udp_only st ctx' st' key svc :
  ENABLE_IPV6 cfg = true ->
  __sock6_xlate_fwd cfg e ctx udp_only st = (- ENOMEM, ctx', st') ->
  sock6_service_lookup cfg st (ctx_key6 ctx) (fst (ctx_in_hostns cfg e))
  = (key, Some svc) ->
  lb6_svc_is_affinity svc = true ->
  lb6_affinity_backend_id_by_netns st svc (snd (ctx_in_hostns cfg e)) = 0
  \/ __lb6_lookup_backend st
       (lb6_affinity_backend_id_by_netns st svc (snd (ctx_in_hostns cfg e)))
     = None ->
  ctx' = ctx
  /\ exists slot b,
       LB6_SERVICES_MAP_V2 st
         !! {| address6 := address6 key; dport6 := dport6 key;
               backend_slot6 :=
                 fst (sock_select_slot cfg e ctx st) mod count svc + 1 |}
       = Some slot
       /\ LB6_BACKEND_MAP st !! slot_backend_id slot = Some b
       /\ LB6_AFFINITY_MAP st'
            !! affinity_key svc (snd (ctx_in_hostns cfg e))
          = Some (slot_backend_id slot).
Proof.
  intros H6 H Hsvc Haff Hfresh.
  split; [eapply sock6_xlate_fwd_frame; [exact H | discriminate] |].
  revert H. unfold __sock6_xlate_fwd, sock6_service_lookup, ctx_key6 in *.
  rewrite H6.
  destruct (ctx_in_hostns cfg e) as [in_hostns c]; simpl in *.
  destruct (ENABLE_SOCKET_LB_HOST_ONLY cfg && negb in_hostns);
    [intros [=] |].
  destruct (negb udp_only && _); [intros [=] |].
  rewrite Hsvc. destruct (sock6_skip_xlate cfg st svc _); [intros [=] |].
  rewrite Haff; simpl.
  assert ((if negb (lb6_affinity_backend_id_by_netns st svc c =? 0)
           then match __lb6_lookup_backend st
                        (lb6_affinity_backend_id_by_netns st svc c) with
                | Some b => (lb6_affinity_backend_id_by_netns st svc c,
                             Some b, true)
                | None => (0, None, true)
                end
           else (lb6_affinity_backend_id_by_netns st svc c, None, true))
          = (0, @None lb6_backend, true)) as ->.
  { destruct Hfresh as [-> | ->]; [reflexivity |].
    destruct (negb _) eqn:Hz; [reflexivity |].
    apply negb_false_iff, Z.eqb_eq in Hz. rewrite Hz. reflexivity. }
  simpl.
  destruct (sock_select_slot cfg e ctx st) as [sel st1] eqn:Hs.
  apply sock_select_slot_state in Hs as Hst1. simpl.
  unfold __lb6_lookup_backend_slot, __lb6_lookup_backend.
  rewrite Hst1; simpl.
  destruct (LB6_SERVICES_MAP_V2 st !! _) as [slot |] eqn:Hslot;
    [| intros [=]].
  destruct (LB6_BACKEND_MAP st !! slot_backend_id slot) as [b |] eqn:Hb;
    [| intros [=]].
  destruct (sock6_update_revnat cfg e ctx b _ (rev_nat_index svc) _)
    as [r st2] eqn:Hu.
  apply sock6_update_revnat_state in Hu.
  destruct (r <? 0); intros [= <- <-].
  exists slot, b. split; [reflexivity |]. split; [exact Hb |].
  rewrite Hu. unfold lb6_update_affinity_by_netns; simpl.
  apply lookup_insert_eq.
Qed.

(** ** Further properties

    Properties of the helpers, of the hooks and of the IPv6 and IPv4-mapped
    paths, read off the code. *)

(** *** The address predicates *)

(** Masking with a mask shifted left is masking the shifted-right value. *)
Lemma land_shiftl_mask x m n :
  0 <= n ->
  Z.land x (Z.shiftl m n) = Z.shiftl (Z.land (Z.shiftr x n) m) n.
Proof.
  intros Hn. apply Z.bits_inj'. intros i Hi.
  rewrite Z.land_spec.
  destruct (Z.lt_ge_cases i n) as [Hlt | Hge].
  - rewrite !Z.shiftl_spec_low by assumption. apply andb_false_r.
  - rewrite !Z.shiftl_spec by assumption.
    rewrite Z.land_spec, Z.shiftr_spec by lia.
    replace (i - n + n) with i by lia. reflexivity.
Qed.

(** X1. [is_v4_loopback] masks the address with [0x7f000000] and compares the
    result with the mask.  Of an address [a.b.c.d] the test therefore holds
    exactly when the seven low bits of the first octet are set: for
    [127.b.c.d], and also for [255.b.c.d], on either byte order. *)
Theorem is_v4_loopback_first_octet cfg a b c d :
  0 <= a < 256 -> 0 <= b < 256 -> 0 <= c < 256 -> 0 <= d < 256 ->
  is_v4_loopback cfg (be32_of_octets cfg a b c d) = true
  <-> a = 127 \/ a = 255.
Proof.
  intros Ha Hb Hc Hd. unfold is_v4_loopback, bpf_htonl, be32_of_octets.
  rewrite Z.eqb_eq.
  destruct (LITTLE_ENDIAN cfg).
  - change (bswap32 (Z.land 2130706432 4294967295)) with (Z.ones 7).
    rewrite Z.land_ones by lia.
    change (Z.ones 7) with 127. change (2 ^ 7) with 128.
    replace (a + 256 * b + 65536 * c + 16777216 * d)
      with (a + (2 * b + 512 * c + 131072 * d) * 128) by lia.
    rewrite Z.mod_add by lia.
    pose proof (Z.div_mod a 128 ltac:(lia)) as Hdm.
    pose proof (Z.mod_pos_bound a 128 ltac:(lia)) as Hmb.
    split; [intros Hm | intros [-> | ->]; reflexivity].
    rewrite Hm in Hdm.
    assert (a / 128 = 0 \/ a / 128 = 1) as [Hq | Hq].
    { assert (0 <= a / 128 < 2); [| lia].
      split; [apply Z.div_pos; lia | apply Z.div_lt_upper_bound; lia]. }
    + left. lia.
    + right. lia.
  - change (Z.land 2130706432 4294967295) with (Z.shiftl 127 24).
    rewrite land_shiftl_mask by lia.
    rewrite Z.shiftr_div_pow2 by lia. change (2 ^ 24) with 16777216.
    replace (16777216 * a + 65536 * b + 256 * c + d)
      with (a * 16777216 + (65536 * b + 256 * c + d)) by lia.
    rewrite Z.div_add_l by lia.
    rewrite (Z.div_small (65536 * b + 256 * c + d)) by lia.
    rewrite Z.add_0_r.
    rewrite !Z.shiftl_mul_pow2 by lia.
    change (Z.land a 127) with (Z.land a (Z.ones 7)).
    rewrite Z.land_ones by lia. change (2 ^ 7) with 128.
    pose proof (Z.div_mod a 128 ltac:(lia)) as Hdm.
    pose proof (Z.mod_pos_bound a 128 ltac:(lia)) as Hmb.
    split; [intros Hm | intros [-> | ->]; reflexivity].
    assert (a mod 128 = 127) as Hm' by lia.
    rewrite Hm' in Hdm.
    assert (a / 128 = 0 \/ a / 128 = 1) as [Hq | Hq].
    { assert (0 <= a / 128 < 2); [| lia].
      split; [apply Z.div_pos; lia | apply Z.div_lt_upper_bound; lia]. }
    + left. lia.
    + right. lia.
Qed.

(** [is_v4_loopback_first_octet] on the concrete world. *)
Lemma is_v4_loopback_first_octet_witness :
  is_v4_loopback cfg_demo (be32_of_octets cfg_demo 255 0 0 1) = true
  /\ is_v4_loopback cfg_demo (be32_of_octets cfg_demo 126 0 0 1) <> true.
Proof.
  split.
  - apply (proj2 (is_v4_loopback_first_octet cfg_demo 255 0 0 1
                    ltac:(lia) ltac:(lia) ltac:(lia) ltac:(lia))).
    right. reflexivity.
  - intros H.
    apply (proj1 (is_v4_loopback_first_octet cfg_demo 126 0 0 1
                    ltac:(lia) ltac:(lia) ltac:(lia) ltac:(lia))) in H.
    lia.
Defined.

Lemma ipv6_addr_equal_eq a b : ipv6_addr_equal a b = true <-> a = b.
Proof.
  unfold ipv6_addr_equal. destruct a, b; simpl.
  rewrite !andb_true_iff, !Z.eqb_eq.
  split; [intros [[[-> ->] ->] ->] | intros [= -> -> -> ->]]; auto.
Qed.

Lemma is_v4_in_v6_built cfg a :
  is_v4_in_v6 cfg a = true <-> a = build_v4_in_v6 cfg (p4 a).
Proof.
  unfold is_v4_in_v6, build_v4_in_v6. rewrite ipv6_addr_equal_eq.
  destruct a as [a1 a2 a3 a4]; simpl.
  split; [intros [= <- <- <-] | intros [= -> -> ->]]; reflexivity.
Qed.

(** X2. [is_v4_in_v6] holds exactly of the addresses that [build_v4_in_v6]
    builds from their last word, and [build_v4_in_v6 v4] passes the test and
    carries [v4] in its last word: the two functions are a codec for
    [::ffff:a.b.c.d]. *)
Theorem is_v4_in_v6_iff_built cfg a :
  (is_v4_in_v6 cfg a = true <-> a = build_v4_in_v6 cfg (p4 a))
  /\ (forall v4,
        is_v4_in_v6 cfg (build_v4_in_v6 cfg v4) = true
        /\ p4 (build_v4_in_v6 cfg v4) = v4).
Proof.
  split; [apply is_v4_in_v6_built |].
  intros v4. split; [| reflexivity].
  apply is_v4_in_v6_built. reflexivity.
Qed.

(** *** What the forward translation writes *)

(** Whatever the selection block returns, its state is the state on entry
    with possibly one random value drawn and one metrics event counted. *)
Lemma fwd4_select_inl cfg e ctx_full key svc aff st st' :
  fwd4_select cfg e ctx_full key svc aff st = inl st' ->
  st' = set_metrics (METRICS st') (set_prandom (prandom st') st).
Proof.
  unfold fwd4_select. destruct aff as [[id ob] fa].
  destruct (id =? 0); [| discriminate].
  destruct (sock_select_slot cfg e ctx_full st) as [sel st1] eqn:Hs.
  apply sock_select_slot_state in Hs.
  destruct (__lb4_lookup_backend_slot st1 _); [discriminate |].
  intros [= <-]. rewrite Hs. reflexivity.
Qed.

(** The forward translation changes nothing but the affinity map, the
    reverse-NAT map, the metrics and the pseudo-random source. *)
Lemma sock4_xlate_fwd_state cfg e ctx ctx_full udp_only st ret ctx' st' :
  __sock4_xlate_fwd cfg e ctx ctx_full udp_only st = (ret, ctx', st') ->
  st' = set_metrics (METRICS st')
          (set_revnat (LB4_REVERSE_NAT_SK_MAP st')
             (set_affinity (LB4_AFFINITY_MAP st')
                (set_prandom (prandom st') st))).
Proof.
  rewrite sock4_xlate_fwd_blocks; simpl.
  destruct (ENABLE_SOCKET_LB_HOST_ONLY cfg && _);
    [intros [= <- <- <-]; destruct st; reflexivity |].
  destruct (negb udp_only && _);
    [intros [= <- <- <-]; destruct st; reflexivity |].
  destruct (sock4_service_lookup cfg st _ _) as [key [svc |]];
    [| intros [= <- <- <-]; destruct st; reflexivity].
  destruct (sock4_skip_xlate cfg st svc _);
    [intros [= <- <- <-]; destruct st; reflexivity |].
  destruct (fwd4_select cfg e ctx_full key svc _ st)
    as [st1 | [[[id [b |]] fa] st1]] eqn:Hsel.
  - apply fwd4_select_inl in Hsel. intros [= <- <- <-].
    rewrite Hsel. reflexivity.
  - apply fwd4_select_state in Hsel. intros Hc.
    apply fwd4_commit_inv in Hc
      as [(_ & _ & -> & _) | [(_ & _ & _ & r & st2 & Hu & _ & ->)
                             | (_ & _ & r & Hu & _)]].
    + rewrite Hsel. reflexivity.
    + apply sock4_update_revnat_state in Hu. rewrite Hu.
      unfold fwd4_affinity_written. destruct (_ && _);
        rewrite Hsel; reflexivity.
    + apply sock4_update_revnat_state in Hu. rewrite Hu.
      unfold fwd4_affinity_written. destruct (_ && _);
        rewrite Hsel; reflexivity.
  - apply fwd4_select_state in Hsel. intros [= <- <- <-].
    rewrite Hsel. reflexivity.
Qed.

(** A forward translation that does not return 0 leaves the reverse-NAT map
    as it was; one that returns neither 0 nor [-ENOMEM] leaves the affinity
    map as it was too. *)
Lemma sock4_xlate_fwd_error_maps cfg e ctx ctx_full udp_only st ret ctx' st' :
  __sock4_xlate_fwd cfg e ctx ctx_full udp_only st = (ret, ctx', st') ->
  ret <> 0 ->
  LB4_REVERSE_NAT_SK_MAP st' = LB4_REVERSE_NAT_SK_MAP st
  /\ (ret <> - ENOMEM -> LB4_AFFINITY_MAP st' = LB4_AFFINITY_MAP st).
Proof.
  rewrite sock4_xlate_fwd_blocks; simpl.
  destruct (ENABLE_SOCKET_LB_HOST_ONLY cfg && _);
    [intros [= <- <- <-]; auto |].
  destruct (negb udp_only && _); [intros [= <- <- <-]; auto |].
  destruct (sock4_service_lookup cfg st _ _) as [key [svc |]];
    [| intros [= <- <- <-]; auto].
  destruct (sock4_skip_xlate cfg st svc _); [intros [= <- <- <-]; auto |].
  destruct (fwd4_select cfg e ctx_full key svc _ st)
    as [st1 | [[[id [b |]] fa] st1]] eqn:Hsel.
  - apply fwd4_select_inl in Hsel. intros [= <- <- <-] _.
    rewrite Hsel. auto.
  - apply fwd4_select_state in Hsel. intros Hc Hnz.
    apply fwd4_commit_inv in Hc
      as [(_ & _ & -> & _) | [(-> & _ & _ & r & st2 & Hu & Hneg & ->)
                             | (-> & _)]].
    + rewrite Hsel. auto.
    + apply sock4_update_revnat_fail in Hu; [| exact Hneg].
      split; [| done]. simpl. rewrite Hu.
      unfold fwd4_affinity_written. destruct (_ && _);
        rewrite Hsel; reflexivity.
    + done.
  - apply fwd4_select_state in Hsel. intros [= <- <- <-] _.
    rewrite Hsel. auto.
Qed.

(** X3. Whatever it returns, the forward translation leaves the service and
    backend directories, the ipcache, the health table and every IPv6 map as
    they were.  When it does not return 0 the reverse-NAT map is as it was,
    and when it returns neither 0 nor [-ENOMEM] so is the affinity map. *)
Theorem sock4_xlate_fwd_read_only cfg e ctx ctx_full udp_only st
    ret ctx' st' :
  __sock4_xlate_fwd cfg e ctx ctx_full udp_only st = (ret, ctx', st') ->
  LB4_SERVICES_MAP_V2 st' = LB4_SERVICES_MAP_V2 st
  /\ LB4_BACKEND_MAP st' = LB4_BACKEND_MAP st
  /\ IPCACHE_MAP st' = IPCACHE_MAP st
  /\ LB4_HEALTH_MAP st' = LB4_HEALTH_MAP st
  /\ LB6_SERVICES_MAP_V2 st' = LB6_SERVICES_MAP_V2 st
  /\ LB6_BACKEND_MAP st' = LB6_BACKEND_MAP st
  /\ LB6_AFFINITY_MAP st' = LB6_AFFINITY_MAP st
  /\ LB6_REVERSE_NAT_SK_MAP st' = LB6_REVERSE_NAT_SK_MAP st
  /\ LB6_HEALTH_MAP st' = LB6_HEALTH_MAP st
  /\ (ret <> 0 -> LB4_REVERSE_NAT_SK_MAP st' = LB4_REVERSE_NAT_SK_MAP st)
  /\ (ret <> 0 -> ret <> - ENOMEM ->
      LB4_AFFINITY_MAP st' = LB4_AFFINITY_MAP st).
Proof.
  intros H.
  pose proof (sock4_xlate_fwd_state _ _ _ _ _ _ _ _ _ H) as Hst.
  repeat (split; [rewrite Hst; reflexivity |]).
  split; intros Hnz;
    destruct (sock4_xlate_fwd_error_maps _ _ _ _ _ _ _ _ _ H Hnz); auto.
Qed.

(** [sock4_xlate_fwd_read_only] on the concrete world. *)
Lemma sock4_xlate_fwd_read_only_witness :
  LB4_REVERSE_NAT_SK_MAP (snd fwd_nomem) = LB4_REVERSE_NAT_SK_MAP st_demo
  /\ LB4_BACKEND_MAP (snd fwd_nomem) = LB4_BACKEND_MAP st_demo.
Proof.
  destruct (sock4_xlate_fwd_read_only cfg_demo env_full_map ctx_affinity
              ctx_affinity true st_demo (- ENOMEM) (snd (fst fwd_nomem))
              (snd fwd_nomem))
    as (_ & Hb & _ & _ & _ & _ & _ & _ & _ & Hr & _).
  - vm_compute. reflexivity.
  - split; [apply Hr; discriminate | exact Hb].
Defined.

(** *** Translating the same destination again *)

(** The reverse-cache write is an upsert: after one that did not fail, the
    same write by the same socket finds the entry, writes nothing and returns
    0, even when the map can take no new entry. *)
Lemma sock4_update_revnat_again cfg e e2 ctx b orig_key id st ret st1 :
  ENABLE_HOST_SERVICES_UDP cfg || ENABLE_HOST_SERVICES_PEER cfg = true ->
  BPF_HAVE_SOCKET_COOKIE cfg = true \/ protocol ctx <> IPPROTO_TCP ->
  socket_cookie e2 = socket_cookie e ->
  sock4_update_revnat cfg e ctx b orig_key id st = (ret, st1) ->
  (ret <? 0) = false ->
  sock4_update_revnat cfg e2 ctx b orig_key id st1 = (0, st1).
Proof.
  intros Hrev Hck Hsame Hu Hr.
  pose proof (sock4_update_revnat_ok _ _ _ _ _ _ _ _ _ Hrev Hu Hr) as Hent.
  rewrite sock_local_cookie_stable in Hent by assumption. simpl in Hent.
  unfold sock4_update_revnat. rewrite Hrev.
  rewrite sock_local_cookie_stable by assumption.
  rewrite Hsame, Hent.
  assert (revnat_entry_eqb
            {| re_address := address orig_key; re_port := dport orig_key;
               re_rev_nat_index := id |}
            {| re_address := address orig_key; re_port := dport orig_key;
               re_rev_nat_index := id |} = true) as ->
    by (apply revnat_entry_eqb_eq; reflexivity).
  reflexivity.
Qed.

(** A call that returns 0 or [-ENOMEM] has passed both guards. *)
Lemma sock4_xlate_fwd_guards cfg e ctx ctx_full udp_only st ret ctx' st' :
  __sock4_xlate_fwd cfg e ctx ctx_full udp_only st = (ret, ctx', st') ->
  ret = 0 \/ ret = - ENOMEM ->
  ENABLE_SOCKET_LB_HOST_ONLY cfg && negb (fst (ctx_in_hostns cfg e)) = false
  /\ negb udp_only && negb (sock_proto_enabled cfg (protocol ctx)) = false.
Proof.
  rewrite sock4_xlate_fwd_blocks; simpl.
  destruct (ENABLE_SOCKET_LB_HOST_ONLY cfg && _);
    [intros [= <- <- <-] [H | H]; discriminate H |].
  destruct (negb udp_only && _);
    [intros [= <- <- <-] [H | H]; discriminate H |].
  auto.
Qed.

(** X4. Let a forward translation on a socket that is not TCP succeed for a
    service without affinity.  The same call repeated by the same socket on
    the state the first one left returns 0 again with the same backend and
    leaves the state exactly as it found it, whether or not the reverse-NAT
    map can take a new entry: the entry is already there. *)
Theorem sock4_xlate_fwd_repeat cfg e e2 ctx ctx_full udp_only st key svc
    ctx1 st1 :
  ENABLE_HOST_SERVICES_UDP cfg || ENABLE_HOST_SERVICES_PEER cfg = true ->
  protocol ctx_full <> IPPROTO_TCP ->
  __sock4_xlate_fwd cfg e ctx ctx_full udp_only st = (0, ctx1, st1) ->
  sock4_service_lookup cfg st (ctx_key ctx) (fst (ctx_in_hostns cfg e))
  = (key, Some svc) ->
  lb4_svc_is_affinity svc = false ->
  ctx_in_hostns cfg e2 = ctx_in_hostns cfg e ->
  socket_cookie e2 = socket_cookie e ->
  (forall b,
     sock4_skip_xlate_if_same_netns cfg e2 ctx_full b
     = sock4_skip_xlate_if_same_netns cfg e ctx_full b) ->
  __sock4_xlate_fwd cfg e2 ctx ctx_full udp_only st1 = (0, ctx1, st1).
Proof.
  intros Hrev Hp H Hsvc Haff Hns Hck Hsk.
  destruct (sock4_xlate_fwd_guards _ _ _ _ _ _ _ _ _ H (or_introl eq_refl))
    as [Hg1 Hg2].
  pose proof (sock4_xlate_fwd_state _ _ _ _ _ _ _ _ _ H) as Hst.
  destruct (sock4_xlate_fwd_committed _ _ _ _ _ _ _ _ _ H (or_introl eq_refl))
    as (key' & svc' & id & b & fa & sa & Hl & Hskip & Hsel & Hc).
  rewrite Hsvc in Hl. injection Hl as <- <-.
  unfold fwd4_affinity in Hsel. rewrite Haff in Hsel.
  rewrite fwd4_select_connectionless in Hsel by assumption.
  destruct (LB4_SERVICES_MAP_V2 st !! _) as [slot |] eqn:Hslot;
    [| discriminate].
  injection Hsel as <- Hb <- <-.
  apply fwd4_commit_inv in Hc
    as [(Hr & _) | [(Hr & _) | (_ & -> & r & Hu & Hr)]];
    try discriminate Hr.
  unfold fwd4_affinity_written in Hu. rewrite Haff in Hu. simpl in Hu.
  assert (lb4_svc_is_localredirect svc
          && sock4_skip_xlate_if_same_netns cfg e ctx_full b = false) as Hlr.
  { revert H. rewrite (sock4_xlate_fwd_matched _ _ _ _ _ _ _ _ Hg1 Hg2 Hsvc).
    rewrite Hskip. unfold fwd4_affinity. rewrite Haff.
    rewrite fwd4_select_connectionless by assumption.
    rewrite Hslot, Hb. unfold fwd4_commit.
    destruct (lb4_svc_is_localredirect svc
              && sock4_skip_xlate_if_same_netns cfg e ctx_full b);
      [discriminate | reflexivity]. }
  assert (ENABLE_SOCKET_LB_HOST_ONLY cfg
          && negb (fst (ctx_in_hostns cfg e2)) = false) as Hg1'
    by (rewrite Hns; exact Hg1).
  assert (sock4_service_lookup cfg st1 (ctx_key ctx)
            (fst (ctx_in_hostns cfg e2)) = (key, Some svc)) as Hsvc1.
  { rewrite Hns, <- Hsvc, Hst. reflexivity. }
  rewrite (sock4_xlate_fwd_matched _ _ _ _ _ _ _ _ Hg1' Hg2 Hsvc1).
  rewrite Hns.
  assert (sock4_skip_xlate cfg st1 svc (user_ip4 ctx) = false) as ->
    by (rewrite <- Hskip, Hst; reflexivity).
  unfold fwd4_affinity. rewrite Haff.
  rewrite fwd4_select_connectionless by assumption.
  assert (LB4_SERVICES_MAP_V2 st1 = LB4_SERVICES_MAP_V2 st) as ->
    by (rewrite Hst; reflexivity).
  assert (LB4_BACKEND_MAP st1 = LB4_BACKEND_MAP st) as ->
    by (rewrite Hst; reflexivity).
  rewrite Hck, Hslot, Hb.
  unfold fwd4_commit. rewrite Hsk, Hlr, Haff. simpl.
  rewrite (sock4_update_revnat_again _ _ _ _ _ _ _ _ _ _
             Hrev (or_intror Hp) Hck Hu Hr).
  reflexivity.
Qed.

(** [sock4_xlate_fwd_repeat] on the concrete world. *)
Lemma sock4_xlate_fwd_repeat_witness :
  __sock4_xlate_fwd cfg_demo env_full_map ctx_demo ctx_demo true
    (snd fwd_demo)
  = (0, snd (fst fwd_demo), snd fwd_demo).
Proof.
  apply (sock4_xlate_fwd_repeat cfg_demo env_demo env_full_map ctx_demo
           ctx_demo true st_demo (ctx_key ctx_demo) svc_demo).
  - reflexivity.
  - discriminate.
  - vm_compute. reflexivity.
  - vm_compute. reflexivity.
  - reflexivity.
  - reflexivity.
  - reflexivity.
  - intros b. reflexivity.
Defined.

(** *** The reverse translation as a whole *)

(** X5. The reverse translation never touches the directories, the affinity
    map or the ipcache, and it ends in one of three ways: 0, with the context
    rewritten to the cached frontend and the reverse-NAT map as it was;
    [-ENOENT], with the context as it was and the reverse-NAT map less the
    entry looked up; [-ENXIO], with the context and the reverse-NAT map as
    they were, when the map holds no entry under the key. *)
Theorem sock4_xlate_rev_outcome cfg e ctx ctx_full st ret ctx' st' :
  __sock4_xlate_rev cfg e ctx ctx_full st = (ret, ctx', st') ->
  LB4_SERVICES_MAP_V2 st' = LB4_SERVICES_MAP_V2 st
  /\ LB4_BACKEND_MAP st' = LB4_BACKEND_MAP st
  /\ LB4_AFFINITY_MAP st' = LB4_AFFINITY_MAP st
  /\ IPCACHE_MAP st' = IPCACHE_MAP st
  /\ ((ret = 0
       /\ LB4_REVERSE_NAT_SK_MAP st' = LB4_REVERSE_NAT_SK_MAP st
       /\ exists val,
            LB4_REVERSE_NAT_SK_MAP st !! sock4_rev_key cfg e ctx ctx_full st
            = Some val
            /\ ctx' = ctx_to_frontend ctx (re_address val) (re_port val))
      \/ (ret = - ENOENT /\ ctx' = ctx
          /\ LB4_REVERSE_NAT_SK_MAP st'
             = delete (sock4_rev_key cfg e ctx ctx_full st)
                 (LB4_REVERSE_NAT_SK_MAP st))
      \/ (ret = - ENXIO /\ ctx' = ctx
          /\ LB4_REVERSE_NAT_SK_MAP st !! sock4_rev_key cfg e ctx ctx_full st
             = None
          /\ LB4_REVERSE_NAT_SK_MAP st' = LB4_REVERSE_NAT_SK_MAP st)).
Proof.
  rewrite sock4_xlate_rev_blocks; simpl. unfold sock4_rev_key.
  destruct (sock_local_cookie cfg e ctx_full st) as [c st1] eqn:Hc.
  apply sock_local_cookie_state in Hc. simpl.
  destruct (LB4_REVERSE_NAT_SK_MAP st !! _) as [val |] eqn:Hval.
  - destruct (match snd (sock4_service_lookup cfg st _ _) with
              | Some s => negb (rev_nat_index s =? re_rev_nat_index val)
              | None => true
              end); intros [= <- <- <-]; rewrite Hc; simpl.
    + repeat (split; [reflexivity |]). right; left. auto.
    + repeat (split; [reflexivity |]). left.
      split; [reflexivity |]. split; [reflexivity |]. exists val. auto.
  - intros [= <- <- <-]; rewrite Hc; simpl.
    repeat (split; [reflexivity |]). right; right. auto.
Qed.

(** [sock4_xlate_rev_outcome] on the concrete world. *)
Lemma sock4_xlate_rev_outcome_witness :
  LB4_SERVICES_MAP_V2
    (snd (__sock4_xlate_rev cfg_demo env_demo ctx_reply ctx_reply st_demo))
  = LB4_SERVICES_MAP_V2 st_demo
  /\ LB4_REVERSE_NAT_SK_MAP
       (snd (__sock4_xlate_rev cfg_demo env_demo ctx_reply ctx_reply
               st_demo))
     = LB4_REVERSE_NAT_SK_MAP st_demo.
Proof.
  destruct (sock4_xlate_rev_outcome cfg_demo env_demo ctx_reply ctx_reply
              st_demo (- ENXIO) ctx_reply
              (snd (__sock4_xlate_rev cfg_demo env_demo ctx_reply ctx_reply
                      st_demo)))
    as (Hs & _ & _ & _ & [(Hr & _) | [(Hr & _) | (_ & _ & _ & Hm)]]).
  - vm_compute. reflexivity.
  - discriminate Hr.
  - discriminate Hr.
  - split; [exact Hs | exact Hm].
Defined.

(** *** What a wildcard lookup returns *)




(** *** Which condition gives which error *)

(** The last block returns [-ENXIO] exactly when the service is a
    local-redirect one and a socket of the caller's namespace listens on the
    backend's address and port. *)
Lemma fwd4_commit_enxio cfg e ctx ctx_full orig_key svc client_cookie
    id b fa st ret ctx' st' :
  fwd4_commit cfg e ctx ctx_full orig_key svc client_cookie id b fa st
  = (ret, ctx', st') ->
  (ret = - ENXIO
   <-> lb4_svc_is_localredirect svc = true
       /\ sock4_skip_xlate_if_same_netns cfg e ctx_full b = true)
  /\ ret <> - ENOTSUP /\ ret <> - EPERM.
Proof.
  unfold fwd4_commit.
  destruct (lb4_svc_is_localredirect svc
            && sock4_skip_xlate_if_same_netns cfg e ctx_full b) eqn:Hlr.
  - intros [= <- <- <-]. apply andb_true_iff in Hlr.
    repeat split; try discriminate; tauto.
  - apply andb_false_iff in Hlr.
    destruct (sock4_update_revnat cfg e ctx_full b orig_key _ _) as [r s].
    destruct (r <? 0); intros [= <- <- <-];
      repeat split; try discriminate;
      intros [? ?]; destruct Hlr; congruence.
Qed.

(** X7. The forward translation returns [-ENOTSUP] exactly when it is past
    the host-only guard and the protocol is refused; [-EPERM] exactly when it
    is past both guards and the service matched fails the anti-MITM test; and
    [-ENXIO] exactly when the host-only guard refuses the caller, or, past
    both guards, no service is matched, or the service matched is a
    local-redirect one whose selected backend has a socket listening in the
    caller's namespace. *)
Theorem sock4_xlate_fwd_code_reasons cfg e ctx ctx_full udp_only st :
  (fst (fst (__sock4_xlate_fwd cfg e ctx ctx_full udp_only st)) = - ENOTSUP
   <-> ENABLE_SOCKET_LB_HOST_ONLY cfg && negb (fst (ctx_in_hostns cfg e))
       = false
       /\ negb udp_only && negb (sock_proto_enabled cfg (protocol ctx))
          = true)
  /\ (fst (fst (__sock4_xlate_fwd cfg e ctx ctx_full udp_only st)) = - EPERM
      <-> ENABLE_SOCKET_LB_HOST_ONLY cfg && negb (fst (ctx_in_hostns cfg e))
          = false
          /\ negb udp_only && negb (sock_proto_enabled cfg (protocol ctx))
             = false
          /\ exists key svc,
               sock4_service_lookup cfg st (ctx_key ctx)
                 (fst (ctx_in_hostns cfg e)) = (key, Some svc)
               /\ sock4_skip_xlate cfg st svc (user_ip4 ctx) = true)
  /\ (fst (fst (__sock4_xlate_fwd cfg e ctx ctx_full udp_only st)) = - ENXIO
      <-> ENABLE_SOCKET_LB_HOST_ONLY cfg && negb (fst (ctx_in_hostns cfg e))
          = true
          \/ (negb udp_only && negb (sock_proto_enabled cfg (protocol ctx))
              = false
              /\ (snd (sock4_service_lookup cfg st (ctx_key ctx)
                         (fst (ctx_in_hostns cfg e))) = None
                  \/ exists key svc id b fa st1,
                       sock4_service_lookup cfg st (ctx_key ctx)
                         (fst (ctx_in_hostns cfg e)) = (key, Some svc)
                       /\ sock4_skip_xlate cfg st svc (user_ip4 ctx) = false
                       /\ fwd4_select cfg e ctx_full key svc
                            (fwd4_affinity st svc
                               (snd (ctx_in_hostns cfg e))) st
                          = inr (id, Some b, fa, st1)
                       /\ lb4_svc_is_localredirect svc = true
                       /\ sock4_skip_xlate_if_same_netns cfg e ctx_full b
                          = true))).
Proof.
  rewrite sock4_xlate_fwd_blocks; simpl.
  destruct (ENABLE_SOCKET_LB_HOST_ONLY cfg && _); simpl.
  { split; [| split]; split; auto; try discriminate;
      intros [? ?]; discriminate. }
  destruct (negb udp_only && _); simpl.
  { split; [| split]; split; auto; try discriminate.
    - intros (_ & ? & _). discriminate.
    - intros [? | [? _]]; discriminate. }
  destruct (sock4_service_lookup cfg st _ _) as [key [svc |]]; simpl.
  2: { split; [| split]; split; auto; try discriminate.
       - intros [_ ?]; discriminate.
       - intros (_ & _ & k & s & Heq & _). congruence. }
  assert (forall r,
            r <> - ENOTSUP -> r <> - EPERM ->
            (r = - ENOTSUP <-> false = false /\ false = true)
            /\ (sock4_skip_xlate cfg st svc (user_ip4 ctx) = false ->
                r = - EPERM <->
                false = false /\ false = false
                /\ exists key0 svc0,
                     (key, Some svc) = (key0, Some svc0)
                     /\ sock4_skip_xlate cfg st svc0 (user_ip4 ctx) = true))
    as Hgen.
  { intros r Hr1 Hr2. split; [| intros Hskip]; split.
    - intros ->. congruence.
    - intros [_ ?]; discriminate.
    - intros ->. congruence.
    - intros (_ & _ & k & s & [= <- <-] & Hs). congruence. }
  destruct (sock4_skip_xlate cfg st svc _) eqn:Hskip; simpl.
  { split; [| split]; split; try discriminate.
    - intros [_ ?]; discriminate.
    - intros _; repeat split; eauto.
    - intros _; reflexivity.
    - intros [? | [_ [? | (k & s & ? & ? & ? & ? & [= <- <-] & ? & _)]]];
        congruence. }
  destruct (fwd4_select cfg e ctx_full key svc _ st)
    as [st1 | [[[id [b |]] fa] st1]] eqn:Hsel; simpl.
  - destruct (Hgen (- ENOENT)) as [H1 H2]; try discriminate.
    split; [exact H1 |]. split; [exact (H2 eq_refl) |].
    split; [discriminate |].
    intros [? | [_ [? | (k & s & ? & ? & ? & ? & [= <- <-] & _ & ? & _)]]];
      congruence.
  - destruct (fwd4_commit cfg e ctx ctx_full (ctx_key ctx) svc _ id b fa st1)
      as [[r c] s] eqn:Hc; simpl.
    apply fwd4_commit_enxio in Hc as (Hx & Hr1 & Hr2).
    destruct (Hgen r Hr1 Hr2) as [H1 H2].
    split; [exact H1 |]. split; [exact (H2 eq_refl) |].
    split.
    + intros Hr. apply Hx in Hr as [Hlr Hsame].
      right. split; [reflexivity |]. right.
      exists key, svc, id, b, fa, st1. auto.
    + intros [? | [_ [? | (k & s0 & id' & b' & fa' & st1' & [= <- <-] & _
                          & Hsel' & Hlr & Hsame)]]];
        try congruence.
      rewrite Hsel in Hsel'. injection Hsel' as <- <- <- <-.
      apply Hx. auto.
  - destruct (Hgen (- ENOENT)) as [H1 H2]; try discriminate.
    split; [exact H1 |]. split; [exact (H2 eq_refl) |].
    split; [discriminate |].
    intros [? | [_ [? | (k & s & ? & ? & ? & ? & [= <- <-] & _ & ? & _)]]];
      congruence.
Qed.

(** *** Where the backend comes from *)

(** X8. The backend a successful forward translation rewrites the destination
    to is an entry of the backend table, and its identifier is either the one
    the affinity table holds for the service and the caller's namespace, the
    service having affinity, or the one of a slot [i] of the service with
    [1 <= i <= count]. *)
Theorem sock4_xlate_fwd_backend_origin cfg e ctx ctx_full udp_only st
    key svc ctx' st' :
  __sock4_xlate_fwd cfg e ctx ctx_full udp_only st = (0, ctx', st') ->
  sock4_service_lookup cfg st (ctx_key ctx) (fst (ctx_in_hostns cfg e))
  = (key, Some svc) ->
  0 < count svc ->
  exists id b,
    LB4_BACKEND_MAP st !! id = Some b
    /\ ctx' = ctx_to_backend ctx b
    /\ ((lb4_svc_is_affinity svc = true /\ id <> 0
         /\ LB4_AFFINITY_MAP st
              !! affinity_key svc (snd (ctx_in_hostns cfg e)) = Some id)
        \/ exists i slot,
             1 <= i <= count svc
             /\ LB4_SERVICES_MAP_V2 st
                  !! {| address := address key; dport := dport key;
                        backend_slot := i |} = Some slot
             /\ slot_backend_id slot = id).
Proof.
  intros H Hsvc Hcount.
  destruct (sock4_xlate_fwd_committed _ _ _ _ _ _ _ _ _ H (or_introl eq_refl))
    as (key' & svc' & id & b & fa & st1 & Hl & _ & Hsel & Hc).
  rewrite Hsvc in Hl. injection Hl as <- <-.
  pose proof (fwd4_selected_backend _ _ _ _ _ _ _ _ _ _ _ Hsel) as Hb.
  apply fwd4_commit_inv in Hc
    as [(Hr & _) | [(Hr & _) | (_ & -> & _)]]; try discriminate Hr.
  exists id, b. split; [exact Hb |]. split; [reflexivity |].
  destruct (fwd4_affinity st svc (snd (ctx_in_hostns cfg e)))
    as [[id0 ob0] fa0] eqn:Ha.
  apply fwd4_affinity_inv in Ha as [_ Ha].
  apply fwd4_select_inv in Hsel
    as [(Hnz & -> & _) | (_ & _ & _ & slot & Hslot & -> & _)].
  - left. destruct (Ha Hnz) as (Haff & Hid & _).
    split; [exact Haff |]. split; [exact Hnz |].
    apply affinity_backend_id_lookup; assumption.
  - right.
    exists (fst (sock_select_slot cfg e ctx_full st) mod count svc + 1), slot.
    split; [| auto].
    pose proof (Z.mod_pos_bound (fst (sock_select_slot cfg e ctx_full st))
                  (count svc) Hcount). lia.
Qed.

(** [sock4_xlate_fwd_backend_origin] on the concrete world. *)
Lemma sock4_xlate_fwd_backend_origin_witness :
  exists id b,
    LB4_BACKEND_MAP st_demo !! id = Some b
    /\ snd (fst fwd_demo) = ctx_to_backend ctx_demo b.
Proof.
  destruct (sock4_xlate_fwd_backend_origin cfg_demo env_demo ctx_demo
              ctx_demo true st_demo (ctx_key ctx_demo) svc_demo
              (snd (fst fwd_demo)) (snd fwd_demo))
    as (id & b & Hb & Hctx & _).
  - vm_compute. reflexivity.
  - vm_compute. reflexivity.
  - reflexivity.
  - exists id, b. auto.
Defined.

(** *** Health probes *)

(** X9. A health-probe socket of the host namespace that binds, on an enabled
    protocol and with room in the health table, is let through with address
    and port zeroed, and the table maps its cookie to the address, port and
    protocol it asked for.  A later connect of a probe socket with that
    cookie is let through with the port of the context replaced by the
    recorded one and the address untouched (with L4 DNAT skipped, the context
    is left alone). *)
Theorem sock4_probe_bind_then_connect cfg e e2 ctx ctx2 st :
  sock_proto_enabled cfg (protocol ctx) = true ->
  fst (ctx_in_hostns cfg e) = true ->
  sock_is_health_check cfg e = true ->
  health_update_error e = None ->
  sock_is_health_check cfg e2 = true ->
  socket_cookie e2 = socket_cookie e ->
  exists st1,
    sock4_pre_bind cfg e ctx st = (SYS_PROCEED, sock4_auto_bind ctx, st1)
    /\ user_ip4 (sock4_auto_bind ctx) = 0
    /\ user_port (sock4_auto_bind ctx) = 0
    /\ LB4_HEALTH_MAP st1 !! socket_cookie e
       = Some {| peer := {| peer_address := user_ip4 ctx;
                            peer_port := ctx_dst_port ctx;
                            peer_proto := protocol ctx |} |}
    /\ sock4_connect cfg e2 ctx2 st1
       = (SYS_PROCEED,
          if lb_skip_l4_dnat cfg then ctx2
          else ctx_set_port ctx2 (ctx_dst_port ctx),
          st1).
Proof.
  intros Hp Hns Hh Herr Hh2 Hck.
  unfold sock4_pre_bind, __sock4_pre_bind, map_update_elem.
  rewrite Hp, Hns, Hh, Herr; simpl.
  eexists. split; [reflexivity |].
  split; [reflexivity |]. split; [reflexivity |].
  split; [simpl; apply lookup_insert_eq |].
  unfold sock4_connect, __sock4_health_fwd. rewrite Hh2.
  assert (ENABLE_HEALTH_CHECK cfg = true) as ->.
  { unfold sock_is_health_check in Hh.
    destruct (ENABLE_HEALTH_CHECK cfg); [reflexivity | discriminate]. }
  destruct (lb_skip_l4_dnat cfg); simpl; [reflexivity |].
  rewrite Hck, lookup_insert_eq. reflexivity.
Qed.

(** [sock4_probe_bind_then_connect] on the concrete world. *)
Lemma sock4_probe_bind_then_connect_witness :
  exists st1,
    sock4_pre_bind cfg_demo env_probe ctx_demo st_demo
    = (SYS_PROCEED, sock4_auto_bind ctx_demo, st1)
    /\ verdict (sock4_connect cfg_demo env_probe ctx_reply st1)
       = SYS_PROCEED.
Proof.
  destruct (sock4_probe_bind_then_connect cfg_demo env_probe env_probe
              ctx_demo ctx_reply st_demo)
    as (st1 & Hb & _ & _ & _ & Hc); try reflexivity.
  exists st1. split; [exact Hb |]. rewrite Hc. reflexivity.
Defined.

(** X10. A pre-bind on a disabled protocol, from another namespace than the
    host's, on a socket that is no health probe, or whose registration fails,
    leaves the context and every IPv4 map as they were, and it rejects only
    in the last case. *)
Theorem sock4_pre_bind_untouched cfg e ctx st v ctx' st' :
  sock4_pre_bind cfg e ctx st = (v, ctx', st') ->
  sock_proto_enabled cfg (protocol ctx) = false
  \/ fst (ctx_in_hostns cfg e) = false
  \/ sock_is_health_check cfg e = false
  \/ health_update_error e <> None ->
  ctx' = ctx
  /\ LB4_HEALTH_MAP st' = LB4_HEALTH_MAP st
  /\ LB4_SERVICES_MAP_V2 st' = LB4_SERVICES_MAP_V2 st
  /\ LB4_BACKEND_MAP st' = LB4_BACKEND_MAP st
  /\ LB4_AFFINITY_MAP st' = LB4_AFFINITY_MAP st
  /\ LB4_REVERSE_NAT_SK_MAP st' = LB4_REVERSE_NAT_SK_MAP st
  /\ (v = SYS_REJECT ->
      sock_is_health_check cfg e = true /\ health_update_error e <> None).
Proof.
  unfold sock4_pre_bind, __sock4_pre_bind, map_update_elem.
  intros H Hwhy. revert H.
  destruct (sock_proto_enabled cfg (protocol ctx)); simpl;
    [| intros [= <- <- <-]; repeat split; discriminate].
  destruct (fst (ctx_in_hostns cfg e)); simpl;
    [| intros [= <- <- <-]; repeat split; discriminate].
  destruct (sock_is_health_check cfg e); simpl;
    [| intros [= <- <- <-]; repeat split; discriminate].
  destruct (health_update_error e) as [errno |]; simpl.
  - intros [= <- <- <-]. repeat split; discriminate.
  - destruct Hwhy as [? | [? | [? | ?]]]; done.
Qed.

(** [sock4_pre_bind_untouched] on the concrete world. *)
Lemma sock4_pre_bind_untouched_witness :
  snd (fst (sock4_pre_bind cfg_demo env_host ctx_demo st_demo)) = ctx_demo.
Proof.
  apply (sock4_pre_bind_untouched cfg_demo env_host ctx_demo st_demo
           (fst (fst (sock4_pre_bind cfg_demo env_host ctx_demo st_demo)))
           (snd (fst (sock4_pre_bind cfg_demo env_host ctx_demo st_demo)))
           (snd (sock4_pre_bind cfg_demo env_host ctx_demo st_demo))).
  - vm_compute. reflexivity.
  - right; right; left. reflexivity.
Defined.

(** *** From the send hook to the receive hook *)

(** The service lookup reads the service directory and the ipcache only. *)
Lemma sock4_service_lookup_frame cfg st st' key in_hostns :
  LB4_SERVICES_MAP_V2 st' = LB4_SERVICES_MAP_V2 st ->
  IPCACHE_MAP st' = IPCACHE_MAP st ->
  sock4_service_lookup cfg st' key in_hostns
  = sock4_service_lookup cfg st key in_hostns.
Proof.
  intros Hs Hi.
  unfold sock4_service_lookup, sock4_wildcard_lookup_full,
    sock4_wildcard_lookup, lb4_lookup_service, ipcache_lookup4.
  rewrite Hs, Hi. reflexivity.
Qed.

(** A reverse translation that follows a successful forward translation of
    the same socket, on the state the latter left and keyed by the backend it
    chose, gives the original destination back. *)
Lemma sock4_xlate_fwd_then_rev cfg e ctx ctx_full udp_only st ctx1 st1
    ctxr ctx_fullr :
  ENABLE_HOST_SERVICES_UDP cfg || ENABLE_HOST_SERVICES_PEER cfg = true ->
  BPF_HAVE_SOCKET_COOKIE cfg = true \/ protocol ctx_full <> IPPROTO_TCP ->
  protocol ctx_fullr = protocol ctx_full ->
  __sock4_xlate_fwd cfg e ctx ctx_full udp_only st = (0, ctx1, st1) ->
  user_ip4 ctxr = user_ip4 ctx1 ->
  ctx_dst_port ctxr = user_port ctx1 ->
  __sock4_xlate_rev cfg e ctxr ctx_fullr st1
  = (0, ctx_to_frontend ctxr (user_ip4 ctx) (ctx_dst_port ctx), st1).
Proof.
  intros Hrev Hck Hproto H Hip Hport.
  assert (BPF_HAVE_SOCKET_COOKIE cfg = true
          \/ protocol ctx_fullr <> IPPROTO_TCP) as Hckr
    by (rewrite Hproto; exact Hck).
  pose proof (sock4_xlate_fwd_state _ _ _ _ _ _ _ _ _ H) as Hst.
  destruct (sock4_xlate_fwd_committed _ _ _ _ _ _ _ _ _ H)
    as (key & svc & id & b & fa & st' & Hsvc & _ & _ & Hc); [auto |].
  apply fwd4_commit_inv in Hc
    as [(Hr & _) | [(Hr & _) | (_ & -> & r & Hu & Hr)]];
    try discriminate Hr.
  pose proof (sock4_update_revnat_ok _ _ _ _ _ _ _ _ _ Hrev Hu Hr) as Hentry.
  simpl in Hentry. rewrite sock_local_cookie_stable in Hentry by exact Hck.
  simpl in Hentry, Hport, Hip.
  rewrite (sock4_xlate_rev_hit cfg e _ _ st1
             {| re_address := user_ip4 ctx; re_port := ctx_dst_port ctx;
                re_rev_nat_index := rev_nat_index svc |} svc).
  - rewrite sock_local_cookie_stable by exact Hckr. reflexivity.
  - unfold sock4_rev_key.
    rewrite sock_local_cookie_stable by exact Hckr. simpl.
    rewrite Hip, Hport. exact Hentry.
  - simpl. rewrite (sock4_service_lookup_frame cfg st st1);
      [| rewrite Hst; reflexivity | rewrite Hst; reflexivity].
    change {| address := user_ip4 ctx; dport := ctx_dst_port ctx;
              backend_slot := 0 |} with (ctx_key ctx).
    rewrite Hsvc. reflexivity.
  - reflexivity.
Qed.

(** X11. When the forward translation of a datagram succeeds, [sock4_sendmsg]
    proceeds with the destination rewritten to the backend, and
    [sock4_recvmsg] and [sock4_getpeername] called by the same socket with
    that backend as peer, on the state the send left, proceed with the
    original destination address and port restored and the state unchanged.
    The socket has a stable cookie (the helper exists, or it is not TCP) and
    the backend's port fits 16 bits. *)
Theorem sock4_sendmsg_recvmsg_round_trip cfg e ctx st ctx1 st1 :
  ENABLE_HOST_SERVICES_UDP cfg || ENABLE_HOST_SERVICES_PEER cfg = true ->
  BPF_HAVE_SOCKET_COOKIE cfg = true \/ protocol ctx <> IPPROTO_TCP ->
  __sock4_xlate_fwd cfg e ctx ctx true st = (0, ctx1, st1) ->
  ctx_dst_port ctx1 = user_port ctx1 ->
  sock4_sendmsg cfg e ctx st = (SYS_PROCEED, ctx1, st1)
  /\ user_ip6 ctx1 = user_ip6 ctx /\ protocol ctx1 = protocol ctx
  /\ sock4_recvmsg cfg e ctx1 st1
     = (SYS_PROCEED, ctx_set_port ctx (ctx_dst_port ctx), st1)
  /\ sock4_getpeername cfg e ctx1 st1
     = (SYS_PROCEED, ctx_set_port ctx (ctx_dst_port ctx), st1).
Proof.
  intros Hrev Hck H Hport.
  destruct (sock4_xlate_fwd_committed _ _ _ _ _ _ _ _ _ H)
    as (key & svc & id & b & fa & st' & _ & _ & _ & Hc); [auto |].
  apply fwd4_commit_inv in Hc
    as [(Hr & _) | [(Hr & _) | (_ & Hctx & _)]]; try discriminate Hr.
  assert (user_ip6 ctx1 = user_ip6 ctx /\ protocol ctx1 = protocol ctx)
    as [Hip6 Hproto] by (rewrite Hctx; split; reflexivity).
  pose proof (sock4_xlate_fwd_then_rev cfg e ctx ctx true st ctx1 st1
                ctx1 ctx1 Hrev Hck Hproto H eq_refl Hport) as Hback.
  unfold sock4_sendmsg, sock4_recvmsg, sock4_getpeername.
  rewrite H, Hback.
  assert (ctx_to_frontend ctx1 (user_ip4 ctx) (ctx_dst_port ctx)
          = ctx_set_port ctx (ctx_dst_port ctx)) as ->.
  { unfold ctx_to_frontend, ctx_set_port. rewrite Hip6, Hproto.
    reflexivity. }
  auto.
Qed.

(** [sock4_sendmsg_recvmsg_round_trip] on the concrete world. *)
Lemma sock4_sendmsg_recvmsg_round_trip_witness :
  sock4_recvmsg cfg_demo env_demo (snd (fst fwd_demo)) (snd fwd_demo)
  = (SYS_PROCEED, ctx_set_port ctx_demo (ctx_dst_port ctx_demo),
     snd fwd_demo).
Proof.
  apply (sock4_sendmsg_recvmsg_round_trip cfg_demo env_demo ctx_demo st_demo
           (snd (fst fwd_demo)) (snd fwd_demo)).
  - reflexivity.
  - left. reflexivity.
  - vm_compute. reflexivity.
  - vm_compute. reflexivity.
Defined.

(** *** The IPv6 round trip *)

Lemma revnat6_entry_eqb_eq a b : revnat6_entry_eqb a b = true <-> a = b.
Proof.
  unfold revnat6_entry_eqb. destruct a, b; simpl.
  rewrite !andb_true_iff, !Z.eqb_eq, ipv6_addr_equal_eq.
  split; [intros [[-> ->] ->] | intros [= -> -> ->]]; auto.
Qed.

(** The IPv6 reverse-cache write that does not fail leaves the original
    destination and the reverse-NAT identifier under the caller's cookie and
    the backend. *)
Lemma sock6_update_revnat_ok cfg e ctx b orig_key id st ret st' :
  ENABLE_HOST_SERVICES_UDP cfg || ENABLE_HOST_SERVICES_PEER cfg = true ->
  sock6_update_revnat cfg e ctx b orig_key id st = (ret, st') ->
  (ret <? 0) = false ->
  LB6_REVERSE_NAT_SK_MAP st'
    !! {| rt6_cookie := fst (sock_local_cookie cfg e ctx st);
          rt6_address := be6_address b; rt6_port := be6_port b |}
  = Some {| re6_address := address6 orig_key; re6_port := dport6 orig_key;
            re6_rev_nat_index := id |}.
Proof.
  unfold sock6_update_revnat, lru_update_elem. intros ->.
  destruct (sock_local_cookie cfg e ctx st) as [c st1] eqn:Hc; simpl.
  destruct (LB6_REVERSE_NAT_SK_MAP st1 !! _) as [t |] eqn:Ht.
  - destruct (revnat6_entry_eqb t _) eqn:Heq; simpl.
    + apply revnat6_entry_eqb_eq in Heq. subst t. intros [= <- <-] _.
      exact Ht.
    + destruct (revnat_update_error e); intros [= <- <-]; simpl.
      * intros Hneg. apply Z.ltb_ge in Hneg. lia.
      * intros _. apply lookup_insert_eq.
  - destruct (revnat_update_error e); intros [= <- <-]; simpl.
    + intros Hneg. apply Z.ltb_ge in Hneg. lia.
    + intros _. apply lookup_insert_eq.
Qed.

(** A successful IPv6 forward translation that matched an IPv6 service ended
    in the reverse-cache write that did not fail. *)
Lemma sock6_xlate_fwd_committed cfg e ctx udp_only st key svc ctx1 st1 :
  ENABLE_IPV6 cfg = true ->
  sock6_service_lookup cfg st (ctx_key6 ctx) (fst (ctx_in_hostns cfg e))
  = (key, Some svc) ->
  __sock6_xlate_fwd cfg e ctx udp_only st = (0, ctx1, st1) ->
  exists id b stw r,
    LB6_BACKEND_MAP st !! id = Some b
    /\ sock6_skip_xlate cfg st svc (ctx_get_v6_address ctx) = false
    /\ sock6_update_revnat cfg e ctx b (ctx_key6 ctx) (rev_nat_index svc) stw
       = (r, st1)
    /\ (r <? 0) = false
    /\ ctx1 = ctx_set_port (ctx_set_v6_address ctx (be6_address b))
                (be6_port b).
Proof.
  intros H6 Hsvc. unfold __sock6_xlate_fwd, sock6_service_lookup, ctx_key6 in *.
  rewrite H6.
  destruct (ctx_in_hostns cfg e) as [in_hostns c]; simpl in *.
  destruct (ENABLE_SOCKET_LB_HOST_ONLY cfg && negb in_hostns);
    [intros [=] |].
  destruct (negb udp_only && _); [intros [=] |].
  rewrite Hsvc.
  destruct (sock6_skip_xlate cfg st svc _) eqn:Hskip; [intros [=] |].
  destruct (sock_select_slot cfg e ctx st) as [sel st0] eqn:Hs.
  apply sock_select_slot_state in Hs as Hst0.
  assert (forall i, __lb6_lookup_backend st0 i = LB6_BACKEND_MAP st !! i)
    as Hb0 by (intros; rewrite Hst0; reflexivity).
  unfold __lb6_lookup_backend_slot.
  unfold __lb6_lookup_backend at 1.
  intros H.
  repeat case_match; simplify_eq;
    match goal with
    | Hu : sock6_update_revnat _ _ _ ?b _ _ ?stw = (?r, _),
      Hb : _ = Some ?b |- _ =>
        try rewrite Hb0 in Hb;
        eexists _, b, stw, r; repeat split; eauto
    end.
Qed.

(** A cached IPv6 entry whose service still carries the recorded reverse-NAT
    identifier is translated back. *)
Lemma sock6_xlate_rev_hit cfg e ctx st val svc :
  ENABLE_IPV6 cfg = true ->
  LB6_REVERSE_NAT_SK_MAP st !! sock6_rev_key cfg e ctx st = Some val ->
  snd (sock6_service_lookup cfg st
         {| address6 := re6_address val; dport6 := re6_port val;
            backend_slot6 := 0 |} (fst (ctx_in_hostns cfg e))) = Some svc ->
  rev_nat_index svc = re6_rev_nat_index val ->
  __sock6_xlate_rev cfg e ctx st
  = (0, ctx_set_port (ctx_set_v6_address ctx (re6_address val))
          (re6_port val),
     snd (sock_local_cookie cfg e ctx st)).
Proof.
  intros H6 Hval Hsvc Hid. unfold __sock6_xlate_rev, sock6_rev_key in *.
  rewrite H6.
  destruct (sock_local_cookie cfg e ctx st) as [c st1] eqn:Hc.
  apply sock_local_cookie_state in Hc as Hst1. simpl in *.
  assert (LB6_REVERSE_NAT_SK_MAP st1 = LB6_REVERSE_NAT_SK_MAP st) as ->
    by (rewrite Hst1; reflexivity).
  rewrite Hval.
  assert (forall k h, sock6_service_lookup cfg st1 k h
                      = sock6_service_lookup cfg st k h) as Hl
    by (intros; rewrite Hst1; reflexivity).
  unfold sock6_service_lookup in Hl, Hsvc.
  specialize (Hl {| address6 := re6_address val; dport6 := re6_port val;
                    backend_slot6 := 0 |} (fst (ctx_in_hostns cfg e))).
  destruct (lb6_lookup_service st1 _) as [s1 |] eqn:Hs1;
    destruct (lb6_lookup_service st _) as [s |] eqn:Hs; simpl in *.
  - injection Hl as ->. injection Hsvc as ->.
    rewrite Hid, Z.eqb_refl. reflexivity.
  - rewrite <- Hl in Hsvc. simpl in Hsvc. injection Hsvc as ->.
    rewrite Hid, Z.eqb_refl. reflexivity.
  - rewrite Hl. simpl. injection Hsvc as ->.
    rewrite Hid, Z.eqb_refl. reflexivity.
  - rewrite Hl, Hsvc, Hid, Z.eqb_refl. reflexivity.
Qed.

(** X12. Let an IPv6 forward translation that matched the IPv6 service [svc]
    succeed, with the reverse cache compiled in.  Then it has rewritten the
    destination to a backend [b] and left under [(cookie, b)] the original
    IPv6 destination and the reverse-NAT identifier of [svc].  Any later IPv6
    reverse translation keyed by the same cookie and backend, in a state that
    still holds the entry and where the frontend resolves to a service with
    the same identifier, returns 0 with the original address and port. *)
Theorem sock6_xlate_round_trip cfg e ctx udp_only st key svc ctx1 st1 :
  ENABLE_IPV6 cfg = true ->
  ENABLE_HOST_SERVICES_UDP cfg || ENABLE_HOST_SERVICES_PEER cfg = true ->
  sock6_service_lookup cfg st (ctx_key6 ctx) (fst (ctx_in_hostns cfg e))
  = (key, Some svc) ->
  __sock6_xlate_fwd cfg e ctx udp_only st = (0, ctx1, st1) ->
  exists b cookie,
    ctx1 = ctx_set_port (ctx_set_v6_address ctx (be6_address b)) (be6_port b)
    /\ (BPF_HAVE_SOCKET_COOKIE cfg = true -> cookie = socket_cookie e)
    /\ (BPF_HAVE_SOCKET_COOKIE cfg = false ->
        protocol ctx <> IPPROTO_TCP -> cookie = 0)
    /\ LB6_REVERSE_NAT_SK_MAP st1
         !! {| rt6_cookie := cookie; rt6_address := be6_address b;
               rt6_port := be6_port b |}
       = Some {| re6_address := ctx_get_v6_address ctx;
                 re6_port := ctx_dst_port ctx;
                 re6_rev_nat_index := rev_nat_index svc |}
    /\ forall e2 ctx2 st2 svc2,
         sock6_rev_key cfg e2 ctx2 st2
         = {| rt6_cookie := cookie; rt6_address := be6_address b;
              rt6_port := be6_port b |} ->
         LB6_REVERSE_NAT_SK_MAP st2
           !! {| rt6_cookie := cookie; rt6_address := be6_address b;
                 rt6_port := be6_port b |}
         = LB6_REVERSE_NAT_SK_MAP st1
             !! {| rt6_cookie := cookie; rt6_address := be6_address b;
                   rt6_port := be6_port b |} ->
         snd (sock6_service_lookup cfg st2 (ctx_key6 ctx)
                (fst (ctx_in_hostns cfg e2))) = Some svc2 ->
         rev_nat_index svc2 = rev_nat_index svc ->
         __sock6_xlate_rev cfg e2 ctx2 st2
         = (0,
            ctx_set_port (ctx_set_v6_address ctx2 (ctx_get_v6_address ctx))
              (ctx_dst_port ctx),
            snd (sock_local_cookie cfg e2 ctx2 st2)).
Proof.
  intros H6 Hrev Hsvc H.
  destruct (sock6_xlate_fwd_committed _ _ _ _ _ _ _ _ _ H6 Hsvc H)
    as (id & b & stw & r & _ & _ & Hu & Hr & ->).
  pose proof (sock6_update_revnat_ok _ _ _ _ _ _ _ _ _ Hrev Hu Hr) as Hentry.
  simpl in Hentry.
  exists b, (fst (sock_local_cookie cfg e ctx stw)).
  split; [reflexivity |].
  split; [intros Hc; unfold sock_local_cookie; rewrite Hc; reflexivity |].
  split.
  { intros Hc Hp. rewrite sock_local_cookie_stable by auto.
    rewrite Hc. reflexivity. }
  split; [exact Hentry |].
  intros e2 ctx2 st2 svc2 Hkey Hkeep Hsvc2 Hid.
  rewrite (sock6_xlate_rev_hit cfg e2 ctx2 st2
             {| re6_address := ctx_get_v6_address ctx;
                re6_port := ctx_dst_port ctx;
                re6_rev_nat_index := rev_nat_index svc |} svc2).
  - reflexivity.
  - exact H6.
  - rewrite Hkey, Hkeep. exact Hentry.
  - exact Hsvc2.
  - exact Hid.
Qed.

(** [sock6_xlate_round_trip] on the concrete world. *)
Lemma sock6_xlate_round_trip_witness :
  exists b,
    snd (fst fwd6_demo)
    = ctx_set_port (ctx_set_v6_address ctx6_demo (be6_address b))
        (be6_port b)
    /\ __sock6_xlate_rev cfg_demo env_demo (snd (fst fwd6_demo))
         (snd fwd6_demo)
       = (0,
          ctx_set_port
            (ctx_set_v6_address (snd (fst fwd6_demo))
               (ctx_get_v6_address ctx6_demo))
            (ctx_dst_port ctx6_demo),
          snd (sock_local_cookie cfg_demo env_demo (snd (fst fwd6_demo))
                 (snd fwd6_demo))).
Proof.
  destruct (sock6_xlate_round_trip cfg_demo env_demo ctx6_demo true
              st6_demo (ctx_key6 ctx6_demo) svc6_demo
              (snd (fst fwd6_demo)) (snd fwd6_demo))
    as (b & cookie & Hctx & Hck & _ & Hent & Hrt).
  - reflexivity.
  - reflexivity.
  - vm_compute. reflexivity.
  - vm_compute. reflexivity.
  - exists b. split; [exact Hctx |].
    specialize (Hck eq_refl). subst cookie.
    apply (Hrt env_demo (snd (fst fwd6_demo)) (snd fwd6_demo) svc6_demo).
    + rewrite Hctx. destruct b as [[a1 a2 a3 a4] p]. vm_compute in Hctx.
      injection Hctx as <- <- <- <- <-. vm_compute. reflexivity.
    + reflexivity.
    + vm_compute. reflexivity.
    + reflexivity.
Defined.

(** X13. Past the two guards of the IPv6 forward translation, when the IPv6
    service matched is flagged external-IP, or HostPort with an original
    destination other than [::1], and the trust lookup on the original
    destination does not give the host's own identity, the call returns
    [-EPERM] and leaves the context and the state as they were. *)
Theorem sock6_xlate_fwd_anti_mitm cfg e ctx udp_only st key svc :
  ENABLE_IPV6 cfg = true ->
  ENABLE_SOCKET_LB_HOST_ONLY cfg && negb (fst (ctx_in_hostns cfg e)) = false ->
  negb udp_only && negb (sock_proto_enabled cfg (protocol ctx)) = false ->
  sock6_service_lookup cfg st (ctx_key6 ctx) (fst (ctx_in_hostns cfg e))
  = (key, Some svc) ->
  lb6_svc_is_external_ip svc = true
  \/ (lb6_svc_is_hostport svc = true
      /\ ctx_get_v6_address ctx
         <> {| p1 := 0; p2 := 0; p3 := 0; p4 := bpf_htonl cfg 1 |}) ->
  (forall info,
     ipcache_lookup6 st (ctx_get_v6_address ctx) = Some info ->
     sec_label info <> HOST_ID cfg) ->
  __sock6_xlate_fwd cfg e ctx udp_only st = (- EPERM, ctx, st).
Proof.
  intros H6 Hhost Hproto Hsvc Hflag Hid.
  unfold __sock6_xlate_fwd, sock6_service_lookup, ctx_key6 in *.
  rewrite H6.
  destruct (ctx_in_hostns cfg e) as [in_hostns c]; simpl in *.
  rewrite Hhost, Hproto, Hsvc.
  assert (sock6_skip_xlate cfg st svc (ctx_get_v6_address ctx) = true) as ->;
    [| reflexivity].
  unfold sock6_skip_xlate.
  assert (lb6_svc_is_external_ip svc
          || lb6_svc_is_hostport svc
             && negb (is_v6_loopback cfg (ctx_get_v6_address ctx)) = true)
    as ->.
  { destruct Hflag as [-> | [-> Hnl]]; [reflexivity |].
    rewrite orb_true_iff. right. simpl. apply negb_true_iff.
    unfold is_v6_loopback.
    destruct (ipv6_addr_equal _ _) eqn:Heq; [| reflexivity].
    apply ipv6_addr_equal_eq in Heq. congruence. }
  destruct (ipcache_lookup6 st _) as [info |] eqn:Hi; [| reflexivity].
  apply negb_true_iff, Z.eqb_neq. auto.
Qed.

(** [sock6_xlate_fwd_anti_mitm] on the concrete world. *)
Lemma sock6_xlate_fwd_anti_mitm_witness :
  __sock6_xlate_fwd cfg_demo env_demo ctx6_external true st6_demo
  = (- EPERM, ctx6_external, st6_demo).
Proof.
  apply (sock6_xlate_fwd_anti_mitm cfg_demo env_demo ctx6_external true
           st6_demo (ctx_key6 ctx6_external) svc6_external).
  - reflexivity.
  - reflexivity.
  - reflexivity.
  - vm_compute. reflexivity.
  - left. reflexivity.
  - intros info. vm_compute. discriminate.
Defined.

(** *** IPv4-mapped IPv6 destinations *)

Lemma ctx_dst_port_idem ctx p :
  user_port ctx = ctx_dst_port p -> ctx_dst_port ctx = ctx_dst_port p.
Proof.
  unfold ctx_dst_port. intros ->.
  change 65535 with (Z.ones 16). rewrite !Z.land_ones by lia.
  apply Z.mod_mod. lia.
Qed.

(** When no IPv6 service matches, a forward translation that returns 0 went
    through the IPv4-mapped path. *)
Lemma sock6_xlate_fwd_mapped_path cfg e ctx udp_only st ctx1 st1 :
  (ENABLE_IPV6 cfg = true ->
   snd (sock6_service_lookup cfg st (ctx_key6 ctx)
          (fst (ctx_in_hostns cfg e))) = None) ->
  __sock6_xlate_fwd cfg e ctx udp_only st = (0, ctx1, st1) ->
  ENABLE_IPV4 cfg = true
  /\ is_v4_in_v6 cfg (ctx_get_v6_address ctx) = true
  /\ exists c4,
       __sock4_xlate_fwd cfg e (fake_ctx_of ctx (ctx_get_v6_address ctx)) ctx
         udp_only st = (0, c4, st1)
       /\ ctx1 = ctx_set_port
                   (ctx_set_v6_address ctx
                      (build_v4_in_v6 cfg (user_ip4 c4)))
                   (user_port c4).
Proof.
  intros Hnone H.
  assert (sock6_xlate_v4_in_v6 cfg e ctx udp_only st = (0, ctx1, st1)) as Hv.
  { revert H. unfold __sock6_xlate_fwd, sock6_service_lookup, ctx_key6 in *.
    destruct (ENABLE_IPV6 cfg); [| auto].
    specialize (Hnone eq_refl).
    destruct (ctx_in_hostns cfg e) as [in_hostns c]; simpl in *.
    destruct (ENABLE_SOCKET_LB_HOST_ONLY cfg && negb in_hostns);
      [intros [=] |].
    destruct (negb udp_only && _); [intros [=] |].
    destruct (match lb6_lookup_service st _ with
              | Some s => _
              | None => _
              end) as [key [svc |]]; [discriminate Hnone | auto]. }
  revert Hv. unfold sock6_xlate_v4_in_v6.
  destruct (ENABLE_IPV4 cfg); [| intros [=]].
  destruct (is_v4_in_v6 cfg _); simpl; [| intros [=]].
  destruct (__sock4_xlate_fwd cfg e _ ctx udp_only st) as [[r c4] s] eqn:H4.
  pose proof (sock4_xlate_fwd_error _ _ _ _ _ _ _ _ _ H4) as Herr.
  destruct (r <? 0) eqn:Hr; [intros [= -> _ _]; discriminate Hr |].
  intros [= <- <-].
  assert (r = 0) as ->.
  { destruct (Z.eq_dec r 0) as [| Hnz]; [assumption |].
    destruct (Herr Hnz) as [_ Hin]. apply Z.ltb_ge in Hr.
    simpl in Hin. unfold ENXIO, ENOTSUP, EPERM, ENOENT, ENOMEM in Hin. lia. }
  split; [reflexivity |]. split; [reflexivity |].
  exists c4. auto.
Qed.

(** X14. When the IPv6 forward translation succeeds without an IPv6 service
    matched, the destination was an IPv4-mapped address, it has been
    rewritten to the IPv4-mapped address and the port of an IPv4 backend, and
    the IPv6 reverse translation by the same socket with that backend as
    peer, on the state left and with no IPv6 reverse-NAT entry in the way,
    restores the original IPv4-mapped destination and port; so does
    [sock6_recvmsg]. *)
Theorem sock6_v4_mapped_round_trip cfg e ctx udp_only st ctx1 st1 :
  ENABLE_HOST_SERVICES_UDP cfg || ENABLE_HOST_SERVICES_PEER cfg = true ->
  BPF_HAVE_SOCKET_COOKIE cfg = true \/ protocol ctx <> IPPROTO_TCP ->
  (ENABLE_IPV6 cfg = true ->
   snd (sock6_service_lookup cfg st (ctx_key6 ctx)
          (fst (ctx_in_hostns cfg e))) = None) ->
  __sock6_xlate_fwd cfg e ctx udp_only st = (0, ctx1, st1) ->
  ctx_dst_port ctx1 = user_port ctx1 ->
  (ENABLE_IPV6 cfg = true ->
   LB6_REVERSE_NAT_SK_MAP st1 !! sock6_rev_key cfg e ctx1 st1 = None) ->
  is_v4_in_v6 cfg (ctx_get_v6_address ctx) = true
  /\ (exists id b,
        LB4_BACKEND_MAP st !! id = Some b
        /\ ctx1 = ctx_set_port
                    (ctx_set_v6_address ctx
                       (build_v4_in_v6 cfg (be_address b)))
                    (be_port b))
  /\ __sock6_xlate_rev cfg e ctx1 st1
     = (0, ctx_set_port ctx (ctx_dst_port ctx), st1)
  /\ sock6_recvmsg cfg e ctx1 st1
     = (SYS_PROCEED, ctx_set_port ctx (ctx_dst_port ctx), st1).
Proof.
  intros Hrev Hck Hnone H Hport Hno6.
  destruct (sock6_xlate_fwd_mapped_path _ _ _ _ _ _ _ Hnone H)
    as (H4on & Hmapped & c4 & H4 & Hctx1).
  split; [exact Hmapped |].
  destruct (sock4_xlate_fwd_committed _ _ _ _ _ _ _ _ _ H4)
    as (key & svc & id & b & fa & st' & _ & _ & Hsel & Hc); [auto |].
  apply fwd4_selected_backend in Hsel.
  apply fwd4_commit_inv in Hc
    as [(Hr & _) | [(Hr & _) | (_ & Hc4 & _)]]; try discriminate Hr.
  split.
  { exists id, b. split; [exact Hsel |]. rewrite Hctx1, Hc4. reflexivity. }
  assert (__sock6_xlate_rev cfg e ctx1 st1
          = (0, ctx_set_port ctx (ctx_dst_port ctx), st1)) as Hback.
  { assert (__sock6_xlate_rev cfg e ctx1 st1
            = sock6_xlate_rev_v4_in_v6 cfg e ctx1 st1) as ->.
    { unfold __sock6_xlate_rev, sock6_rev_key in *.
      destruct (ENABLE_IPV6 cfg); [| reflexivity].
      specialize (Hno6 eq_refl). revert Hno6.
      assert (BPF_HAVE_SOCKET_COOKIE cfg = true
              \/ protocol ctx1 <> IPPROTO_TCP) as Hck1
        by (rewrite Hctx1; exact Hck).
      rewrite sock_local_cookie_stable by exact Hck1. simpl.
      intros ->. reflexivity. }
    unfold sock6_xlate_rev_v4_in_v6. rewrite H4on.
    assert (ctx_get_v6_address ctx1
            = build_v4_in_v6 cfg (be_address b)) as Haddr1
      by (rewrite Hctx1, Hc4; reflexivity).
    rewrite Haddr1.
    assert (is_v4_in_v6 cfg (build_v4_in_v6 cfg (be_address b)) = true)
      as -> by (apply is_v4_in_v6_built; reflexivity).
    simpl.
    rewrite (sock4_xlate_fwd_then_rev cfg e
               (fake_ctx_of ctx (ctx_get_v6_address ctx)) ctx udp_only st
               c4 st1 _ ctx1 Hrev Hck).
    - simpl.
      apply is_v4_in_v6_built in Hmapped.
      assert (ctx_dst_port (fake_ctx_of ctx (ctx_get_v6_address ctx))
              = ctx_dst_port ctx) as -> by (apply ctx_dst_port_idem;
                                            reflexivity).
      unfold ctx_set_port, ctx_set_v6_address, build_v4_in_v6 in *.
      rewrite Hctx1; simpl.
      destruct ctx as [ip4 [a1 a2 a3 a4] port proto]; simpl in *.
      injection Hmapped as -> -> ->. reflexivity.
    - rewrite Hctx1. reflexivity.
    - exact H4.
    - rewrite Hc4. reflexivity.
    - transitivity (ctx_dst_port ctx1);
        [apply ctx_dst_port_idem; reflexivity |].
      rewrite Hport, Hctx1. reflexivity. }
  split; [exact Hback |].
  unfold sock6_recvmsg. rewrite Hback. reflexivity.
Qed.

(** [sock6_v4_mapped_round_trip] on the concrete world. *)
Lemma sock6_v4_mapped_round_trip_witness :
  sock6_recvmsg cfg_demo env_demo (snd (fst fwd6_mapped)) (snd fwd6_mapped)
  = (SYS_PROCEED, ctx_set_port ctx6_mapped (ctx_dst_port ctx6_mapped),
     snd fwd6_mapped).
Proof.
  apply (sock6_v4_mapped_round_trip cfg_demo env_demo ctx6_mapped true
           st6_demo (snd (fst fwd6_mapped)) (snd fwd6_mapped)).
  - reflexivity.
  - left. reflexivity.
  - intros _. vm_compute. reflexivity.
  - vm_compute. reflexivity.
  - vm_compute. reflexivity.
  - intros _. vm_compute. reflexivity.
Defined.

(** *** The bind-conflict guard on IPv6 sockets *)

(** X15. For a caller in the host namespace and an enabled protocol,
    [sock6_post_bind] rejects exactly when the IPv6 service found for the
    bound address and port, exactly or by the wildcard lookup, is flagged
    NodePort, external-IP or load-balancer, or when no IPv6 service is found,
    IPv4 is compiled in, the bound address is IPv4-mapped and the IPv4
    service found for the embedded address and the port is so flagged. *)
Theorem sock6_post_bind_conflict cfg e ctx st :
  sock_proto_enabled cfg (sk_protocol ctx) = true ->
  fst (ctx_in_hostns cfg e) = true ->
  sock6_post_bind cfg e ctx st = SYS_REJECT
  <-> (exists svc,
         bind_conflict_service6 cfg st (bind_key6 cfg ctx) = Some svc
         /\ svc_is_reserved svc = true)
      \/ (bind_conflict_service6 cfg st (bind_key6 cfg ctx) = None
          /\ ENABLE_IPV4 cfg = true
          /\ is_v4_in_v6 cfg (ctx_get_v6_src_address ctx) = true
          /\ exists svc,
               bind_conflict_service cfg st (bind_key_mapped cfg ctx)
               = Some svc
               /\ svc_is_reserved svc = true).
Proof.
  intros Hp Hns.
  unfold sock6_post_bind, __sock6_post_bind, bind_conflict_service6,
    bind_key6.
  rewrite Hp, Hns; simpl.
  destruct (match lb6_lookup_service st _ with
            | Some s => Some s
            | None => _
            end) as [svc |] eqn:Hfound.
  - change (lb6_svc_is_nodeport svc || lb6_svc_is_external_ip svc
            || lb6_svc_is_loadbalancer svc) with (svc_is_reserved svc).
    destruct (svc_is_reserved svc) eqn:Hres; simpl.
    + split; [intros _; left; eauto | reflexivity].
    + split; [discriminate |].
      intros [(s & [= <-] & Hs) | (Hn & _)]; congruence.
  - unfold sock6_post_bind_v4_in_v6.
    destruct (ENABLE_IPV4 cfg); simpl;
      [| split; [discriminate | intros [(s & Hs & _) | (_ & Hs & _)];
                                  discriminate Hs]].
    destruct (is_v4_in_v6 cfg (ctx_get_v6_src_address ctx)); simpl;
      [| split; [discriminate | intros [(s & Hs & _) | (_ & _ & Hs & _)];
                                  discriminate Hs]].
    rewrite sock4_post_bind_lookup by (simpl; assumption).
    change (bind_key cfg _) with (bind_key_mapped cfg ctx).
    destruct (bind_conflict_service cfg st (bind_key_mapped cfg ctx))
      as [s4 |]; simpl.
    + destruct (svc_is_reserved s4) eqn:Hres; simpl.
      * split; [intros _; right; eauto 10 | reflexivity].
      * split; [discriminate |].
        intros [(s & Hs & _) | (_ & _ & _ & s & [= <-] & Hs)]; congruence.
    + split; [discriminate |].
      intros [(s & Hs & _) | (_ & _ & _ & s & Hs & _)]; discriminate Hs.
Qed.

(** [sock6_post_bind_conflict] on the concrete world. *)
Lemma sock6_post_bind_conflict_witness :
  sock6_post_bind cfg_demo env_host sk6_mapped_nodeport st_demo = SYS_REJECT.
Proof.
  apply (proj2 (sock6_post_bind_conflict cfg_demo env_host
                  sk6_mapped_nodeport st_demo eq_refl eq_refl)).
  right. split; [vm_compute; reflexivity |].
  split; [reflexivity |]. split; [reflexivity |].
  exists svc_nodeport. split; [vm_compute; reflexivity | reflexivity].
Defined.

(** *** Health probes on IPv6 sockets *)

(** X16. A health-probe socket of the host namespace that binds an IPv6
    address, with its family compiled in and room in the health table, is let
    through with the port zeroed and the address replaced by [::] (by
    [::ffff:0.0.0.0] for an IPv4-mapped address).  A later connect of a probe
    socket with the same cookie to a destination of the same family is let
    through with the port replaced by the one recorded at bind time. *)
Theorem sock6_probe_bind_then_connect cfg e e2 ctx ctx2 st :
  sock_proto_enabled cfg (protocol ctx) = true ->
  fst (ctx_in_hostns cfg e) = true ->
  sock_is_health_check cfg e = true ->
  health_update_error e = None ->
  sock_is_health_check cfg e2 = true ->
  socket_cookie e2 = socket_cookie e ->
  (if is_v4_in_v6 cfg (ctx_get_v6_address ctx)
   then ENABLE_IPV4 cfg else ENABLE_IPV6 cfg) = true ->
  is_v4_in_v6 cfg (ctx_get_v6_address ctx2)
  = is_v4_in_v6 cfg (ctx_get_v6_address ctx) ->
  exists st1,
    sock6_pre_bind cfg e ctx st
    = (SYS_PROCEED,
       ctx_set_port
         (ctx_set_v6_address ctx
            (if is_v4_in_v6 cfg (ctx_get_v6_address ctx)
             then build_v4_in_v6 cfg 0
             else {| p1 := 0; p2 := 0; p3 := 0; p4 := 0 |})) 0,
       st1)
    /\ sock6_connect cfg e2 ctx2 st1
       = (SYS_PROCEED,
          if lb_skip_l4_dnat cfg then ctx2
          else ctx_set_port ctx2 (ctx_dst_port ctx),
          st1).
Proof.
  intros Hp Hns Hh Herr Hh2 Hck Hfam Hfam2.
  assert (ENABLE_HEALTH_CHECK cfg = true) as Hhc.
  { unfold sock_is_health_check in Hh.
    destruct (ENABLE_HEALTH_CHECK cfg); [reflexivity | discriminate]. }
  unfold sock6_pre_bind, __sock6_pre_bind, sock6_pre_bind_v4_in_v6,
    __sock4_pre_bind, map_update_elem, sock6_connect, __sock6_health_fwd,
    __sock4_health_fwd.
  rewrite Hp, Hns, Hh, Hh2, Herr, Hhc, Hfam2; simpl.
  destruct (is_v4_in_v6 cfg (ctx_get_v6_address ctx)); rewrite Hfam; simpl.
  - eexists. split; [reflexivity |].
    destruct (lb_skip_l4_dnat cfg); simpl; [reflexivity |].
    rewrite Hck, lookup_insert_eq. simpl.
    rewrite (ctx_dst_port_idem _ ctx) by reflexivity. reflexivity.
  - eexists. split; [reflexivity |].
    destruct (lb_skip_l4_dnat cfg); simpl; [reflexivity |].
    rewrite Hck, lookup_insert_eq. reflexivity.
Qed.

(** [sock6_probe_bind_then_connect] on the concrete world. *)
Lemma sock6_probe_bind_then_connect_witness :
  exists st1,
    verdict (sock6_pre_bind cfg_demo env_probe ctx6_probe st_demo)
    = SYS_PROCEED
    /\ sock6_connect cfg_demo env_probe ctx6_probe st1
       = (SYS_PROCEED, ctx6_probe, st1).
Proof.
  destruct (sock6_probe_bind_then_connect cfg_demo env_probe env_probe
              ctx6_probe ctx6_probe st_demo)
    as (st1 & Hb & Hc); try reflexivity.
  exists st1. split; [rewrite Hb; reflexivity |].
  rewrite Hc. reflexivity.
Defined.

(** A pre-bind writes to the health table of the family of the address
    bound, never to the other one. *)
Lemma sock6_pre_bind_health cfg e ctx st :
  (is_v4_in_v6 cfg (ctx_get_v6_address ctx) = true ->
   LB6_HEALTH_MAP (snd (sock6_pre_bind cfg e ctx st)) = LB6_HEALTH_MAP st)
  /\ (is_v4_in_v6 cfg (ctx_get_v6_address ctx) = false ->
      LB4_HEALTH_MAP (snd (sock6_pre_bind cfg e ctx st))
      = LB4_HEALTH_MAP st).
Proof.
  unfold sock6_pre_bind, __sock6_pre_bind, sock6_pre_bind_v4_in_v6,
    __sock4_pre_bind, map_update_elem; simpl.
  split; intros ->; repeat case_match; simplify_eq; reflexivity.
Qed.

(** X17. A pre-bind registers a probe in the health table of the family of
    the address bound: the IPv4 table for an IPv4-mapped address, the IPv6
    table otherwise.  So, L4 DNAT not being skipped, a probe socket that
    connects after a pre-bind to a destination of the other family than the
    address bound, the table of that family having held nothing under its
    cookie, is rejected with the context untouched. *)
Theorem sock6_probe_family_mismatch cfg e e2 ctx ctx2 st :
  sock_is_health_check cfg e2 = true ->
  lb_skip_l4_dnat cfg = false ->
  is_v4_in_v6 cfg (ctx_get_v6_address ctx2)
  = negb (is_v4_in_v6 cfg (ctx_get_v6_address ctx)) ->
  (if is_v4_in_v6 cfg (ctx_get_v6_address ctx2)
   then LB4_HEALTH_MAP st !! socket_cookie e2 = None
   else LB6_HEALTH_MAP st !! socket_cookie e2 = None) ->
  sock6_connect cfg e2 ctx2 (snd (sock6_pre_bind cfg e ctx st))
  = (SYS_REJECT, ctx2, snd (sock6_pre_bind cfg e ctx st)).
Proof.
  intros Hh2 Hskip Hfam Hnone.
  assert (ENABLE_HEALTH_CHECK cfg = true) as Hhc.
  { unfold sock_is_health_check in Hh2.
    destruct (ENABLE_HEALTH_CHECK cfg); [reflexivity | discriminate]. }
  destruct (sock6_pre_bind_health cfg e ctx st) as [H6 H4].
  unfold sock6_connect, __sock6_health_fwd, __sock4_health_fwd.
  rewrite Hh2, Hhc, Hskip; simpl.
  destruct (is_v4_in_v6 cfg (ctx_get_v6_address ctx2));
    destruct (is_v4_in_v6 cfg (ctx_get_v6_address ctx));
    try discriminate Hfam.
  - rewrite H4, Hnone by reflexivity. reflexivity.
  - destruct (ENABLE_IPV6 cfg); [| reflexivity].
    rewrite H6, Hnone by reflexivity. reflexivity.
Qed.

(** [sock6_probe_family_mismatch] on the concrete world. *)
Lemma sock6_probe_family_mismatch_witness :
  verdict (sock6_connect cfg_demo env_probe ctx6_demo
             (snd (sock6_pre_bind cfg_demo env_probe ctx6_probe st_demo)))
  = SYS_REJECT.
Proof.
  rewrite (sock6_probe_family_mismatch cfg_demo env_probe env_probe
             ctx6_probe ctx6_demo st_demo); reflexivity.
Defined.

(** *** What an IPv6 wildcard lookup returns *)

(** One call of [sock6_wildcard_lookup] is the port-range test, the test on
    the original address and the lookup with the address zeroed. *)
Lemma sock6_wildcard_lookup_spec cfg st key include_remote_hosts inv_match
    in_hostns :
  sock6_wildcard_lookup cfg st key include_remote_hosts inv_match in_hostns
  = if xorb (in_nodeport_range6 cfg key) inv_match
       && wildcard_source_ok6 cfg st key include_remote_hosts in_hostns
    then ({| address6 := {| p1 := 0; p2 := 0; p3 := 0; p4 := 0 |};
             dport6 := dport6 key; backend_slot6 := backend_slot6 key |},
          lb6_lookup_service st
            {| address6 := {| p1 := 0; p2 := 0; p3 := 0; p4 := 0 |};
               dport6 := dport6 key; backend_slot6 := backend_slot6 key |})
    else (key, None).
Proof.
  unfold sock6_wildcard_lookup, wildcard_source_ok6, in_nodeport_range6.
  rewrite Z.gtb_ltb, !Z.leb_antisym.
  destruct (bpf_ntohs cfg (dport6 key) <? NODEPORT_PORT_MIN cfg),
    (NODEPORT_PORT_MAX cfg <? bpf_ntohs cfg (dport6 key)), inv_match;
    simpl; try reflexivity;
    destruct (in_hostns && is_v6_loopback cfg (address6 key));
    try reflexivity; simpl;
    destruct (ipcache_lookup6 st (address6 key)) as [info |];
    reflexivity.
Qed.

(** X18. A service returned by [sock6_wildcard_lookup_full] is the entry of
    the IPv6 directory under the key with the address zeroed, which is the
    key handed back, and it is a NodePort service for a port in the NodePort
    range or a HostPort service for a port outside it, the original address
    being [::1] (host namespace), the host's, or, for NodePort only, a remote
    node's. *)
Theorem sock6_wildcard_lookup_full_sound cfg st key in_hostns key' s :
  sock6_wildcard_lookup_full cfg st key in_hostns = (key', Some s) ->
  ENABLE_NODEPORT cfg = true
  /\ key' = {| address6 := {| p1 := 0; p2 := 0; p3 := 0; p4 := 0 |};
               dport6 := dport6 key; backend_slot6 := backend_slot6 key |}
  /\ lb6_lookup_service st key' = Some s
  /\ ((lb6_svc_is_nodeport s = true
       /\ in_nodeport_range6 cfg key = true
       /\ wildcard_source_ok6 cfg st key true in_hostns = true)
      \/ (lb6_svc_is_hostport s = true
          /\ in_nodeport_range6 cfg key = false
          /\ wildcard_source_ok6 cfg st key false in_hostns = true)).
Proof.
  unfold sock6_wildcard_lookup_full.
  destruct (ENABLE_NODEPORT cfg); [| discriminate].
  rewrite sock6_wildcard_lookup_spec.
  destruct (in_nodeport_range6 cfg key) eqn:Hr; simpl.
  - destruct (wildcard_source_ok6 cfg st key true in_hostns) eqn:Hok; simpl.
    + destruct (lb6_lookup_service st _) as [s0 |] eqn:Hl; simpl.
      * destruct (lb6_svc_is_nodeport s0) eqn:Hnp; simpl.
        -- intros [= <- <-]. rewrite Hl. auto 10.
        -- rewrite sock6_wildcard_lookup_spec; simpl.
           unfold in_nodeport_range6 in *; simpl. rewrite Hr. discriminate.
      * rewrite sock6_wildcard_lookup_spec; simpl.
        unfold in_nodeport_range6 in *; simpl. rewrite Hr. discriminate.
    + rewrite sock6_wildcard_lookup_spec, Hr. discriminate.
  - rewrite sock6_wildcard_lookup_spec, Hr; simpl.
    destruct (wildcard_source_ok6 cfg st key false in_hostns) eqn:Hok; simpl;
      [| discriminate].
    destruct (lb6_lookup_service st _) as [s0 |] eqn:Hl; simpl;
      [| discriminate].
    destruct (lb6_svc_is_hostport s0) eqn:Hhp; simpl; [| discriminate].
    intros [= <- <-]. rewrite Hl. auto 10.
Qed.

(** [sock6_wildcard_lookup_full_sound] on the concrete world. *)
Lemma sock6_wildcard_lookup_full_sound_witness :
  lb6_lookup_service st6_demo
    {| address6 := v6_zero; dport6 := be16 30080; backend_slot6 := 0 |}
  = Some svc_nodeport.
Proof.
  destruct (sock6_wildcard_lookup_full_sound cfg_demo st6_demo
              {| address6 := v6_loopback; dport6 := be16 30080;
                 backend_slot6 := 0 |} true
              {| address6 := v6_zero; dport6 := be16 30080;
                 backend_slot6 := 0 |}
              svc_nodeport)
    as (_ & _ & Hl & _).
  - vm_compute. reflexivity.
  - exact Hl.
Defined.
